(** * Enrollment and grading core of the campus management application

    A shallow embedding of [models.py], [routes/student.py],
    [routes/teacher.py] and the course handlers of [routes/admin.py].
    The tables are lists of rows in row order; a request handler is a
    function from the committed database to its answer and the database it
    leaves committed (what it commits, or the database it found when it
    returns early, rolls back or fails); Python's [float] is the kernel's
    binary64, with the operations and comparisons of IEEE 754. *)

From Stdlib Require Import ZArith List Bool Floats String Lia.
Import ListNotations.

Set Warnings "-inexact-float".

Local Open Scope Z_scope.

(** ** Request fields *)

(** A text field of a submitted form.  [Blank] is a missing key or the empty
    text, for which Python's [not x] holds.  [Text p] is a non-empty text and
    [p] is what the conversion applied by the handler reads from it:
    [float(x)] for a score or a credit, the integer the INTEGER column
    affinity of SQLite compares an id with; [None] when the conversion
    rejects the text ([ValueError], or no integer to compare with). *)
Inductive field (A : Type) : Type :=
| Blank
| Text (parsed : option A).

Arguments Blank {A}.
Arguments Text {A} parsed.

(** ** models.py *)

Module User.

(** [role]: 0 = student, 1 = teacher, 2 = administrator. *)
Record t := { id : Z; role : Z }.

End User.

Module Course.

Record t := {
  id : Z;
  name : string;
  credit : float;               (* Float, nullable=False *)
  teacher_id : option Z }.

End Course.

Module Enrollment.

Record t := {
  id : Z;
  student_id : Z;
  course_id : Z;
  score : option float }.       (* Float, nullable=True: None = not graded *)

(** The [grade_point] property. *)
Definition grade_point (self : t) : float :=
  match score self with
  | None => 0.0%float
  | Some s =>
      if (s <? 60)%float then 0.0%float
      else (1.0 + (s - 60) * 0.1)%float
  end.

Definition with_score (self : t) (v : option float) : t :=
  {| id := id self; student_id := student_id self;
     course_id := course_id self; score := v |}.

End Enrollment.

Module Grade.

Record t := {
  id : Z;
  student_id : Z;               (* nullable=False *)
  course_id : Z;                (* nullable=False *)
  score : option float }.

Definition with_score (self : t) (v : option float) : t :=
  {| id := id self; student_id := student_id self;
     course_id := course_id self; score := v |}.

End Grade.

(** The committed database: the three tables the handlers below touch. *)
Record DB := {
  courses : list Course.t;
  enrollments : list Enrollment.t;
  grades : list Grade.t }.

(** ** The SQLAlchemy session over SQLite *)

Module Session.

(** What a REAL column gives back for the float bound to it: SQLite binds a
    NaN as NULL, and it keeps a zero of either sign as the integer 0, read
    back as 0.0. *)
Definition sql_real (x : float) : option float :=
  if PrimFloat.is_nan x then None
  else if (x =? 0)%float then Some 0%float else Some x.

(** The integers SQLite binds: those of 64 bits.  For any other one the
    driver raises [OverflowError]. *)
Definition int64 (n : Z) : bool := (- 2 ^ 63 <=? n) && (n <? 2 ^ 63).

(** An INTEGER PRIMARY KEY gets one more than the largest key in use. *)
Definition next_id (ids : list Z) : Z := 1 + fold_right Z.max 0 ids.

Definition enrollment_by (sid cid : Z) (e : Enrollment.t) : bool :=
  (Enrollment.student_id e =? sid) && (Enrollment.course_id e =? cid).

Definition grade_by (sid cid : Z) (g : Grade.t) : bool :=
  (Grade.student_id g =? sid) && (Grade.course_id g =? cid).

(** [Course.query.get(course_id)] *)
Definition course_get (db : DB) (cid : Z) : option Course.t :=
  find (fun c => Course.id c =? cid) (courses db).

(** [Enrollment.query.filter_by(student_id=.., course_id=..)] *)
Definition enrollments_by (db : DB) (sid cid : Z) : list Enrollment.t :=
  filter (enrollment_by sid cid) (enrollments db).


(** [Grade.query.filter_by(student_id=.., course_id=..)] *)
Definition grades_by (db : DB) (sid cid : Z) : list Grade.t :=
  filter (grade_by sid cid) (grades db).

(** [.first()] *)
Definition first {A : Type} (rows : list A) : option A := hd_error rows.


(** [db.session.add(Enrollment(student_id=.., course_id=..))]; the pending row
    is flushed before the next query of the request (autoflush). *)
Definition add_enrollment (db : DB) (sid cid : Z) : DB :=
  {| courses := courses db;
     enrollments :=
       enrollments db ++
       [ {| Enrollment.id := next_id (map Enrollment.id (enrollments db));
            Enrollment.student_id := sid;
            Enrollment.course_id := cid;
            Enrollment.score := None |} ];
     grades := grades db |}.

(** [enrollment.score = new_score] on the row [en] a query returned. *)
Definition set_enrollment_score (db : DB) (en : Enrollment.t) (x : float) : DB :=
  {| courses := courses db;
     enrollments :=
       map (fun e => if Enrollment.id e =? Enrollment.id en
                     then Enrollment.with_score e (sql_real x) else e)
           (enrollments db);
     grades := grades db |}.

(** [grade.score = new_score] on the row [g] a query returned. *)
Definition set_grade_score (db : DB) (g : Grade.t) (x : float) : DB :=
  {| courses := courses db;
     enrollments := enrollments db;
     grades :=
       map (fun r => if Grade.id r =? Grade.id g
                     then Grade.with_score r (sql_real x) else r)
           (grades db) |}.

(** [db.session.add(Grade(student_id=.., course_id=.., score=..))] *)
Definition add_grade (db : DB) (sid cid : Z) (x : float) : DB :=
  {| courses := courses db;
     enrollments := enrollments db;
     grades :=
       grades db ++
       [ {| Grade.id := next_id (map Grade.id (grades db));
            Grade.student_id := sid;
            Grade.course_id := cid;
            Grade.score := sql_real x |} ] |}.

(** [db.session.add(Course(name=.., credit=.., teacher_id=..))] and its flush.
    [credit] is NOT NULL, so a NaN credit, bound as NULL, is an
    [IntegrityError]: [None]. *)
Definition add_course (db : DB) (nm : string) (cr : float) (tid : Z) : option DB :=
  match sql_real cr with
  | None => None
  | Some c =>
      Some {| courses :=
                courses db ++
                [ {| Course.id := next_id (map Course.id (courses db));
                     Course.name := nm;
                     Course.credit := c;
                     Course.teacher_id := Some tid |} ];
              enrollments := enrollments db;
              grades := grades db |}
  end.

(** [db.session.delete(enrollment)] *)
Definition delete_enrollment (db : DB) (en : Enrollment.t) : DB :=
  {| courses := courses db;
     enrollments :=
       filter (fun e => negb (Enrollment.id e =? Enrollment.id en)) (enrollments db);
     grades := grades db |}.

(** [db.session.delete(course)] and its flush.  The [enrollments] backref of
    [Enrollment.course] is declared with [cascade="all, delete-orphan"]: the
    enrollments of the course are deleted with it.  The [grades] backref of
    [Grade.course] is declared without a cascade: the unit of work blanks
    the [course_id] of every grade of the course, and [Grade.course_id] is
    [nullable=False], so the flush raises [IntegrityError] when the course
    has a grade: [None]. *)
Definition delete_course (db : DB) (c : Course.t) : option DB :=
  if existsb (fun g => Grade.course_id g =? Course.id c) (grades db) then None
  else
    Some {| courses := filter (fun x => negb (Course.id x =? Course.id c)) (courses db);
            enrollments :=
              filter (fun e => negb (Enrollment.course_id e =? Course.id c))
                     (enrollments db);
            grades := grades db |}.

End Session.

(** ** routes/student.py *)

Module Student.





(** The flashed message of a POST handler, or the failure of the request. *)
Inductive message :=
| NoPermission            (* '无权限操作' *)
| ChooseCourse            (* '请选择课程' *)
| Selected (count : nat)  (* f'成功选择 {count} 门课程' *)
| AllSelected             (* '所选课程均已在您的课表中' *)
| Dropped                 (* '退课成功' *)
| DropNotFound.           (* '未找到该课程的选课记录' *)

Inductive reply :=
| Flash (m : message)
| Error500.               (* an exception no handler catches *)

(** The loop of [select_course].  An element of [course_ids] is what
    [int(course_id)] reads, [None] when it raises [ValueError]; the query
    raises [OverflowError] for an id outside 64 bits.  Either exception ends
    the request with nothing committed. *)
Fixpoint select_loop (uid : Z) (course_ids : list (option Z)) (db : DB) (count : nat)
  : option (DB * nat) :=
  match course_ids with
  | [] => Some (db, count)
  | None :: _ => None
  | Some cid :: rest =>
      if negb (Session.int64 cid) then None
      else
        match Session.first (Session.enrollments_by db uid cid) with
        | Some _ => select_loop uid rest db count
        | None => select_loop uid rest (Session.add_enrollment db uid cid) (S count)
        end
  end.

Definition select_course (current_user : User.t) (course_ids : list (option Z)) (db : DB)
  : reply * DB :=
  if negb (User.role current_user =? 0) then (Flash NoPermission, db)
  else
    match course_ids with
    | [] => (Flash ChooseCourse, db)
    | _ =>
        match select_loop (User.id current_user) course_ids db 0%nat with
        | None => (Error500, db)
        | Some (db', count) =>
            if (0 <? count)%nat then (Flash (Selected count), db')
            else (Flash AllSelected, db)
        end
    end.

Definition drop_course (current_user : User.t) (course_id : Z) (db : DB) : reply * DB :=
  if negb (User.role current_user =? 0) then (Flash NoPermission, db)
  else
    match Session.first (Session.enrollments_by db (User.id current_user) course_id) with
    | Some enrollment => (Flash Dropped, Session.delete_enrollment db enrollment)
    | None => (Flash DropNotFound, db)
    end.

End Student.

(** ** routes/teacher.py *)

Module Teacher.

(** The [msg] of a JSON answer. *)
Inductive message :=
| NoPermission                            (* '无权限操作！' *)
| IdsEmpty                                (* '学生ID/课程ID不能为空！' *)
| ScoreEmpty                              (* '成绩不能为空！' *)
| ScoreOutOfRange                         (* '成绩需在 0-100 之间！' *)
| ScoreNotNumber                          (* '成绩必须是数字（如：85.5）！' *)
| NotEnrolled                             (* '该学生未选此课程，无法录入成绩！' *)
| ScoreSubmitted (score grade_point : float)
| CourseIdEmpty                           (* '课程ID不能为空！' *)
| CourseMissing                           (* '课程不存在！' *)
| NotOwner                                (* '不能删除他人的课程！' *)
| CourseDeleted                           (* '课程删除成功！' *)
| Failed.                                 (* f'删除失败：{e}' / f'提交失败：{e}' *)

(** [jsonify({'code': .., 'msg': ..})] *)
Record json := { code : Z; msg : message }.

(** The form of [submit_score]. *)
Record score_form := {
  form_student_id : field Z;
  form_course_id : field Z;
  form_score : field float }.

Definition submit_score (current_user : User.t) (form : score_form) (db : DB)
  : json * DB :=
  if negb (User.role current_user =? 1) then ({| code := 403; msg := NoPermission |}, db)
  else
    match form_student_id form, form_course_id form with
    | Blank, _ | _, Blank => ({| code := 400; msg := IdsEmpty |}, db)
    | Text student_id, Text course_id =>
        match form_score form with
        | Blank => ({| code := 400; msg := ScoreEmpty |}, db)
        | Text None => ({| code := 400; msg := ScoreNotNumber |}, db)
        | Text (Some new_score) =>
            if (new_score <? 0)%float || (100 <? new_score)%float
            then ({| code := 400; msg := ScoreOutOfRange |}, db)
            else
              match student_id, course_id with
              | Some sid, Some cid =>
                  match Session.first (Session.enrollments_by db sid cid) with
                  | None => ({| code := 404; msg := NotEnrolled |}, db)
                  | Some enrollment =>
                      let db1 := Session.set_enrollment_score db enrollment new_score in
                      let db2 :=
                        match Session.first (Session.grades_by db1 sid cid) with
                        | Some grade => Session.set_grade_score db1 grade new_score
                        | None => Session.add_grade db1 sid cid new_score
                        end in
                      let calc_grade_point :=
                        Enrollment.grade_point
                          (Enrollment.with_score enrollment (Session.sql_real new_score)) in
                      ({| code := 200; msg := ScoreSubmitted new_score calc_grade_point |},
                       db2)
                  end
              | _, _ => ({| code := 404; msg := NotEnrolled |}, db)
              end
        end
    end.

Definition delete_course (current_user : User.t) (course_id : field Z) (db : DB)
  : json * DB :=
  if negb (User.role current_user =? 1) then ({| code := 403; msg := NoPermission |}, db)
  else
    match course_id with
    | Blank => ({| code := 400; msg := CourseIdEmpty |}, db)
    | Text None => ({| code := 404; msg := CourseMissing |}, db)
    | Text (Some cid) =>
        match Session.course_get db cid with
        | None => ({| code := 404; msg := CourseMissing |}, db)
        | Some course =>
            if negb (match Course.teacher_id course with
                     | Some t => t =? User.id current_user
                     | None => false
                     end)
            then ({| code := 403; msg := NotOwner |}, db)
            else
              match Session.delete_course db course with
              | Some db' => ({| code := 200; msg := CourseDeleted |}, db')
              | None => ({| code := 500; msg := Failed |}, db)
              end
        end
    end.

(** The flashed message of the POST branch of [course_manage]. *)
Inductive notice :=
| NotTeacher              (* redirect to the dashboard, nothing flashed *)
| NameOrCreditEmpty       (* '课程名称和学分不能为空！' *)
| CreditNegative          (* '学分不能为负数！' *)
| CreditNotNumber         (* '学分必须是数字（如：2.0）！' *)
| Published               (* '课程发布成功！' *)
| PublishFailed.          (* f'发布失败：{e}' *)

(** The POST branch of [course_manage]: [course_name] is the text of the
    field, the empty text when the key is missing. *)
Definition course_manage (current_user : User.t) (course_name : string)
  (course_credit : field float) (db : DB) : notice * DB :=
  if negb (User.role current_user =? 1) then (NotTeacher, db)
  else
    match course_credit with
    | Blank => (NameOrCreditEmpty, db)
    | Text parsed =>
        if String.eqb course_name EmptyString then (NameOrCreditEmpty, db)
        else
          match parsed with
          | None => (CreditNotNumber, db)
          | Some credit =>
              if (credit <? 0)%float then (CreditNegative, db)
              else
                match Session.add_course db course_name credit (User.id current_user) with
                | Some db' => (Published, db')
                | None => (PublishFailed, db)
                end
          end
    end.

(** The score column of [score_manage]. *)
Inductive shown_score :=
| Shown (score : float)
| NotMarked.              (* '未批改' *)

(** [en.score if en.score else '未批改']: a score that is None or zero is
    not truthy. *)
Definition shown (score : option float) : shown_score :=
  match score with
  | Some x => if (x =? 0)%float then NotMarked else Shown x
  | None => NotMarked
  end.

(** A row of [score_data]; the user name is left out. *)
Record score_row := {
  row_course_id : Z;
  row_course_name : string;
  row_student_id : Z;
  row_score : shown_score;
  row_score_id : Z }.

(** [score_manage]: the rows handed to the template, [None] when the caller
    is not a teacher.  [users] is the user table. *)
Definition score_manage (users : list User.t) (current_user : User.t) (db : DB)
  : option (list score_row) :=
  if negb (User.role current_user =? 1) then None
  else
    let teacher_courses :=
      filter (fun c => match Course.teacher_id c with
                       | Some t => t =? User.id current_user
                       | None => false
                       end) (courses db) in
    Some
      (flat_map
         (fun course =>
            flat_map
              (fun en =>
                 match find (fun u => User.id u =? Enrollment.student_id en) users with
                 | None => []
                 | Some student =>
                     [ {| row_course_id := Course.id course;
                          row_course_name := Course.name course;
                          row_student_id := User.id student;
                          row_score := shown (Enrollment.score en);
                          row_score_id := Enrollment.id en |} ]
                 end)
              (filter (fun en => Enrollment.course_id en =? Course.id course)
                      (enrollments db)))
         teacher_courses).

End Teacher.

(** ** routes/admin.py *)

Module Admin.

(** [NumberRange(min=0.5, max=10)] on the data of a [FloatField]. *)
Definition NumberRange (min max data : float) : bool :=
  negb (PrimFloat.is_nan data || (data <? min)%float || (max <? data)%float).

(** A byte that is a character [str.isspace()] accepts: 9 to 13 and 28 to 32. *)
Definition space_byte (c : Ascii.ascii) : bool :=
  let n := Ascii.N_of_ascii c in
  ((9 <=? n) && (n <=? 13) || (28 <=? n) && (n <=? 32))%N.

(** [not data.strip()]: the text, a sequence of UTF-8 bytes, holds nothing
    but characters [str.isspace()] accepts.  Beyond the bytes of
    [space_byte] these are U+0085 and U+00A0 (C2 85, C2 A0), U+1680
    (E1 9A 80), U+2000 to U+200A, U+2028, U+2029 and U+202F (E2 80 80 to
    E2 80 8A, E2 80 A8, E2 80 A9, E2 80 AF), U+205F (E2 81 9F) and U+3000
    (E3 80 80). *)
Fixpoint blank (data : string) : bool :=
  match data with
  | EmptyString => true
  | String a rest =>
      if space_byte a then blank rest
      else
        let byte := Ascii.N_of_ascii in
        match rest with
        | String b rest1 =>
            if (byte a =? 194)%N
            then ((byte b =? 133) || (byte b =? 160))%N && blank rest1
            else
              match rest1 with
              | String c rest2 =>
                  (((byte a =? 225) && (byte b =? 154) && (byte c =? 128))
                   || ((byte a =? 226) && (byte b =? 128) &&
                       (((128 <=? byte c) && (byte c <=? 138))
                        || (byte c =? 168) || (byte c =? 169) || (byte c =? 175)))
                   || ((byte a =? 226) && (byte b =? 129) && (byte c =? 159))
                   || ((byte a =? 227) && (byte b =? 128) && (byte c =? 128)))%N
                  && blank rest2
              | EmptyString => false
              end
        | EmptyString => false
        end
  end.

(** [DataRequired] on a text field: the data is there and is not blank. *)
Definition DataRequired (data : string) : bool := negb (blank data).

(** [CourseForm.validate()]: [DataRequired] on the name, [DataRequired] and
    [NumberRange(min=0.5, max=10)] on the credit.  A credit the field cannot
    read as a float has no data, and the data 0.0 is not truthy. *)
Definition CourseForm_validate (name : string) (credit : field float) : bool :=
  DataRequired name &&
  match credit with
  | Text (Some data) =>
      negb (data =? 0)%float && NumberRange 0.5 10 data
  | _ => false
  end.

(** The range check of [edit_course]. *)
Definition edit_course_credit_ok (new_credit : float) : bool :=
  negb ((new_credit <? 0.5)%float || (10 <? new_credit)%float).

(** [delete_course(course_id)]: the status code of its JSON answer. *)
Definition delete_course (current_user : User.t) (course_id : Z) (db : DB) : Z * DB :=
  if negb (User.role current_user =? 2) then (403, db)
  else
    match Session.course_get db course_id with
    | None => (404, db)
    | Some course =>
        match Session.delete_course db course with
        | Some db' => (200, db')
        | None => (500, db)
        end
    end.

(** What [add_course] and [edit_course] answer. *)
Inductive course_reply :=
| Forbidden               (* redirect to the dashboard *)
| MissingCourse           (* get_or_404 *)
| FormShown               (* the form is rendered, again when it did not validate *)
| CourseAdded             (* '课程添加成功' *)
| EmptyField              (* '课程名称和学分不能为空' *)
| CreditOutOfRange        (* '学分需在0.5-10之间' *)
| NotANumber              (* '学分必须是数字格式' *)
| CourseSaved             (* '课程信息已更新' *)
| SaveFailed.             (* f'编辑失败: {e}', or an exception no handler catches *)

(** [add_course]: [submitted] says that the request is a POST whose CSRF
    token validates, the rest of [validate_on_submit] is [CourseForm]. *)
Definition add_course (current_user : User.t) (submitted : bool) (name : string)
  (credit : field float) (db : DB) : course_reply * DB :=
  if User.role current_user <? 1 then (Forbidden, db)
  else if submitted && CourseForm_validate name credit then
    match credit with
    | Text (Some data) =>
        match Session.add_course db name data (User.id current_user) with
        | Some db' => (CourseAdded, db')
        | None => (SaveFailed, db)
        end
    | _ => (FormShown, db)
    end
  else (FormShown, db).

(** The [teacher_id] field of [edit_course]: the empty text or ['0'], or a
    text with what [int()] reads from it. *)
Inductive teacher_field :=
| NoTeacher
| TeacherText (parsed : option Z).

(** The POST branch of [edit_course]; [new_name] and [new_credit] are the
    fields after [strip()], [users] is the user table.  The query for a
    teacher id outside 64 bits raises [OverflowError], which the last
    handler catches. *)
Definition edit_course (users : list User.t) (current_user : User.t) (course_id : Z)
  (new_name : string) (new_credit : field float) (new_teacher_id : teacher_field)
  (db : DB) : course_reply * DB :=
  if negb (User.role current_user =? 2) then (Forbidden, db)
  else
    match Session.course_get db course_id with
    | None => (MissingCourse, db)
    | Some course =>
        match new_credit with
        | Blank => (EmptyField, db)
        | Text parsed =>
            if String.eqb new_name EmptyString then (EmptyField, db)
            else
              match parsed with
              | None => (NotANumber, db)
              | Some credit =>
                  if (credit <? 0.5)%float || (10 <? credit)%float
                  then (CreditOutOfRange, db)
                  else
                    let teacher :=
                      match new_teacher_id with
                      | NoTeacher => Some None
                      | TeacherText None => None
                      | TeacherText (Some t) =>
                          match find (fun u => User.id u =? t) users with
                          | Some teacher => Some (Some (User.id teacher))
                          | None => Some (Course.teacher_id course)
                          end
                      end in
                    let overflow :=
                      match new_teacher_id with
                      | TeacherText (Some t) => negb (Session.int64 t)
                      | _ => false
                      end in
                    match teacher, Session.sql_real credit with
                    | None, _ => (NotANumber, db)
                    | Some _, None => (SaveFailed, db)
                    | Some tid, Some c =>
                        if overflow then (SaveFailed, db) else
                        (CourseSaved,
                         {| courses :=
                              map (fun x =>
                                     if Course.id x =? Course.id course
                                     then {| Course.id := Course.id x;
                                             Course.name := new_name;
                                             Course.credit := c;
                                             Course.teacher_id := tid |}
                                     else x) (courses db);
                            enrollments := enrollments db;
                            grades := grades db |})
                    end
              end
        end
    end.

End Admin.

(** ** app.py *)

Module App.

Definition ALLOWED_EXTENSIONS : list string :=
  ["png"; "jpg"; "jpeg"; "gif"; "pdf"; "doc"; "docx"]%string.

(** [str.lower()] as far as [ALLOWED_EXTENSIONS] can tell: the letters A-Z
    are lowered.  A file name is its UTF-8 bytes; of the other characters
    only the Kelvin sign lowers to a letter a-z, a k, which no allowed
    extension has. *)
Definition lower_char (c : Ascii.ascii) : Ascii.ascii :=
  let n := Ascii.nat_of_ascii c in
  if (65 <=? n)%nat && (n <=? 90)%nat then Ascii.ascii_of_nat (n + 32) else c.

Fixpoint lower (s : string) : string :=
  match s with
  | EmptyString => EmptyString
  | String c rest => String (lower_char c) (lower rest)
  end.

(** The byte 46 is the dot. *)
Definition is_dot (c : Ascii.ascii) : bool := Ascii.eqb c (Ascii.ascii_of_nat 46).

(** ['.' in filename] *)
Fixpoint has_dot (s : string) : bool :=
  match s with
  | EmptyString => false
  | String c rest => is_dot c || has_dot rest
  end.

(** [filename.rsplit('.', 1)[1]]: the text after the last dot, [None] when
    there is no dot and the index is out of range. *)
Fixpoint rsplit_dot (s : string) : option string :=
  match s with
  | EmptyString => None
  | String c rest =>
      match rsplit_dot rest with
      | Some ext => Some ext
      | None => if is_dot c then Some rest else None
      end
  end.

Definition allowed_file (filename : string) : bool :=
  has_dot filename &&
  match rsplit_dot filename with
  | Some ext => existsb (String.eqb (lower ext)) ALLOWED_EXTENSIONS
  | None => false
  end.

End App.

(** ** Skills: models.py *)

Module Skill.

Record t := {
  id : Z;
  name : string;
  current_level : Z;
  target_level : Z;
  user_id : Z }.

End Skill.

Module SkillRecord.

Record t := {
  id : Z;
  skill_id : Z;
  user_id : Z }.

End SkillRecord.

(** The two tables of the skill handlers. *)
Record SkillDB := {
  skills : list Skill.t;
  skill_records : list SkillRecord.t }.

Module SkillSession.

(** [Skill.query.filter_by(id=.., user_id=..).first()] *)
Definition skill_of (db : SkillDB) (sid uid : Z) : option Skill.t :=
  find (fun s => (Skill.id s =? sid) && (Skill.user_id s =? uid)) (skills db).

(** [Skill.query.filter_by(name=.., user_id=..).first()] *)
Definition skill_named (db : SkillDB) (nm : string) (uid : Z) : option Skill.t :=
  find (fun s => String.eqb (Skill.name s) nm && (Skill.user_id s =? uid)) (skills db).

(** [db.session.add(Skill(..))] *)
Definition add_skill (db : SkillDB) (nm : string) (cur tgt uid : Z) : SkillDB :=
  {| skills :=
       skills db ++
       [ {| Skill.id := Session.next_id (map Skill.id (skills db));
            Skill.name := nm; Skill.current_level := cur;
            Skill.target_level := tgt; Skill.user_id := uid |} ];
     skill_records := skill_records db |}.

(** The assignments to the row [skill] a query returned. *)
Definition update_skill (db : SkillDB) (skill : Skill.t) (nm : string) (cur tgt : Z)
  : SkillDB :=
  {| skills :=
       map (fun s => if Skill.id s =? Skill.id skill
                     then {| Skill.id := Skill.id s; Skill.name := nm;
                             Skill.current_level := cur; Skill.target_level := tgt;
                             Skill.user_id := Skill.user_id s |}
                     else s) (skills db);
     skill_records := skill_records db |}.

(** [db.session.delete(skill)]: the [records] backref of [SkillRecord.skill]
    is declared with [cascade="all, delete-orphan"], the records of the skill
    go with it. *)
Definition delete_skill (db : SkillDB) (skill : Skill.t) : SkillDB :=
  {| skills := filter (fun s => negb (Skill.id s =? Skill.id skill)) (skills db);
     skill_records :=
       filter (fun r => negb (SkillRecord.skill_id r =? Skill.id skill))
              (skill_records db) |}.

(** [SkillRecord.query.filter_by(skill_id=.., user_id=..).delete()] *)
Definition delete_records (db : SkillDB) (sid uid : Z) : SkillDB :=
  {| skills := skills db;
     skill_records :=
       filter (fun r => negb ((SkillRecord.skill_id r =? sid) &&
                              (SkillRecord.user_id r =? uid)))
              (skill_records db) |}.

(** A level from 1 to 5. *)
Definition level_ok (l : Z) : bool := (1 <=? l) && (l <=? 5).

End SkillSession.

(** ** routes/skill.py *)

Module SkillBp.

Inductive reply :=
| NoPermission            (* 403, or the redirect of a caller who is no student *)
| BadParams               (* 400 '参数错误！' / '参数不能为空！' *)
| BadLevels               (* 400 '技能等级必须为1-5之间的整数！' *)
| Exists                  (* '技能已存在！' / '技能名已存在！' *)
| NotFound                (* first_or_404, '技能不存在或已被删除！' *)
| Added                   (* '技能添加成功' *)
| Saved                   (* '技能修改成功！' *)
| Deleted                 (* f'技能「{skill.name}」已成功删除！' *)
| Error500.               (* [int()] or the commit raises outside a try *)

Definition add_skill (current_user : User.t) (name : string)
  (current_level target_level : field Z) (db : SkillDB) : reply * SkillDB :=
  if negb (User.role current_user =? 0) then (NoPermission, db)
  else
    match target_level with
    | Blank => (BadParams, db)
    | Text target =>
        if String.eqb name EmptyString then (BadParams, db)
        else
          let current := match current_level with
                         | Blank => Some 1
                         | Text c => c
                         end in
          match current, target with
          | Some cur, Some tgt =>
              if negb (SkillSession.level_ok cur) || negb (SkillSession.level_ok tgt)
              then (BadLevels, db)
              else
                match SkillSession.skill_named db name (User.id current_user) with
                | Some _ => (Exists, db)
                | None =>
                    (Added, SkillSession.add_skill db name cur tgt (User.id current_user))
                end
          | _, _ => (BadLevels, db)
          end
    end.

(** The POST branch of [edit_skill]: the commit is outside every [try], and
    it raises [OverflowError] for a level outside 64 bits. *)
Definition edit_skill (current_user : User.t) (id : Z) (name : string)
  (current_level target_level : field Z) (db : SkillDB) : reply * SkillDB :=
  if negb (User.role current_user =? 0) then (NoPermission, db)
  else
    match SkillSession.skill_of db id (User.id current_user) with
    | None => (NotFound, db)
    | Some skill =>
        match current_level, target_level with
        | Text current, Text target =>
            if String.eqb name EmptyString then (BadParams, db)
            else if existsb (fun s => String.eqb (Skill.name s) name &&
                                      (Skill.user_id s =? User.id current_user) &&
                                      negb (Skill.id s =? id)) (skills db)
            then (Exists, db)
            else
              match current, target with
              | Some cur, Some tgt =>
                  if Session.int64 cur && Session.int64 tgt
                  then (Saved, SkillSession.update_skill db skill name cur tgt)
                  else (Error500, db)
              | _, _ => (Error500, db)
              end
        | _, _ => (BadParams, db)
        end
    end.

Definition delete_skill (current_user : User.t) (id : Z) (db : SkillDB)
  : reply * SkillDB :=
  if negb (User.role current_user =? 0) then (NoPermission, db)
  else
    match SkillSession.skill_of db id (User.id current_user) with
    | None => (NotFound, db)
    | Some skill =>
        (Deleted,
         SkillSession.delete_skill
           (SkillSession.delete_records db id (User.id current_user)) skill)
    end.

End SkillBp.

(** ** The skill handlers of routes/student.py *)

Module StudentSkill.

Inductive reply :=
| NoPermission            (* '无权限操作' / '无学生权限！' *)
| Incomplete              (* '请填写完整信息' / '技能名称不能为空！' *)
| BadLevels               (* '技能等级必须为1-5之间的整数' / '技能等级必须为整数' *)
| NotFound                (* first_or_404 *)
| Added                   (* '技能添加成功' *)
| Saved                   (* '技能修改成功！' *)
| Deleted                 (* f'已删除技能【{skill.name}】！' *)
| SaveFailed.             (* f'技能修改失败，请检查输入。错误: {e}' *)

(** The POST branch of [add_skill]. *)
Definition add_skill (current_user : User.t) (skill_name : string)
  (current_level target_level : field Z) (db : SkillDB) : reply * SkillDB :=
  if negb (User.role current_user =? 0) then (NoPermission, db)
  else
    match current_level, target_level with
    | Text current, Text target =>
        if String.eqb skill_name EmptyString then (Incomplete, db)
        else
          match current, target with
          | Some cur, Some tgt =>
              if negb (SkillSession.level_ok cur) || negb (SkillSession.level_ok tgt)
              then (BadLevels, db)
              else
                (Added,
                 SkillSession.add_skill db skill_name cur tgt (User.id current_user))
          | _, _ => (BadLevels, db)
          end
    | _, _ => (Incomplete, db)
    end.

(** The POST branch of [edit_skill]: a level field that is missing or that
    [int()] rejects is caught by the bare [except]; for a level outside 64
    bits the commit raises [OverflowError], and the handler rolls back. *)
Definition edit_skill (current_user : User.t) (skill_id : Z) (skill_name : string)
  (current_level target_level : field Z) (db : SkillDB) : reply * SkillDB :=
  if negb (User.role current_user =? 0) then (NoPermission, db)
  else
    match SkillSession.skill_of db skill_id (User.id current_user) with
    | None => (NotFound, db)
    | Some skill =>
        if String.eqb skill_name EmptyString then (Incomplete, db)
        else
          match current_level, target_level with
          | Text (Some cur), Text (Some tgt) =>
              if Session.int64 cur && Session.int64 tgt
              then (Saved, SkillSession.update_skill db skill skill_name cur tgt)
              else (SaveFailed, db)
          | _, _ => (BadLevels, db)
          end
    end.

Definition delete_skill (current_user : User.t) (skill_id : Z) (db : SkillDB)
  : reply * SkillDB :=
  if negb (User.role current_user =? 0) then (NoPermission, db)
  else
    match SkillSession.skill_of db skill_id (User.id current_user) with
    | None => (NotFound, db)
    | Some skill => (Deleted, SkillSession.delete_skill db skill)
    end.

End StudentSkill.

(** ** The specification's vocabulary *)

Module Spec.

(** The errors of the specification, as the status codes the handlers answer. *)
Definition ValidationError : Z := 400.
Definition PermissionError : Z := 403.
Definition NotFoundError : Z := 404.

(** A score in the inclusive range [[0,100]]. *)
Definition in_range (score : float) : bool :=
  (0 <=? score)%float && (score <=? 100)%float.

(** A credit in the inclusive range [[0.5,10]]. *)
Definition credit_in_range (credit : float) : bool :=
  (0.5 <=? credit)%float && (credit <=? 10)%float.






(** The course ids of [ids] not in [seen], each once, in order. *)
Fixpoint new_courses (seen ids : list Z) : list Z :=
  match ids with
  | [] => []
  | c :: rest =>
      if existsb (Z.eqb c) seen then new_courses seen rest
      else c :: new_courses (c :: seen) rest
  end.

(** The course ids a student is enrolled in, in table order. *)
Definition enrolled_courses (db : DB) (sid : Z) : list Z :=
  map Enrollment.course_id
      (filter (fun e => if Z.eq_dec (Enrollment.student_id e) sid then true else false)
              (enrollments db)).

(** The number of enrollment rows of the pair (student, course). *)
Fixpoint rows_of_pair (ens : list Enrollment.t) (sid cid : Z) : nat :=
  match ens with
  | [] => 0%nat
  | e :: rest =>
      ((if Z.eq_dec (Enrollment.student_id e) sid
        then if Z.eq_dec (Enrollment.course_id e) cid then 1 else 0
        else 0) + rows_of_pair rest sid cid)%nat
  end.

(** At most one enrollment and at most one grade per (student, course). *)
Definition unique_pairs (db : DB) : Prop :=
  (forall sid cid, (List.length (Session.enrollments_by db sid cid) <= 1)%nat) /\
  (forall sid cid, (List.length (Session.grades_by db sid cid) <= 1)%nat).

(** Primary keys are unique. *)
Definition unique_ids (db : DB) : Prop :=
  NoDup (map Enrollment.id (enrollments db)) /\ NoDup (map Grade.id (grades db)).

End Spec.

(** ** Sample data *)

Module Sample.

Definition student : User.t := {| User.id := 7; User.role := 0 |}.
Definition teacher : User.t := {| User.id := 3; User.role := 1 |}.
Definition admin : User.t := {| User.id := 1; User.role := 2 |}.

Definition enrollment (i sid cid : Z) (s : option float) : Enrollment.t :=
  {| Enrollment.id := i; Enrollment.student_id := sid;
     Enrollment.course_id := cid; Enrollment.score := s |}.

Definition course (i : Z) (cr : float) : Course.t :=
  {| Course.id := i; Course.name := "c"; Course.credit := cr;
     Course.teacher_id := Some 3 |}.

Definition grade (i sid cid : Z) (s : option float) : Grade.t :=
  {| Grade.id := i; Grade.student_id := sid;
     Grade.course_id := cid; Grade.score := s |}.

Definition empty : DB := {| courses := []; enrollments := []; grades := [] |}.


(** One course, the student enrolled in it, not graded yet. *)
Definition db_enrolled : DB :=
  {| courses := [course 1 3];
     enrollments := [enrollment 1 7 1 None];
     grades := [] |}.

(** The same after a score of 80 was submitted. *)
Definition db_scored : DB :=
  {| courses := [course 1 3];
     enrollments := [enrollment 1 7 1 (Some 80%float)];
     grades := [grade 1 7 1 (Some 80%float)] |}.

Definition form (sid cid : Z) (score : field float) : Teacher.score_form :=
  {| Teacher.form_student_id := Text (Some sid);
     Teacher.form_course_id := Text (Some cid);
     Teacher.form_score := score |}.

End Sample.

(** At most one row per pair and distinct keys, in both tables. *)
Definition well_formed (db : DB) : Prop := Spec.unique_pairs db /\ Spec.unique_ids db.

(** ** The application as a state machine *)

(** The modelled requests. *)
Inductive request :=
| SelectCourse (current_user : User.t) (course_ids : list (option Z))
| DropCourse (current_user : User.t) (course_id : Z)
| SubmitScore (current_user : User.t) (form : Teacher.score_form)
| CourseManage (current_user : User.t) (course_name : string) (course_credit : field float)
| TeacherDeleteCourse (current_user : User.t) (course_id : field Z)
| AdminDeleteCourse (current_user : User.t) (course_id : Z).

(** The database a request leaves committed. *)
Definition handle (db : DB) (r : request) : DB :=
  match r with
  | SelectCourse u ids => snd (Student.select_course u ids db)
  | DropCourse u cid => snd (Student.drop_course u cid db)
  | SubmitScore u form => snd (Teacher.submit_score u form db)
  | CourseManage u nm cr => snd (Teacher.course_manage u nm cr db)
  | TeacherDeleteCourse u cid => snd (Teacher.delete_course u cid db)
  | AdminDeleteCourse u cid => snd (Admin.delete_course u cid db)
  end.

(** The database after a sequence of requests. *)
Definition run (db : DB) (rs : list request) : DB := fold_left handle rs db.

(** ** Values of binary64 numbers *)

Module Binary64.

(** The exponents of the finite numbers and of their products are above
    [- scale]. *)
Definition scale : Z := 2200.

(** The value of the mantissa [m] at the exponent [e], times [2 ^ scale]. *)
Definition value (m : Z) (e : Z) : Z := m * 2 ^ (e + scale).

(** [x] is zero or a positive finite number of value at most that of [mb]
    at [eb]. *)
Definition at_most (x : spec_float) (mb : positive) (eb : Z) : Prop :=
  match x with
  | S754_zero _ => True
  | S754_finite false m e => - scale <= e /\ value (Zpos m) e <= value (Zpos mb) eb
  | _ => False
  end.

(** Some bit was lost by the shifts that gave the record [r]. *)
Definition inexact (r : shr_record) : bool := shr_r r || shr_s r.

(** [r'] is [r] shifted right by [n] bits: the mantissa is truncated, and
    the bits say so when something was lost. *)
Definition shifted (n : Z) (r r' : shr_record) : Prop :=
  0 <= shr_m r' /\ shr_m r' * 2 ^ n <= shr_m r /\
  (inexact r' = true -> inexact r = true \/ shr_m r' * 2 ^ n < shr_m r).

End Binary64.

Import Binary64.

Arguments value : simpl never.

(** ** What a selection answers and leaves *)

(** The message of [select_course] for the ids [ids] when it created the
    rows [new]. *)
Definition select_reply (ids : list Z) (new : list Enrollment.t) : Student.reply :=
  match ids, new with
  | [], _ => Student.Flash Student.ChooseCourse
  | _, [] => Student.Flash Student.AllSelected
  | _, _ => Student.Flash (Student.Selected (List.length new))
  end.

(** The database with the rows [new] appended to its enrollments. *)
Definition with_new (db : DB) (new : list Enrollment.t) : DB :=
  {| courses := courses db; enrollments := enrollments db ++ new; grades := grades db |}.

(** ** The course handlers of routes/admin.py in the state machine *)

(** A request of [request], or a POST to [add_course] or [edit_course]. *)
Inductive course_request :=
| Request (r : request)
| AdminAddCourse (current_user : User.t) (submitted : bool) (name : string)
    (credit : field float)
| AdminEditCourse (users : list User.t) (current_user : User.t) (course_id : Z)
    (new_name : string) (new_credit : field float)
    (new_teacher_id : Admin.teacher_field).

Definition handle_course (db : DB) (r : course_request) : DB :=
  match r with
  | Request r => handle db r
  | AdminAddCourse u submitted nm cr => snd (Admin.add_course u submitted nm cr db)
  | AdminEditCourse users u cid nm cr tid =>
      snd (Admin.edit_course users u cid nm cr tid db)
  end.

Definition run_courses (db : DB) (rs : list course_request) : DB :=
  fold_left handle_course rs db.

(** The request is a POST of the form of [teacher.course_manage]. *)
Definition teacher_form (r : course_request) : bool :=
  match r with
  | Request (CourseManage _ _ _) => true
  | _ => false
  end.

(** Every course has a credit in [[0.5,10]]. *)
Definition credits_in_range (db : DB) : Prop :=
  Forall (fun c => Spec.credit_in_range (Course.credit c) = true) (courses db).

(** ** The skill handlers as a state machine *)

(** A POST to one of the skill handlers of routes/skill.py and
    routes/student.py. *)
Inductive skill_request :=
| BpAddSkill (current_user : User.t) (name : string) (current_level target_level : field Z)
| BpEditSkill (current_user : User.t) (id : Z) (name : string)
    (current_level target_level : field Z)
| BpDeleteSkill (current_user : User.t) (id : Z)
| StudentAddSkill (current_user : User.t) (skill_name : string)
    (current_level target_level : field Z)
| StudentEditSkill (current_user : User.t) (skill_id : Z) (skill_name : string)
    (current_level target_level : field Z)
| StudentDeleteSkill (current_user : User.t) (skill_id : Z).

(** Who sends the request. *)
Definition skill_actor (r : skill_request) : User.t :=
  match r with
  | BpAddSkill u _ _ _ | BpEditSkill u _ _ _ _ | BpDeleteSkill u _
  | StudentAddSkill u _ _ _ | StudentEditSkill u _ _ _ _ | StudentDeleteSkill u _ => u
  end.

(** The tables a request leaves committed. *)
Definition handle_skill (db : SkillDB) (r : skill_request) : SkillDB :=
  match r with
  | BpAddSkill u nm cur tgt => snd (SkillBp.add_skill u nm cur tgt db)
  | BpEditSkill u id nm cur tgt => snd (SkillBp.edit_skill u id nm cur tgt db)
  | BpDeleteSkill u id => snd (SkillBp.delete_skill u id db)
  | StudentAddSkill u nm cur tgt => snd (StudentSkill.add_skill u nm cur tgt db)
  | StudentEditSkill u id nm cur tgt => snd (StudentSkill.edit_skill u id nm cur tgt db)
  | StudentDeleteSkill u id => snd (StudentSkill.delete_skill u id db)
  end.

Definition run_skills (db : SkillDB) (rs : list skill_request) : SkillDB :=
  fold_left handle_skill rs db.

(** The request goes to a handler that writes no name without looking for
    it: those of routes/skill.py, and the deletion of routes/student.py. *)
Definition checks_names (r : skill_request) : bool :=
  match r with
  | StudentAddSkill _ _ _ _ | StudentEditSkill _ _ _ _ _ => false
  | _ => true
  end.

(** [Skill.query.filter_by(user_id=..).all()], the skills of a user. *)
Definition skills_of (db : SkillDB) (uid : Z) : list Skill.t :=
  filter (fun s => Skill.user_id s =? uid) (skills db).

(** The skills of a user that carry a name. *)
Definition skills_named (db : SkillDB) (nm : string) (uid : Z) : list Skill.t :=
  filter (fun s => String.eqb (Skill.name s) nm && (Skill.user_id s =? uid)) (skills db).

(** Primary keys are unique. *)
Definition unique_skill_ids (db : SkillDB) : Prop := NoDup (map Skill.id (skills db)).

(** The name and the owner of a skill. *)
Definition skill_key (s : Skill.t) : string * Z := (Skill.name s, Skill.user_id s).

(** No user has two skills of one name. *)
Definition unique_skill_names (db : SkillDB) : Prop := NoDup (map skill_key (skills db)).

(** * Properties *)

(** ** Comparison of floats *)

Lemma SFcompare_antisym (x y : spec_float) :
  SFcompare y x = option_map CompOpp (SFcompare x y).
Proof.
  destruct x as [sx|sx| |sx mx ex], y as [sy|sy| |sy my ey]; simpl;
    try reflexivity;
    try (destruct sx; reflexivity); try (destruct sy; reflexivity);
    try (destruct sx, sy; reflexivity).
  f_equal.
  assert (Hm : Pos.compare_cont Eq my mx = CompOpp (Pos.compare_cont Eq mx my))
    by (rewrite (Pos.compare_cont_antisym mx my Eq); reflexivity).
  destruct sx, sy; simpl; try reflexivity;
    rewrite (Z.compare_antisym ex ey);
    destruct (ex ?= ey); simpl; try reflexivity;
    rewrite Hm; try rewrite CompOpp_involutive; reflexivity.
Qed.

Lemma SFcompare_refl (x : spec_float) :
  x <> S754_nan -> SFcompare x x = Some Eq.
Proof.
  destruct x as [s|s| |s m e]; simpl; intros H; try congruence.
  - destruct s; reflexivity.
  - destruct s; rewrite Z.compare_refl, Pos.compare_cont_refl; reflexivity.
Qed.

(** [x <= y] excludes [y < x]. *)
Lemma leb_ltb_false (x y : float) :
  (x <=? y)%float = true -> (y <? x)%float = false.
Proof.
  rewrite FloatAxioms.leb_spec, FloatAxioms.ltb_spec. unfold SFleb, SFltb.
  rewrite (SFcompare_antisym (Prim2SF x) (Prim2SF y)).
  destruct (SFcompare (Prim2SF x) (Prim2SF y)) as [[ | | ]|]; simpl; congruence.
Qed.

Lemma is_nan_spec (x : float) :
  PrimFloat.is_nan x = true <-> Prim2SF x = S754_nan.
Proof.
  unfold PrimFloat.is_nan. rewrite FloatAxioms.eqb_spec. unfold SFeqb.
  split.
  - intros H. destruct (Prim2SF x) as [s|s| |s m e]; try reflexivity;
      match type of H with
      | context [SFcompare ?a ?a] =>
          assert (R : SFcompare a a = Some Eq) by (apply SFcompare_refl; discriminate);
          rewrite R in H; discriminate
      end.
  - intros ->. reflexivity.
Qed.

(** Two floats that are numbers are comparable. *)
Lemma leb_negb_ltb (x y : float) :
  PrimFloat.is_nan x = false -> PrimFloat.is_nan y = false ->
  (x <=? y)%float = negb (y <? x)%float.
Proof.
  intros Hx Hy.
  assert (Prim2SF x <> S754_nan) by (intros E; apply is_nan_spec in E; congruence).
  assert (Prim2SF y <> S754_nan) by (intros E; apply is_nan_spec in E; congruence).
  rewrite FloatAxioms.leb_spec, FloatAxioms.ltb_spec. unfold SFleb, SFltb.
  rewrite (SFcompare_antisym (Prim2SF x) (Prim2SF y)).
  destruct (Prim2SF x) as [sx|sx| |sx mx ex], (Prim2SF y) as [sy|sy| |sy my ey];
    try congruence; try destruct sx; try destruct sy; simpl; try reflexivity;
    destruct (ex ?= ey); simpl; try reflexivity;
    destruct (Pos.compare_cont Eq mx my); reflexivity.
Qed.

(** A score in the range is a number and passes the check of [submit_score]. *)
Lemma in_range_not_nan (x : float) :
  Spec.in_range x = true -> PrimFloat.is_nan x = false.
Proof.
  unfold Spec.in_range. intros H. apply andb_true_iff in H as [H _].
  destruct (PrimFloat.is_nan x) eqn:E; [|reflexivity].
  apply is_nan_spec in E.
  rewrite FloatAxioms.leb_spec, E in H. discriminate.
Qed.

Lemma in_range_passes (x : float) :
  Spec.in_range x = true -> (x <? 0)%float || (100 <? x)%float = false.
Proof.
  unfold Spec.in_range. intros H. apply andb_true_iff in H as [H0 H1].
  rewrite (leb_ltb_false _ _ H0), (leb_ltb_false _ _ H1). reflexivity.
Qed.

(** Apart from NaN, the check of [submit_score] rejects exactly the scores
    outside the range. *)
Lemma out_of_range_rejected (x : float) :
  PrimFloat.is_nan x = false -> Spec.in_range x = false ->
  (x <? 0)%float || (100 <? x)%float = true.
Proof.
  unfold Spec.in_range. intros Hn H.
  rewrite (leb_negb_ltb 0 x), (leb_negb_ltb x 100) in H by (assumption || reflexivity).
  destruct (x <? 0)%float, (100 <? x)%float; simpl in *; congruence.
Qed.

(** ** The grade-point *)

(** C1: the grade-point of an enrollment is a function of its score alone:
    0.0 when the score is absent or below 60, [1.0 + (score - 60) * 0.1] when
    the score is in [[60,100]]; 96 gives 4.6, 60 gives 1.0 and 59.9 gives 0.0. *)
Theorem grade_point_of_score :
  (forall e1 e2 : Enrollment.t,
      Enrollment.score e1 = Enrollment.score e2 ->
      Enrollment.grade_point e1 = Enrollment.grade_point e2) /\
  (forall e, Enrollment.score e = None -> Enrollment.grade_point e = 0.0%float) /\
  (forall e s, Enrollment.score e = Some s -> (s <? 60)%float = true ->
               Enrollment.grade_point e = 0.0%float) /\
  (forall e s, Enrollment.score e = Some s ->
               (60 <=? s)%float = true -> (s <=? 100)%float = true ->
               Enrollment.grade_point e = (1.0 + (s - 60) * 0.1)%float) /\
  Enrollment.grade_point (Sample.enrollment 1 7 1 (Some 96%float)) = 4.6%float /\
  Enrollment.grade_point (Sample.enrollment 1 7 1 (Some 60%float)) = 1.0%float /\
  Enrollment.grade_point (Sample.enrollment 1 7 1 (Some 59.9%float)) = 0.0%float.
Proof.
  repeat split.
  - intros e1 e2 H. unfold Enrollment.grade_point. rewrite H. reflexivity.
  - intros e H. unfold Enrollment.grade_point. rewrite H. reflexivity.
  - intros e s H Hlt. unfold Enrollment.grade_point. rewrite H, Hlt. reflexivity.
  - intros e s H Hge _. unfold Enrollment.grade_point.
    rewrite H, (leb_ltb_false _ _ Hge). reflexivity.
Qed.

(** ** The GPA *)













(** ** Queries after an update *)

Lemma filter_map_same {A : Type} (p : A -> bool) (f : A -> A) (l : list A) :
  (forall x, p (f x) = p x) -> filter p (map f l) = map f (filter p l).
Proof.
  intros H. induction l as [|a l IH]; simpl; [reflexivity|].
  rewrite H. destruct (p a); simpl; rewrite IH; reflexivity.
Qed.

Lemma first_some_cons {A : Type} (rows : list A) (r : A) :
  Session.first rows = Some r -> exists rest, rows = r :: rest.
Proof.
  destruct rows as [|a rest]; simpl; intros H; [discriminate|].
  injection H as ->. exists rest. reflexivity.
Qed.

Lemma first_none_nil {A : Type} (rows : list A) :
  Session.first rows = None -> rows = [].
Proof. destruct rows; simpl; intros H; [reflexivity|discriminate]. Qed.

Lemma length_le_1 {A : Type} (a : A) (rest : list A) :
  (List.length (a :: rest) <= 1)%nat -> rest = [].
Proof. destruct rest; simpl; intros H; [reflexivity|lia]. Qed.

Lemma sql_real_number (x : float) :
  PrimFloat.is_nan x = false -> (x =? 0)%float = false -> Session.sql_real x = Some x.
Proof. intros H H0. unfold Session.sql_real. rewrite H, H0. reflexivity. Qed.

Lemma feqb_refl (x : float) : PrimFloat.is_nan x = false -> (x =? x)%float = true.
Proof.
  intros H. rewrite FloatAxioms.eqb_spec. unfold SFeqb.
  rewrite SFcompare_refl; [reflexivity|].
  intros E. apply is_nan_spec in E. congruence.
Qed.

Lemma feqb_sym (x y : float) : (x =? y)%float = (y =? x)%float.
Proof.
  rewrite !FloatAxioms.eqb_spec. unfold SFeqb.
  rewrite (SFcompare_antisym (Prim2SF y) (Prim2SF x)).
  destruct (SFcompare (Prim2SF y) (Prim2SF x)) as [[ | | ]|]; reflexivity.
Qed.

(** What is stored for a number is a number equal to it. *)
Lemma sql_real_equal (x : float) :
  PrimFloat.is_nan x = false ->
  exists y, Session.sql_real x = Some y /\ (y =? x)%float = true.
Proof.
  intros H. unfold Session.sql_real. rewrite H.
  destruct (x =? 0)%float eqn:E.
  - exists 0%float. split; [reflexivity|]. rewrite feqb_sym. exact E.
  - exists x. split; [reflexivity|apply feqb_refl, H].
Qed.

Lemma sql_real_nan (x : float) :
  PrimFloat.is_nan x = true -> Session.sql_real x = None.
Proof. intros H. unfold Session.sql_real. rewrite H. reflexivity. Qed.

Lemma enrollments_by_set_score (db : DB) (en : Enrollment.t) (x : float) (sid cid : Z) :
  Session.enrollments_by (Session.set_enrollment_score db en x) sid cid =
  map (fun e => if Enrollment.id e =? Enrollment.id en
                then Enrollment.with_score e (Session.sql_real x) else e)
      (Session.enrollments_by db sid cid).
Proof.
  unfold Session.enrollments_by, Session.set_enrollment_score. simpl.
  apply filter_map_same. intros e.
  destruct (Enrollment.id e =? Enrollment.id en); reflexivity.
Qed.

Lemma grades_by_set_score (db : DB) (g : Grade.t) (x : float) (sid cid : Z) :
  Session.grades_by (Session.set_grade_score db g x) sid cid =
  map (fun r => if Grade.id r =? Grade.id g
                then Grade.with_score r (Session.sql_real x) else r)
      (Session.grades_by db sid cid).
Proof.
  unfold Session.grades_by, Session.set_grade_score. simpl.
  apply filter_map_same. intros r.
  destruct (Grade.id r =? Grade.id g); reflexivity.
Qed.

Lemma grades_by_add (db : DB) (x : float) (sid cid : Z) :
  Session.grades_by (Session.add_grade db sid cid x) sid cid =
  Session.grades_by db sid cid ++
  [ {| Grade.id := Session.next_id (map Grade.id (grades db));
       Grade.student_id := sid; Grade.course_id := cid;
       Grade.score := Session.sql_real x |} ].
Proof.
  unfold Session.grades_by, Session.add_grade. simpl.
  rewrite filter_app. simpl. unfold Session.grade_by at 2. simpl.
  rewrite !Z.eqb_refl. reflexivity.
Qed.

(** ** Score submission *)

(** Only a teacher gets past the permission check. *)
Lemma submit_score_forbidden (current_user : User.t) (form : Teacher.score_form) (db : DB) :
  User.role current_user <> 1 ->
  Teacher.submit_score current_user form db =
  ({| Teacher.code := 403; Teacher.msg := Teacher.NoPermission |}, db).
Proof.
  intros H. unfold Teacher.submit_score.
  destruct (User.role current_user =? 1) eqn:E; [|reflexivity].
  apply Z.eqb_eq in E. contradiction.
Qed.

Lemma submit_score_not_forbidden (current_user : User.t) (form : Teacher.score_form) (db : DB) :
  User.role current_user = 1 ->
  Teacher.code (fst (Teacher.submit_score current_user form db)) <> 403.
Proof.
  intros H. unfold Teacher.submit_score. rewrite H. simpl.
  destruct (Teacher.form_student_id form) as [|[sid|]],
           (Teacher.form_course_id form) as [|[cid|]],
           (Teacher.form_score form) as [|[x|]]; simpl; try discriminate;
    destruct ((x <? 0)%float || (100 <? x)%float); simpl; try discriminate;
    destruct (Session.first (Session.enrollments_by db sid cid)); simpl; discriminate.
Qed.

(** Whatever fails leaves the database as it was. *)
Lemma submit_score_failure_unchanged (current_user : User.t) (form : Teacher.score_form)
  (db : DB) :
  Teacher.code (fst (Teacher.submit_score current_user form db)) <> 200 ->
  snd (Teacher.submit_score current_user form db) = db.
Proof.
  unfold Teacher.submit_score.
  destruct (negb (User.role current_user =? 1)); [reflexivity|].
  destruct (Teacher.form_student_id form) as [|[sid|]],
           (Teacher.form_course_id form) as [|[cid|]],
           (Teacher.form_score form) as [|[x|]]; simpl; try reflexivity;
    destruct ((x <? 0)%float || (100 <? x)%float); simpl; try reflexivity;
    destruct (Session.first (Session.enrollments_by db sid cid)); simpl;
    try reflexivity; intros H; contradiction H; reflexivity.
Qed.

(** A teacher's submission whose score is not a float, or is a number outside
    the range, is a validation error. *)
Lemma submit_score_invalid (current_user : User.t) (form : Teacher.score_form) (db : DB) :
  User.role current_user = 1 ->
  (Teacher.form_score form = Text None \/
   exists x, Teacher.form_score form = Text (Some x) /\
             PrimFloat.is_nan x = false /\ Spec.in_range x = false) ->
  Teacher.code (fst (Teacher.submit_score current_user form db)) = Spec.ValidationError /\
  snd (Teacher.submit_score current_user form db) = db.
Proof.
  intros Hr H. unfold Teacher.submit_score. rewrite Hr. simpl.
  destruct (Teacher.form_student_id form) as [|sid]; [split; reflexivity|].
  destruct (Teacher.form_course_id form) as [|cid]; [split; reflexivity|].
  destruct H as [-> | (x & -> & Hn & Hx)]; [split; reflexivity|].
  rewrite (out_of_range_rejected x Hn Hx). split; reflexivity.
Qed.

(** A teacher's submission of a score in the range for a pair without an
    enrollment is a not-found error. *)
Lemma submit_score_not_enrolled (current_user : User.t) (sid cid : Z) (x : float) (db : DB) :
  User.role current_user = 1 ->
  Spec.in_range x = true ->
  Session.enrollments_by db sid cid = [] ->
  Teacher.submit_score current_user (Sample.form sid cid (Text (Some x))) db =
  ({| Teacher.code := Spec.NotFoundError; Teacher.msg := Teacher.NotEnrolled |}, db).
Proof.
  intros Hr Hx He. unfold Teacher.submit_score. rewrite Hr. simpl.
  rewrite (in_range_passes x Hx), He. reflexivity.
Qed.

(** What a submission answered 200 leaves, on the rows of the two tables:
    the pair has an enrollment and a grade that carry what the column keeps
    of the score, a number equal to it when the score is a number; the grade
    is one the pair had, or one appended when it had none; and in a database
    with at most one row per pair every enrollment and every grade of the
    pair carries it. *)
Lemma submit_score_mirrors (current_user : User.t) (form : Teacher.score_form) (db : DB) :
  Teacher.code (fst (Teacher.submit_score current_user form db)) = 200 ->
  exists sid cid x stored,
    let db' := snd (Teacher.submit_score current_user form db) in
    Teacher.form_student_id form = Text (Some sid) /\
    Teacher.form_course_id form = Text (Some cid) /\
    Teacher.form_score form = Text (Some x) /\
    (PrimFloat.is_nan x = false -> exists y, stored = Some y /\ (y =? x)%float = true) /\
    (PrimFloat.is_nan x = true -> stored = None) /\
    (exists e, In e (enrollments db') /\ Enrollment.student_id e = sid /\
               Enrollment.course_id e = cid /\ Enrollment.score e = stored) /\
    (exists g, In g (grades db') /\ Grade.student_id g = sid /\
               Grade.course_id g = cid /\ Grade.score g = stored) /\
    ((exists g, In g (grades db) /\ Grade.student_id g = sid /\ Grade.course_id g = cid) ->
     List.length (grades db') = List.length (grades db)) /\
    ((forall g, In g (grades db) ->
                ~ (Grade.student_id g = sid /\ Grade.course_id g = cid)) ->
     exists g, grades db' = grades db ++ [g] /\ Grade.student_id g = sid /\
               Grade.course_id g = cid /\ Grade.score g = stored) /\
    (well_formed db ->
     (forall e, In e (enrollments db') -> Enrollment.student_id e = sid ->
                Enrollment.course_id e = cid -> Enrollment.score e = stored) /\
     (forall g, In g (grades db') -> Grade.student_id g = sid ->
                Grade.course_id g = cid -> Grade.score g = stored)).
Proof.
  unfold Teacher.submit_score.
  destruct (negb (User.role current_user =? 1)); [discriminate|].
  destruct (Teacher.form_student_id form) as [|[sid|]],
           (Teacher.form_course_id form) as [|[cid|]],
           (Teacher.form_score form) as [|[x|]]; simpl; try discriminate;
    destruct ((x <? 0)%float || (100 <? x)%float); simpl; try discriminate.
  destruct (Session.first (Session.enrollments_by db sid cid)) as [enrollment|] eqn:He;
    [|discriminate].
  intros _. exists sid, cid, x, (Session.sql_real x).
  set (stored := Session.sql_real x).
  set (db1 := Session.set_enrollment_score db enrollment x).
  destruct (first_some_cons _ _ He) as [erest Ee].
  assert (Hen : In enrollment (enrollments db) /\
                Session.enrollment_by sid cid enrollment = true).
  { apply filter_In. fold (Session.enrollments_by db sid cid). rewrite Ee. left. reflexivity. }
  destruct Hen as [Hin Hpair].
  apply andb_true_iff in Hpair as [Hs Hc]. apply Z.eqb_eq in Hs, Hc.
  assert (E1 : In (Enrollment.with_score enrollment stored) (enrollments db1)).
  { unfold db1, Session.set_enrollment_score. cbn [enrollments].
    apply in_map_iff. exists enrollment. rewrite Z.eqb_refl. split; [reflexivity|exact Hin]. }
  assert (E2 : forall d, enrollments d = enrollments db1 -> well_formed db ->
                 forall e, In e (enrollments d) -> Enrollment.student_id e = sid ->
                           Enrollment.course_id e = cid -> Enrollment.score e = stored).
  { intros d Hd [[Le _] _] e Hine Hes Hec.
    assert (Hb : In e (Session.enrollments_by db1 sid cid)).
    { apply filter_In. rewrite <- Hd. split; [exact Hine|].
      unfold Session.enrollment_by. rewrite Hes, Hec, !Z.eqb_refl. reflexivity. }
    unfold db1 in Hb. rewrite enrollments_by_set_score, Ee in Hb.
    specialize (Le sid cid). rewrite Ee in Le. apply length_le_1 in Le. subst erest.
    simpl in Hb. rewrite Z.eqb_refl in Hb. destruct Hb as [<-|[]]. reflexivity. }
  assert (G1 : Session.grades_by db1 sid cid = Session.grades_by db sid cid) by reflexivity.
  assert (G0 : forall g, In g (grades db) -> Grade.student_id g = sid ->
                         Grade.course_id g = cid -> In g (Session.grades_by db sid cid)).
  { intros g Hg Hgs Hgc. apply filter_In. split; [exact Hg|].
    unfold Session.grade_by. rewrite Hgs, Hgc, !Z.eqb_refl. reflexivity. }
  cbv zeta. rewrite G1.
  split; [reflexivity|]. split; [reflexivity|]. split; [reflexivity|].
  split; [intros Hn; apply sql_real_equal, Hn|].
  split; [intros Hn; apply sql_real_nan, Hn|].
  destruct (Session.first (Session.grades_by db sid cid)) as [grade|] eqn:Eg.
  - destruct (first_some_cons _ _ Eg) as [grest Eg'].
    assert (Hg : In grade (grades db) /\ Session.grade_by sid cid grade = true).
    { apply filter_In. fold (Session.grades_by db sid cid). rewrite Eg'. left. reflexivity. }
    destruct Hg as [Hgin Hgpair].
    apply andb_true_iff in Hgpair as [Hgs Hgc]. apply Z.eqb_eq in Hgs, Hgc.
    cbn [snd Session.set_grade_score enrollments grades].
    split; [exists (Enrollment.with_score enrollment stored); repeat split; assumption|].
    split.
    { exists (Grade.with_score grade stored). repeat split; try assumption.
      apply in_map_iff. exists grade. rewrite Z.eqb_refl. split; [reflexivity|exact Hgin]. }
    split; [intros _; apply length_map|].
    split.
    { intros H. contradiction (H grade Hgin). split; assumption. }
    intros W. split; [apply (E2 db1 eq_refl W)|].
    intros g Hg Hgs' Hgc'.
    assert (Hb : In g (Session.grades_by (Session.set_grade_score db1 grade x) sid cid)).
    { apply filter_In. split; [exact Hg|].
      unfold Session.grade_by. rewrite Hgs', Hgc', !Z.eqb_refl. reflexivity. }
    rewrite grades_by_set_score, G1, Eg' in Hb.
    destruct W as [[_ Lg] _]. specialize (Lg sid cid). rewrite Eg' in Lg.
    apply length_le_1 in Lg. subst grest.
    simpl in Hb. rewrite Z.eqb_refl in Hb. destruct Hb as [<-|[]]. reflexivity.
  - apply first_none_nil in Eg.
    cbn [snd Session.add_grade enrollments grades].
    split; [exists (Enrollment.with_score enrollment stored); repeat split; assumption|].
    split.
    { eexists. split; [apply in_or_app; right; left; reflexivity|]. repeat split. }
    split.
    { intros (g & Hg & Hgs & Hgc). pose proof (G0 g Hg Hgs Hgc) as Hb.
      rewrite Eg in Hb. contradiction. }
    split.
    { intros _. eexists. split; [reflexivity|]. repeat split. }
    intros W. split; [apply (E2 db1 eq_refl W)|].
    intros g Hg Hgs' Hgc'. apply in_app_or in Hg. destruct Hg as [Hg|[<-|[]]].
    + pose proof (G0 g Hg Hgs' Hgc') as Hb. rewrite Eg in Hb. contradiction.
    + reflexivity.
Qed.

(** C4, at the score NaN: the submission is answered 200, and what the
    enrollment and the grade of the pair carry afterwards is no score at all,
    not the score submitted; the score of 80 the pair had is gone.  The
    range check lets NaN pass, as for C3. *)
Theorem submit_score_nan_erases :
  let reply := Teacher.submit_score Sample.teacher (Sample.form 7 1 (Text (Some nan)))
                 Sample.db_scored in
  Teacher.form_score (Sample.form 7 1 (Text (Some nan))) = Text (Some nan) /\
  Teacher.code (fst reply) = 200 /\
  enrollments Sample.db_scored = [Sample.enrollment 1 7 1 (Some 80%float)] /\
  enrollments (snd reply) = [Sample.enrollment 1 7 1 None] /\
  grades (snd reply) = [Sample.grade 1 7 1 None].
Proof. repeat split. Qed.

(** The sample submission, evaluated: the enrollment and the new grade both
    carry 80. *)
Lemma submit_score_sample :
  snd (Teacher.submit_score Sample.teacher (Sample.form 7 1 (Text (Some 80%float)))
         Sample.db_enrolled) = Sample.db_scored.
Proof. reflexivity. Qed.

(** C3, at the score NaN: [float('nan')] is a float, neither [nan < 0] nor
    [nan > 100] holds, and the submission of a teacher for an enrolled pair
    is answered 200 and creates a grade. *)
Theorem submit_score_accepts_nan :
  Spec.in_range nan = false /\
  Teacher.code
    (fst (Teacher.submit_score Sample.teacher (Sample.form 7 1 (Text (Some nan)))
            Sample.db_enrolled)) = 200 /\
  grades (snd (Teacher.submit_score Sample.teacher (Sample.form 7 1 (Text (Some nan)))
                 Sample.db_enrolled)) = [Sample.grade 1 7 1 None].
Proof. repeat split. Qed.

(** ** Who may submit a score *)

(** C9 as stated fails for an administrator: role 2 is answered 403. *)
Lemma submit_score_admin_forbidden :
  User.role Sample.admin = 2 /\
  Teacher.submit_score Sample.admin (Sample.form 7 1 (Text (Some 80%float)))
    Sample.db_enrolled =
  ({| Teacher.code := Spec.PermissionError; Teacher.msg := Teacher.NoPermission |},
   Sample.db_enrolled).
Proof. split; reflexivity. Qed.

(** C9, amended: score submission is authorized exactly for the role teacher:
    a teacher gets past the permission check, and every other role, student
    and administrator alike, is answered with a permission error and changes
    nothing. *)
Theorem submit_score_teacher_only (current_user : User.t) (form : Teacher.score_form)
  (db : DB) :
  (User.role current_user = 1 ->
   Teacher.code (fst (Teacher.submit_score current_user form db)) <> Spec.PermissionError) /\
  (User.role current_user <> 1 ->
   Teacher.submit_score current_user form db =
   ({| Teacher.code := Spec.PermissionError; Teacher.msg := Teacher.NoPermission |}, db)).
Proof.
  split.
  - apply submit_score_not_forbidden.
  - apply submit_score_forbidden.
Qed.

(** ** Course selection *)

Lemma int64_iff (n : Z) : Session.int64 n = true <-> - 2 ^ 63 <= n < 2 ^ 63.
Proof. unfold Session.int64. rewrite andb_true_iff, Z.leb_le, Z.ltb_lt. reflexivity. Qed.

Lemma rows_of_pair_length (db : DB) (sid cid : Z) :
  Spec.rows_of_pair (enrollments db) sid cid =
  List.length (Session.enrollments_by db sid cid).
Proof.
  unfold Session.enrollments_by.
  induction (enrollments db) as [|e l IH]; simpl; [reflexivity|].
  unfold Session.enrollment_by at 1. rewrite IH.
  destruct (Z.eq_dec (Enrollment.student_id e) sid) as [Es|Es],
           (Z.eq_dec (Enrollment.course_id e) cid) as [Ec|Ec];
    destruct (Z.eqb_spec (Enrollment.student_id e) sid),
             (Z.eqb_spec (Enrollment.course_id e) cid);
    try contradiction; reflexivity.
Qed.

Lemma rows_of_pair_none (db : DB) (sid cid : Z) :
  Spec.rows_of_pair (enrollments db) sid cid = 0%nat <->
  Session.enrollments_by db sid cid = [].
Proof. rewrite rows_of_pair_length. apply length_zero_iff_nil. Qed.

Lemma enrolled_courses_In (db : DB) (uid c : Z) :
  In c (Spec.enrolled_courses db uid) <-> Session.enrollments_by db uid c <> [].
Proof.
  unfold Spec.enrolled_courses, Session.enrollments_by.
  induction (enrollments db) as [|e l IH]; simpl.
  - split; [intros []|intros H; contradiction].
  - unfold Session.enrollment_by at 1.
    destruct (Z.eq_dec (Enrollment.student_id e) uid) as [Es|Es].
    + rewrite Es, Z.eqb_refl. simpl.
      destruct (Enrollment.course_id e =? c) eqn:E.
      * apply Z.eqb_eq in E. split; [discriminate|]. intros _. left. exact E.
      * apply Z.eqb_neq in E. rewrite <- IH. split; [intros [H|H]|intros H]; tauto.
    + destruct (Z.eqb_spec (Enrollment.student_id e) uid); [contradiction|]. exact IH.
Qed.

Lemma existsb_eqb_In (c : Z) (l : list Z) :
  existsb (Z.eqb c) l = true <-> In c l.
Proof.
  rewrite existsb_exists. split.
  - intros (x & H & E). apply Z.eqb_eq in E. subst. exact H.
  - intros H. exists c. split; [exact H|apply Z.eqb_refl].
Qed.

Lemma first_enrolled (db : DB) (uid c : Z) :
  Session.first (Session.enrollments_by db uid c) = None <->
  existsb (Z.eqb c) (Spec.enrolled_courses db uid) = false.
Proof.
  rewrite <- not_true_iff_false, existsb_eqb_In, enrolled_courses_In.
  destruct (Session.enrollments_by db uid c); simpl; split; intros H;
    try reflexivity; try discriminate.
  - intros H'. contradiction.
  - exfalso. apply H. discriminate.
Qed.

Lemma new_courses_ext (ids : list Z) :
  forall seen1 seen2,
    (forall c, In c seen1 <-> In c seen2) ->
    Spec.new_courses seen1 ids = Spec.new_courses seen2 ids.
Proof.
  induction ids as [|c rest IH]; intros s1 s2 H; simpl; [reflexivity|].
  assert (E : existsb (Z.eqb c) s1 = existsb (Z.eqb c) s2).
  { apply eq_true_iff_eq. rewrite !existsb_eqb_In. apply H. }
  rewrite E. destruct (existsb (Z.eqb c) s2).
  - apply IH, H.
  - f_equal. apply IH. intros d. simpl. rewrite H. reflexivity.
Qed.

Lemma new_courses_In (ids : list Z) :
  forall seen c, In c (Spec.new_courses seen ids) <-> In c ids /\ ~ In c seen.
Proof.
  induction ids as [|d rest IH]; intros seen c; simpl; [tauto|].
  destruct (existsb (Z.eqb d) seen) eqn:E.
  - apply existsb_eqb_In in E. rewrite IH.
    split; [tauto|]. intros [[->|H] Hn]; [contradiction|tauto].
  - apply not_true_iff_false in E. rewrite existsb_eqb_In in E.
    simpl. rewrite IH. simpl.
    destruct (Z.eq_dec d c) as [->|Hd]; [tauto|]. tauto.
Qed.

Lemma new_courses_NoDup (ids : list Z) :
  forall seen, NoDup (Spec.new_courses seen ids).
Proof.
  induction ids as [|d rest IH]; intros seen; simpl; [constructor|].
  destruct (existsb (Z.eqb d) seen); [apply IH|].
  constructor; [|apply IH].
  rewrite new_courses_In. simpl. tauto.
Qed.

Lemma enrolled_courses_with_new (db : DB) (uid : Z) (new : list Enrollment.t) :
  Forall (fun e => Enrollment.student_id e = uid /\ Enrollment.score e = None) new ->
  Spec.enrolled_courses (with_new db new) uid =
  Spec.enrolled_courses db uid ++ map Enrollment.course_id new.
Proof.
  intros HF. unfold Spec.enrolled_courses, with_new. simpl.
  rewrite filter_app, map_app. f_equal. f_equal.
  induction HF as [|e l [Hs _] _ IH]; simpl; [reflexivity|].
  destruct (Z.eq_dec (Enrollment.student_id e) uid); [|contradiction].
  rewrite IH. reflexivity.
Qed.

Lemma enrolled_courses_add (db : DB) (uid c : Z) :
  Spec.enrolled_courses (Session.add_enrollment db uid c) uid =
  Spec.enrolled_courses db uid ++ [c].
Proof.
  unfold Spec.enrolled_courses, Session.add_enrollment. simpl.
  rewrite filter_app, map_app. simpl.
  destruct (Z.eq_dec uid uid); [reflexivity|contradiction].
Qed.

(** The loop appends one enrollment without a score for each course id that
    has none yet, and counts them. *)
Lemma select_loop_appends (uid : Z) (ids : list Z) :
  Forall (fun c => Session.int64 c = true) ids ->
  forall db count,
  exists new,
    Student.select_loop uid (map Some ids) db count =
      Some ({| courses := courses db;
               enrollments := enrollments db ++ new;
               grades := grades db |}, (count + List.length new)%nat) /\
    map Enrollment.course_id new = Spec.new_courses (Spec.enrolled_courses db uid) ids /\
    Forall (fun e => Enrollment.student_id e = uid /\ Enrollment.score e = None) new.
Proof.
  induction ids as [|c rest IH]; intros Hb db count; simpl.
  - exists []. simpl. rewrite app_nil_r, Nat.add_0_r. destruct db; simpl.
    repeat split. constructor.
  - inversion Hb as [|? ? Hc Hrest]; subst. rewrite Hc. cbn [negb].
    specialize (IH Hrest).
    destruct (Session.first (Session.enrollments_by db uid c)) as [e|] eqn:E.
    + assert (Ex : existsb (Z.eqb c) (Spec.enrolled_courses db uid) = true).
      { apply not_false_iff_true. rewrite <- first_enrolled. congruence. }
      rewrite Ex. apply IH.
    + apply first_enrolled in E. rewrite E.
      destruct (IH (Session.add_enrollment db uid c) (S count)) as (new & H1 & H2 & H3).
      eexists (_ :: new). split; [|split].
      * rewrite H1. simpl. rewrite <- app_assoc. simpl.
        rewrite Nat.add_succ_r. reflexivity.
      * simpl. f_equal. rewrite H2. apply new_courses_ext.
        intros d. rewrite enrolled_courses_add, in_app_iff. simpl. tauto.
      * constructor; [split; reflexivity|exact H3].
Qed.

Lemma enrollments_by_app (db : DB) (new : list Enrollment.t) (uid c : Z) :
  Session.enrollments_by
    {| courses := courses db; enrollments := enrollments db ++ new; grades := grades db |}
    uid c =
  Session.enrollments_by db uid c ++ filter (Session.enrollment_by uid c) new.
Proof. unfold Session.enrollments_by. simpl. apply filter_app. Qed.

(** Among rows of one student with distinct courses, those of a course are
    one row when the course is there and none otherwise. *)
Lemma filter_by_course (uid c : Z) (new : list Enrollment.t) :
  Forall (fun e => Enrollment.student_id e = uid /\ Enrollment.score e = None) new ->
  NoDup (map Enrollment.course_id new) ->
  List.length (filter (Session.enrollment_by uid c) new) =
  if existsb (Z.eqb c) (map Enrollment.course_id new) then 1%nat else 0%nat.
Proof.
  induction new as [|e l IH]; intros HF HN; simpl; [reflexivity|].
  inversion HF as [|? ? [Hs _] HF']; subst. inversion HN as [|? ? Hnin HN']; subst.
  unfold Session.enrollment_by at 1. rewrite Z.eqb_refl. simpl.
  rewrite (Z.eqb_sym c). destruct (Enrollment.course_id e =? c) eqn:E; simpl.
  - apply Z.eqb_eq in E. rewrite (IH HF' HN').
    destruct (existsb (Z.eqb c) (map Enrollment.course_id l)) eqn:Ex; [|reflexivity].
    apply existsb_eqb_In in Ex. subst c. contradiction.
  - apply IH; assumption.
Qed.

Lemma new_courses_nil (seen ids : list Z) :
  (forall c, In c ids -> In c seen) -> Spec.new_courses seen ids = [].
Proof.
  intros H. destruct (Spec.new_courses seen ids) as [|c l] eqn:E; [reflexivity|].
  assert (Hc : In c (Spec.new_courses seen ids)) by (rewrite E; left; reflexivity).
  apply new_courses_In in Hc. destruct Hc as [Hi Hn]. contradiction Hn. apply H, Hi.
Qed.

Lemma with_new_nil (db : DB) : with_new db [] = db.
Proof. unfold with_new. rewrite app_nil_r. destruct db; reflexivity. Qed.

Lemma select_course_result (current_user : User.t) (ids : list Z) (db : DB) :
  User.role current_user = 0 ->
  Forall (fun c => Session.int64 c = true) ids ->
  exists new,
    Student.select_course current_user (map Some ids) db =
      (select_reply ids new, with_new db new) /\
    map Enrollment.course_id new =
      Spec.new_courses (Spec.enrolled_courses db (User.id current_user)) ids /\
    Forall (fun e => Enrollment.student_id e = User.id current_user /\
                     Enrollment.score e = None) new.
Proof.
  intros Hr Hb.
  destruct (select_loop_appends (User.id current_user) ids Hb db 0) as (new & H1 & H2 & H3).
  exists new. split; [|split; assumption].
  unfold Student.select_course. rewrite Hr. simpl.
  destruct ids as [|c rest].
  - simpl in H2. apply map_eq_nil in H2. subst new. rewrite with_new_nil. reflexivity.
  - change (map Some (c :: rest)) with (Some c :: map Some rest) in *.
    cbv iota. rewrite H1. simpl.
    destruct new as [|e l]; simpl.
    + rewrite with_new_nil. reflexivity.
    + reflexivity.
Qed.

Lemma with_new_count (db : DB) (uid c : Z) (ids : list Z) (new : list Enrollment.t) :
  map Enrollment.course_id new = Spec.new_courses (Spec.enrolled_courses db uid) ids ->
  Forall (fun e => Enrollment.student_id e = uid /\ Enrollment.score e = None) new ->
  In c ids ->
  (List.length (Session.enrollments_by db uid c) <= 1)%nat ->
  List.length (Session.enrollments_by (with_new db new) uid c) = 1%nat.
Proof.
  intros Hm HF Hc Hl. unfold with_new.
  rewrite enrollments_by_app, length_app, (filter_by_course uid c new HF).
  2:{ rewrite Hm. apply new_courses_NoDup. }
  rewrite Hm.
  destruct (existsb (Z.eqb c) (Spec.new_courses (Spec.enrolled_courses db uid) ids)) eqn:E.
  - apply existsb_eqb_In, new_courses_In in E. destruct E as [_ Hn].
    rewrite enrolled_courses_In in Hn.
    destruct (Session.enrollments_by db uid c); [reflexivity|].
    contradiction Hn. discriminate.
  - apply not_true_iff_false in E. rewrite existsb_eqb_In, new_courses_In in E.
    destruct (Session.enrollments_by db uid c) as [|e l] eqn:Eb.
    + contradiction E. split; [exact Hc|]. rewrite enrolled_courses_In, Eb. tauto.
    + apply length_le_1 in Hl. subst l. reflexivity.
Qed.

Lemma select_course_one_row (current_user : User.t) (ids : list Z) (db : DB) (c : Z) :
  User.role current_user = 0 ->
  Forall (fun c => Session.int64 c = true) ids ->
  In c ids ->
  (List.length (Session.enrollments_by db (User.id current_user) c) <= 1)%nat ->
  List.length
    (Session.enrollments_by (snd (Student.select_course current_user (map Some ids) db))
       (User.id current_user) c) = 1%nat.
Proof.
  intros Hr Hb Hc Hl.
  destruct (select_course_result current_user ids db Hr Hb) as (new & H1 & H2 & H3).
  rewrite H1. simpl. eapply with_new_count; eassumption.
Qed.

(** C5 as stated fails for an id outside 64 bits: the student has no
    enrollment for it, and the request fails with nothing created. *)
Lemma select_course_oversized_id :
  Spec.rows_of_pair (enrollments Sample.db_enrolled) (User.id Sample.student) (2 ^ 63) =
    0%nat /\
  Student.select_course Sample.student [Some (2 ^ 63)] Sample.db_enrolled =
    (Student.Error500, Sample.db_enrolled).
Proof. split; reflexivity. Qed.

(** C5, amended: for a student and a list of course ids of 64 bits,
    [select_course] appends one enrollment without a score for each id that
    has no enrollment of the student yet, once however often the id is
    selected, and reports their number; the course then has exactly one
    enrollment of the student, a second call with the same ids creates
    nothing, and so does any later call for a course of the first. *)
Theorem select_course_creates_missing (current_user : User.t) (ids : list Z) (db : DB) :
  User.role current_user = 0 ->
  Forall (fun c => - 2 ^ 63 <= c < 2 ^ 63) ids ->
  exists new,
    let uid := User.id current_user in
    let db' := {| courses := courses db;
                  enrollments := enrollments db ++ new;
                  grades := grades db |} in
    Student.select_course current_user (map Some ids) db =
      (match ids, new with
       | [], _ => Student.Flash Student.ChooseCourse
       | _, [] => Student.Flash Student.AllSelected
       | _, _ => Student.Flash (Student.Selected (List.length new))
       end, db') /\
    Forall (fun e => Enrollment.student_id e = uid /\ Enrollment.score e = None) new /\
    map Enrollment.course_id new = Spec.new_courses (Spec.enrolled_courses db uid) ids /\
    NoDup (map Enrollment.course_id new) /\
    (forall c, In c (map Enrollment.course_id new) <->
               In c ids /\ Spec.rows_of_pair (enrollments db) uid c = 0%nat) /\
    (forall c, In c ids ->
               (Spec.rows_of_pair (enrollments db) uid c <= 1)%nat ->
               Spec.rows_of_pair (enrollments db') uid c = 1%nat) /\
    Student.select_course current_user (map Some ids) db' =
      (match ids with
       | [] => Student.Flash Student.ChooseCourse
       | _ => Student.Flash Student.AllSelected
       end, db') /\
    (forall ids2 c,
       Forall (fun c => - 2 ^ 63 <= c < 2 ^ 63) ids2 ->
       In c ids -> In c ids2 ->
       (Spec.rows_of_pair (enrollments db) uid c <= 1)%nat ->
       Spec.rows_of_pair
         (enrollments (snd (Student.select_course current_user (map Some ids2) db')))
         uid c = 1%nat).
Proof.
  intros Hr Hb.
  assert (Hb' : Forall (fun c => Session.int64 c = true) ids).
  { eapply Forall_impl; [|exact Hb]. intros c Hc. apply int64_iff, Hc. }
  destruct (select_course_result current_user ids db Hr Hb') as (new & H1 & H2 & H3).
  exists new. cbv zeta.
  change {| courses := courses db; enrollments := enrollments db ++ new;
            grades := grades db |} with (with_new db new).
  split; [exact H1|].
  split; [exact H3|].
  split; [exact H2|].
  split; [rewrite H2; apply new_courses_NoDup|].
  split.
  { intros c. rewrite H2, new_courses_In, enrolled_courses_In, rows_of_pair_none.
    split; intros [Hc He]; (split; [exact Hc|]).
    - destruct (Session.enrollments_by db (User.id current_user) c);
        [reflexivity|]. contradiction He. discriminate.
    - rewrite He. tauto. }
  split.
  { intros c Hc Hl. rewrite rows_of_pair_length in *.
    eapply with_new_count; eassumption. }
  split.
  { destruct (select_course_result current_user ids (with_new db new) Hr Hb')
      as (new2 & K1 & K2 & _).
    rewrite new_courses_nil in K2.
    - apply map_eq_nil in K2. subst new2. rewrite K1.
      rewrite with_new_nil. destruct ids; reflexivity.
    - intros c Hc. rewrite (enrolled_courses_with_new _ _ _ H3), in_app_iff, H2.
      destruct (in_dec Z.eq_dec c (Spec.enrolled_courses db (User.id current_user)));
        [left; assumption|right]. apply new_courses_In. split; assumption. }
  intros ids2 c Hb2 Hc Hc2 Hl.
  assert (Hb2' : Forall (fun c => Session.int64 c = true) ids2).
  { eapply Forall_impl; [|exact Hb2]. intros d Hd. apply int64_iff, Hd. }
  rewrite rows_of_pair_length in *.
  apply select_course_one_row; try assumption.
  rewrite (with_new_count db _ c ids new H2 H3 Hc Hl). lia.
Qed.

Lemma select_course_creates_missing_witness :
  exists new,
    Student.select_course Sample.student (map Some [1; 1; 2]) Sample.db_enrolled =
      (match new with
       | [] => Student.Flash Student.AllSelected
       | _ => Student.Flash (Student.Selected (List.length new))
       end,
       {| courses := courses Sample.db_enrolled;
          enrollments := enrollments Sample.db_enrolled ++ new;
          grades := grades Sample.db_enrolled |}).
Proof.
  destruct (select_course_creates_missing Sample.student [1; 1; 2] Sample.db_enrolled)
    as (new & H & _).
  - reflexivity.
  - repeat constructor; discriminate.
  - exists new. exact H.
Defined.

(** The sample selection, evaluated: course 1 is skipped twice and one
    enrollment is created for course 2. *)
Lemma select_course_sample :
  Student.select_course Sample.student (map Some [1; 1; 2]) Sample.db_enrolled =
  (Student.Flash (Student.Selected 1),
   {| courses := courses Sample.db_enrolled;
      enrollments := [Sample.enrollment 1 7 1 None; Sample.enrollment 2 7 2 None];
      grades := [] |}).
Proof. reflexivity. Qed.

(** An id [int()] rejects makes the request fail and nothing is committed. *)
Lemma select_course_bad_id :
  Student.select_course Sample.student [Some 2; None] Sample.db_enrolled =
  (Student.Error500, Sample.db_enrolled).
Proof. reflexivity. Qed.

(** ** Course deletion *)

(** When the session deletes a course, the course and its enrollments are
    gone and no grade refers to it. *)
Lemma session_delete_course_clean (db db' : DB) (c : Course.t) :
  Session.delete_course db c = Some db' ->
  Session.course_get db' (Course.id c) = None /\
  (forall e, In e (enrollments db') -> Enrollment.course_id e <> Course.id c) /\
  (forall g, In g (grades db') -> Grade.course_id g <> Course.id c) /\
  (forall e, In e (enrollments db) -> Enrollment.course_id e <> Course.id c ->
             In e (enrollments db')) /\
  grades db' = grades db.
Proof.
  unfold Session.delete_course.
  destruct (existsb _ (grades db)) eqn:Eg; [discriminate|].
  intros H. injection H as <-. simpl. repeat split.
  - unfold Session.course_get. simpl.
    destruct (find _ (filter _ (courses db))) as [x|] eqn:F; [|reflexivity].
    apply find_some in F. destruct F as [F1 F2]. apply filter_In in F1.
    destruct F1 as [_ F1]. rewrite F2 in F1. discriminate.
  - intros e He. apply filter_In in He. destruct He as [_ He].
    apply negb_true_iff, Z.eqb_neq in He. exact He.
  - intros g Hg Heq.
    assert (existsb (fun g => Grade.course_id g =? Course.id c) (grades db) = true).
    { apply existsb_exists. exists g. split; [exact Hg|]. apply Z.eqb_eq, Heq. }
    congruence.
  - intros e He Hne. apply filter_In. split; [exact He|].
    apply negb_true_iff, Z.eqb_neq, Hne.
Qed.

(** The part of C6 the handler keeps: after a deletion answered 200 the
    course and its enrollments are gone and no row refers to the course. *)
Lemma delete_course_success_clean (current_user : User.t) (course_id : field Z)
  (db : DB) :
  Teacher.code (fst (Teacher.delete_course current_user course_id db)) = 200 ->
  exists cid,
    course_id = Text (Some cid) /\
    let db' := snd (Teacher.delete_course current_user course_id db) in
    Session.course_get db' cid = None /\
    (forall e, In e (enrollments db') -> Enrollment.course_id e <> cid) /\
    (forall g, In g (grades db') -> Grade.course_id g <> cid).
Proof.
  unfold Teacher.delete_course.
  destruct (negb (User.role current_user =? 1)); [discriminate|].
  destruct course_id as [|[cid|]]; try discriminate.
  destruct (Session.course_get db cid) as [course|] eqn:F; [|discriminate].
  unfold Session.course_get in F.
  apply find_some in F. destruct F as [_ F]. apply Z.eqb_eq in F.
  destruct (negb _); [discriminate|].
  destruct (Session.delete_course db course) as [db'|] eqn:D; [|discriminate].
  intros _. exists cid. split; [reflexivity|]. simpl.
  destruct (session_delete_course_clean db db' course D) as (H1 & H2 & H3 & _).
  rewrite F in *. repeat split; assumption.
Qed.

(** A course with a grade cannot be deleted by its teacher: the flush fails,
    the handler answers 500 and nothing is removed. *)
Lemma delete_course_blocked_by_grade (current_user : User.t) (cid : Z) (db : DB)
  (course : Course.t) (g : Grade.t) :
  User.role current_user = 1 ->
  Session.course_get db cid = Some course ->
  Course.teacher_id course = Some (User.id current_user) ->
  In g (grades db) -> Grade.course_id g = cid ->
  Teacher.delete_course current_user (Text (Some cid)) db =
  ({| Teacher.code := 500; Teacher.msg := Teacher.Failed |}, db).
Proof.
  intros Hr Hc Ht Hg Hgc. unfold Teacher.delete_course.
  rewrite Hr, Hc, Ht. simpl.
  unfold Session.delete_course.
  assert (Hid : Course.id course = cid).
  { unfold Session.course_get in Hc. apply find_some in Hc. apply Z.eqb_eq, Hc. }
  assert (E : existsb (fun g => Grade.course_id g =? Course.id course) (grades db) = true).
  { apply existsb_exists. exists g. split; [exact Hg|]. apply Z.eqb_eq. congruence. }
  rewrite E, Z.eqb_refl. reflexivity.
Qed.

(** C6, at a course with a submitted score: neither its teacher nor an
    administrator can delete it; both are answered 500 and the course, its
    enrollment and its grade all stay. *)
Theorem delete_course_with_grade_fails :
  Teacher.delete_course Sample.teacher (Text (Some 1)) Sample.db_scored =
    ({| Teacher.code := 500; Teacher.msg := Teacher.Failed |}, Sample.db_scored) /\
  Admin.delete_course Sample.admin 1 Sample.db_scored = (500, Sample.db_scored) /\
  Session.grades_by Sample.db_scored 7 1 = [Sample.grade 1 7 1 (Some 80%float)].
Proof. repeat split. Qed.

(** Without a grade the same deletion succeeds and cascades to the enrollment. *)
Lemma delete_course_sample :
  Teacher.delete_course Sample.teacher (Text (Some 1)) Sample.db_enrolled =
  ({| Teacher.code := 200; Teacher.msg := Teacher.CourseDeleted |}, Sample.empty).
Proof. reflexivity. Qed.

(** ** Course creation *)

(** The teacher's form takes any credit that is a number and not negative. *)
Lemma course_manage_accepts (current_user : User.t) (course_name : string)
  (credit : float) (db : DB) :
  User.role current_user = 1 ->
  course_name <> EmptyString ->
  PrimFloat.is_nan credit = false ->
  (credit <? 0)%float = false ->
  exists c,
    Teacher.course_manage current_user course_name (Text (Some credit)) db =
      (Teacher.Published,
       {| courses := courses db ++ [c];
          enrollments := enrollments db; grades := grades db |}) /\
    Course.name c = course_name /\
    Course.credit c = (if (credit =? 0)%float then 0%float else credit) /\
    Course.teacher_id c = Some (User.id current_user).
Proof.
  intros Hr Hn Hnan Hneg. unfold Teacher.course_manage, Session.add_course.
  rewrite Hr. simpl.
  destruct (String.eqb_spec course_name EmptyString) as [E|_]; [contradiction|].
  unfold Session.sql_real. rewrite Hneg, Hnan.
  destruct (credit =? 0)%float; eexists; (split; [reflexivity|]); repeat split.
Qed.

(** The administrator's form takes a credit only in [[0.5,10]]. *)
Lemma CourseForm_validate_range (name : string) (credit : field float) :
  Admin.CourseForm_validate name credit = true ->
  name <> EmptyString /\
  exists data, credit = Text (Some data) /\ Spec.credit_in_range data = true.
Proof.
  unfold Admin.CourseForm_validate, Admin.NumberRange. intros H.
  apply andb_true_iff in H as [Hn H]. split.
  - intros ->. discriminate.
  - destruct credit as [|[data|]]; try discriminate.
    exists data. split; [reflexivity|].
    apply andb_true_iff in H as [_ H]. apply negb_true_iff in H.
    apply orb_false_iff in H as [H H2]. apply orb_false_iff in H as [Hnan H1].
    unfold Spec.credit_in_range.
    rewrite (leb_negb_ltb 0.5 data), (leb_negb_ltb data 10), H1, H2
      by (assumption || reflexivity).
    reflexivity.
Qed.

(** C8, at the credits 100 and 0.1: the teacher's form creates the course,
    while the course form of the administrator and the range check of
    [edit_course] both refuse them. *)
Theorem course_manage_accepts_any_credit :
  Spec.credit_in_range 100 = false /\
  Spec.credit_in_range 0.1 = false /\
  Teacher.course_manage Sample.teacher "Math" (Text (Some 100%float)) Sample.empty =
    (Teacher.Published,
     {| courses := [ {| Course.id := 1; Course.name := "Math";
                        Course.credit := 100; Course.teacher_id := Some 3 |} ];
        enrollments := []; grades := [] |}) /\
  Teacher.course_manage Sample.teacher "Math" (Text (Some 0.1%float)) Sample.empty =
    (Teacher.Published,
     {| courses := [ {| Course.id := 1; Course.name := "Math";
                        Course.credit := 0.1; Course.teacher_id := Some 3 |} ];
        enrollments := []; grades := [] |}) /\
  Admin.CourseForm_validate "Math" (Text (Some 100%float)) = false /\
  Admin.CourseForm_validate "Math" (Text (Some 0.1%float)) = false /\
  Admin.edit_course_credit_ok 100 = false /\
  Admin.edit_course_credit_ok 0.1 = false.
Proof. repeat split. Qed.

(** ** Arithmetic of the binary64 format *)

Lemma digits2_size (m : positive) : digits2_pos m = Pos.size m.
Proof. induction m; simpl; congruence. Qed.

Lemma digits2_bounds (m : positive) :
  2 ^ (Zpos (digits2_pos m) - 1) <= Zpos m < 2 ^ Zpos (digits2_pos m).
Proof.
  rewrite digits2_size. split.
  - pose proof (Pos.size_le m) as H.
    assert (H' : 2 ^ Zpos (Pos.size m) <= 2 * Zpos m).
    { change (2 * Zpos m) with (Zpos (m~0)). rewrite <- Pos2Z.inj_pow.
      apply Pos2Z.pos_le_pos. exact H. }
    replace (Zpos (Pos.size m)) with (Zpos (Pos.size m) - 1 + 1) in H' by lia.
    rewrite Z.pow_add_r in H' by lia. lia.
  - pose proof (Pos.size_gt m) as H.
    rewrite <- Pos2Z.inj_pow. apply Pos2Z.pos_lt_pos. exact H.
Qed.

Lemma value_pos (m e : Z) : 0 < m -> - scale <= e -> 0 < value m e.
Proof.
  intros Hm He. unfold value. apply Z.mul_pos_pos; [exact Hm|].
  apply Z.pow_pos_nonneg; lia.
Qed.

Lemma value_shift (m e n : Z) :
  0 <= n -> - scale <= e -> value m (e + n) = m * 2 ^ n * 2 ^ (e + scale).
Proof.
  intros Hn He. unfold value.
  replace (e + n + scale) with (n + (e + scale)) by lia.
  rewrite Z.pow_add_r by lia. ring.
Qed.

(** A value below that of a number of at most 53 bits has a small exponent. *)
Lemma value_le_exponent (m : positive) (e : Z) (mb : positive) (eb : Z) :
  - scale <= e -> - scale <= eb ->
  Zpos mb < 2 ^ 53 ->
  value (Zpos m) e <= value (Zpos mb) eb ->
  Zpos (digits2_pos m) + e - 53 <= eb.
Proof.
  intros He Heb Hmb Hv. unfold value in Hv.
  pose proof (digits2_bounds m) as [Hd _].
  assert (H1 : 2 ^ (Zpos (digits2_pos m) - 1) * 2 ^ (e + scale) <
               2 ^ 53 * 2 ^ (eb + scale)).
  { eapply Z.le_lt_trans; [|apply Z.mul_lt_mono_pos_r; [|exact Hmb]].
    - eapply Z.le_trans; [|exact Hv].
      apply Z.mul_le_mono_nonneg_r; [|exact Hd]. apply Z.pow_nonneg. lia.
    - apply Z.pow_pos_nonneg; lia. }
  rewrite <- !Z.pow_add_r in H1 by lia.
  apply Z.pow_lt_mono_r_iff in H1; lia.
Qed.

(** ** Shifting right *)

Lemma shifted_1 (r : shr_record) : 0 <= shr_m r -> shifted 1 r (shr_1 r).
Proof.
  destruct r as [m b s]. unfold shifted, inexact. simpl. intros Hm.
  destruct m as [|[p|p|]|p]; simpl; try lia;
    (split; [lia|split; [lia|]]); intros H; try (right; lia);
    left; destruct b, s; simpl in *; congruence.
Qed.

Lemma shifted_trans (n1 n2 : Z) (r r1 r2 : shr_record) :
  0 <= n1 -> 0 <= n2 ->
  shifted n1 r r1 -> shifted n2 r1 r2 -> shifted (n1 + n2) r r2.
Proof.
  intros H1 H2 (A1 & A2 & A3) (B1 & B2 & B3). unfold shifted.
  rewrite Z.pow_add_r by assumption.
  assert (P1 : 0 < 2 ^ n1) by (apply Z.pow_pos_nonneg; lia).
  assert (P2 : 0 < 2 ^ n2) by (apply Z.pow_pos_nonneg; lia).
  split; [exact B1|]. split; [nia|].
  intros H. destruct (B3 H) as [H'|H'].
  - destruct (A3 H') as [H''|H'']; [left; exact H''|right; nia].
  - right. nia.
Qed.

Lemma shifted_iter (p : positive) :
  forall r, 0 <= shr_m r -> shifted (Zpos p) r (iter_pos shr_1 p r).
Proof.
  induction p as [p IH|p IH|]; intros r Hr; simpl.
  - pose proof (shifted_1 r Hr) as S1.
    pose proof (IH (shr_1 r) (proj1 S1)) as S2.
    pose proof (IH _ (proj1 S2)) as S3.
    replace (Zpos p~1) with (1 + Zpos p + Zpos p) by lia.
    eapply shifted_trans; [lia|lia| |exact S3].
    eapply shifted_trans; [lia|lia|exact S1|exact S2].
  - pose proof (IH r Hr) as S2.
    pose proof (IH _ (proj1 S2)) as S3.
    replace (Zpos p~0) with (Zpos p + Zpos p) by lia.
    eapply shifted_trans; [lia|lia|exact S2|exact S3].
  - apply shifted_1, Hr.
Qed.

(** [shr] from an exact record: the exponent grows by what the mantissa lost. *)
Lemma shr_exact (m e n : Z) :
  0 <= m -> - scale <= e ->
  let '(r, e') := shr (Build_shr_record m false false) e n in
  0 <= shr_m r /\ e <= e' /\
  value (shr_m r) e' <= value m e /\
  (0 < n -> e' = e + n /\ shr_m r * 2 ^ n <= m /\
            (loc_of_shr_record r <> loc_Exact -> shr_m r * 2 ^ n < m)) /\
  (n <= 0 -> e' = e /\ shr_m r = m /\ loc_of_shr_record r = loc_Exact).
Proof.
  intros Hm He. destruct n as [|p|p]; simpl.
  - repeat split; lia.
  - destruct (shifted_iter p (Build_shr_record m false false) Hm) as (A1 & A2 & A3).
    simpl in A2, A3. unfold inexact in A3. simpl in A3.
    set (r := iter_pos shr_1 p (Build_shr_record m false false)) in *.
    split; [exact A1|]. split; [lia|]. split.
    + rewrite value_shift by lia. unfold value.
      apply Z.mul_le_mono_nonneg_r; [apply Z.pow_nonneg; lia|exact A2].
    + split; [|lia]. intros _. split; [reflexivity|]. split; [exact A2|].
      intros Hl. destruct r as [m' b s]; simpl in *.
      destruct b, s; simpl in *;
        try (destruct A3 as [A3|A3]; [reflexivity|discriminate|exact A3]).
      contradiction Hl. reflexivity.
  - repeat split; lia.
Qed.

(** ** Rounding to nearest *)

Lemma fexp_eq (x : Z) : fexp prec emax x = Z.max (x - 53) (-1074).
Proof. reflexivity. Qed.

Lemma round_nearest_even_bounds (m : Z) (l : location) :
  m <= round_nearest_even m l <= m + 1 /\
  (l = loc_Exact -> round_nearest_even m l = m).
Proof.
  destruct l as [|[ | | ]]; simpl; try (split; [lia|]; try reflexivity; discriminate).
  destruct (Z.even m); split; try lia; discriminate.
Qed.

(** Rounding a positive value that is at most a float of the format gives at
    most that float. *)
Lemma round_at_most (m0 : positive) (e0 : Z) (mb : positive) (eb : Z) :
  - scale <= e0 -> -1074 <= eb <= 900 -> Zpos mb < 2 ^ 53 ->
  value (Zpos m0) e0 <= value (Zpos mb) eb ->
  at_most (binary_round_aux prec emax false (Zpos m0) e0 loc_Exact) mb eb.
Proof.
  intros He0 Heb Hmb Hv.
  assert (Hsc : - scale <= eb) by (unfold scale; lia).
  unfold binary_round_aux, shr_fexp. simpl Zdigits2. simpl shr_record_of_loc.
  pose proof (value_le_exponent m0 e0 mb eb He0 Hsc Hmb Hv) as Hd.
  rewrite fexp_eq.
  set (e1 := Z.max (Zpos (digits2_pos m0) + e0 - 53) (-1074)).
  assert (He1 : e1 <= eb) by (unfold e1; lia).
  pose proof (shr_exact (Zpos m0) e0 (e1 - e0) ltac:(lia) He0) as S1.
  destruct (shr {| shr_m := Zpos m0; shr_r := false; shr_s := false |} e0 (e1 - e0))
    as [r1 e1'].
  destruct S1 as (A1 & A2 & A3 & A4 & A5).
  pose proof (round_nearest_even_bounds (shr_m r1) (loc_of_shr_record r1)) as [R1 R2].
  set (m2 := round_nearest_even (shr_m r1) (loc_of_shr_record r1)) in *.
  assert (Hm2 : 0 <= m2) by lia.
  assert (He1' : - scale <= e1') by lia.
  assert (Hv2 : value m2 e1' <= value (Zpos mb) eb).
  { destruct (Z.lt_ge_cases 0 (e1 - e0)) as [Hn|Hn].
    - destruct (A4 Hn) as (E & B1 & B2). subst e1'.
      replace (e0 + (e1 - e0)) with e1 by lia.
      assert (P0 : 0 < 2 ^ (e0 + scale)) by (apply Z.pow_pos_nonneg; lia).
      assert (Pn : 0 < 2 ^ (e1 - e0)) by (apply Z.pow_pos_nonneg; lia).
      assert (Pb : 0 < 2 ^ (eb - e1)) by (apply Z.pow_pos_nonneg; lia).
      assert (Eb : value (Zpos mb) eb =
                   Zpos mb * 2 ^ (eb - e1) * 2 ^ (e1 - e0) * 2 ^ (e0 + scale)).
      { unfold value. replace (eb + scale) with ((eb - e1) + (e1 - e0) + (e0 + scale)) by lia.
        rewrite !Z.pow_add_r by lia. ring. }
      assert (E1 : value m2 e1 = m2 * 2 ^ (e1 - e0) * 2 ^ (e0 + scale)).
      { unfold value. replace (e1 + scale) with ((e1 - e0) + (e0 + scale)) by lia.
        rewrite Z.pow_add_r by lia. ring. }
      rewrite Eb in Hv |- *. rewrite E1. unfold value in Hv.
      set (Kb := Zpos mb * 2 ^ (eb - e1)) in *.
      assert (Hk : Zpos m0 <= Kb * 2 ^ (e1 - e0)) by nia.
      assert (Hm2k : m2 <= Kb).
      { destruct (Z.eq_dec m2 (shr_m r1)) as [Em|Em].
        - rewrite Em. nia.
        - assert (Hl : loc_of_shr_record r1 <> loc_Exact)
            by (intros El; apply Em, R2, El).
          specialize (B2 Hl). nia. }
      apply Z.mul_le_mono_nonneg_r; [lia|].
      apply Z.mul_le_mono_nonneg_r; [lia|exact Hm2k].
    - destruct (A5 Hn) as (E & Em & El). subst e1'.
      rewrite (R2 El), Em. exact Hv. }
  clearbody m2.
  pose proof (shr_exact m2 e1' (fexp prec emax (Zdigits2 m2 + e1') - e1') Hm2 He1') as S2.
  destruct (shr {| shr_m := m2; shr_r := false; shr_s := false |} e1'
              (fexp prec emax (Zdigits2 m2 + e1') - e1')) as [r2 e2].
  destruct S2 as (C1 & C2 & C3 & _).
  destruct (shr_m r2) as [|m3|m3] eqn:E3; simpl; [exact I| |lia].
  assert (Hv3 : value (Zpos m3) e2 <= value (Zpos mb) eb) by lia.
  pose proof (value_le_exponent m3 e2 mb eb ltac:(lia) Hsc Hmb Hv3) as Hd3.
  assert (L : (e2 <=? 971) = true).
  { apply Z.leb_le. pose proof (Pos2Z.is_pos (digits2_pos m3)). lia. }
  change (emax - prec) with 971. rewrite L. simpl. split; [lia|exact Hv3].
Qed.

(** ** Alignment and normalization *)

Lemma shl_align_value (m : positive) (e e' : Z) :
  - scale <= e -> - scale <= e' ->
  value (Zpos (fst (shl_align m e e'))) (snd (shl_align m e e')) = value (Zpos m) e /\
  snd (shl_align m e e') = Z.min e e'.
Proof.
  intros He He'. unfold shl_align.
  destruct (e' - e) as [|d|d] eqn:E; cbn [fst snd]; try (split; [reflexivity|lia]).
  split; [|pose proof (Pos2Z.opp_pos d); lia].
  change (Pos.iter xO m d) with (shift_pos d m).
  rewrite shift_pos_correct. change (Z.pow_pos 2 d) with (2 ^ Zpos d).
  pose proof (Pos2Z.opp_pos d) as N.
  unfold value. replace (e + scale) with (Zpos d + (e' + scale)) by lia.
  rewrite (Z.pow_add_r 2 (Zpos d) (e' + scale)) by lia. ring.
Qed.

Lemma binary_round_at_most (m : positive) (e : Z) (mb : positive) (eb : Z) :
  - scale <= e -> -1074 <= eb <= 900 -> Zpos mb < 2 ^ 53 ->
  value (Zpos m) e <= value (Zpos mb) eb ->
  at_most (binary_round prec emax false m e) mb eb.
Proof.
  intros He Heb Hmb Hv. unfold binary_round.
  assert (Hf : - scale <= fexp prec emax (Zpos (digits2_pos m) + e))
    by (rewrite fexp_eq; unfold scale; lia).
  destruct (shl_align_value m e _ He Hf) as [V E].
  destruct (shl_align m e (fexp prec emax (Zpos (digits2_pos m) + e))) as [mz ez].
  cbn [fst snd] in V, E. apply round_at_most; try assumption; [lia|].
  rewrite V. exact Hv.
Qed.

Lemma binary_normalize_at_most (k e : Z) (mb : positive) (eb : Z) :
  0 <= k -> - scale <= e -> -1074 <= eb <= 900 -> Zpos mb < 2 ^ 53 ->
  value k e <= value (Zpos mb) eb ->
  at_most (binary_normalize prec emax k e false) mb eb.
Proof.
  intros Hk He Heb Hmb Hv. destruct k as [|k|k]; simpl; [exact I| |lia].
  apply binary_round_at_most; assumption.
Qed.

(** ** Numbers of the format *)

Lemma valid_finite (s : bool) (m : positive) (e : Z) :
  valid_binary (S754_finite s m e) = true ->
  -1074 <= e /\ Zpos m < 2 ^ 53 /\ (-1074 < e -> 2 ^ 52 <= Zpos m).
Proof.
  cbn [valid_binary]. unfold bounded, canonical_mantissa. rewrite fexp_eq.
  intros H. apply andb_true_iff in H as [H _]. apply Z.eqb_eq in H.
  pose proof (digits2_bounds m) as [D1 D2].
  assert (Hd : Zpos (digits2_pos m) <= 53) by lia.
  split; [lia|]. split.
  - eapply Z.lt_le_trans; [exact D2|]. apply Z.pow_le_mono_r; lia.
  - intros He. assert (Zpos (digits2_pos m) = 53) by lia.
    replace 52 with (Zpos (digits2_pos m) - 1) by lia. exact D1.
Qed.

(** The order of the format on its positive numbers is the order of their
    values. *)
Lemma value_lt_exponent (m1 : positive) (e1 : Z) (m2 : positive) (e2 : Z) :
  valid_binary (S754_finite false m1 e1) = true ->
  valid_binary (S754_finite false m2 e2) = true ->
  e1 < e2 -> value (Zpos m1) e1 < value (Zpos m2) e2.
Proof.
  intros V1 V2 He.
  destruct (valid_finite _ _ _ V1) as (A1 & A2 & _).
  destruct (valid_finite _ _ _ V2) as (B1 & _ & B3).
  assert (B4 : 2 ^ 52 <= Zpos m2) by (apply B3; lia). clear B3. unfold value.
  assert (P : 0 < 2 ^ (e1 + scale)) by (apply Z.pow_pos_nonneg; unfold scale; lia).
  replace (e2 + scale) with ((e2 - e1 - 1) + 1 + (e1 + scale)) by lia.
  rewrite (Z.pow_add_r 2 (e2 - e1 - 1 + 1) (e1 + scale)) by (unfold scale; lia).
  rewrite (Z.pow_add_r 2 (e2 - e1 - 1) 1) by lia.
  assert (Q : 0 < 2 ^ (e2 - e1 - 1)) by (apply Z.pow_pos_nonneg; lia).
  change (2 ^ 1) with 2. change (2 ^ 53) with (2 * 2 ^ 52) in A2.
  assert (B0 : 0 < 2 ^ 52) by reflexivity.
  generalize dependent (2 ^ 52). intros big A2 B4 B0.
  generalize dependent (2 ^ (e1 + scale)). intros p Hp.
  generalize dependent (2 ^ (e2 - e1 - 1)). intros q Hq.
  assert (H1 : Zpos m1 * p < 2 * big * p) by (apply Z.mul_lt_mono_pos_r; assumption).
  assert (H2 : 2 * big * p <= 2 * Zpos m2 * p) by (apply Z.mul_le_mono_nonneg_r; lia).
  assert (H3 : 2 * Zpos m2 * p * 1 <= 2 * Zpos m2 * p * q)
    by (apply Z.mul_le_mono_nonneg_l; [apply Z.mul_nonneg_nonneg; lia|lia]).
  replace (Zpos m2 * (q * 2 * p)) with (2 * Zpos m2 * p * q) by ring. lia.
Qed.

Lemma compare_finite (m1 : positive) (e1 : Z) (m2 : positive) (e2 : Z) :
  valid_binary (S754_finite false m1 e1) = true ->
  valid_binary (S754_finite false m2 e2) = true ->
  SFleb (S754_finite false m1 e1) (S754_finite false m2 e2) = true <->
  value (Zpos m1) e1 <= value (Zpos m2) e2.
Proof.
  intros V1 V2. unfold SFleb, SFcompare.
  assert (P : 0 < 2 ^ (e1 + scale)).
  { destruct (valid_finite _ _ _ V1) as (A1 & _).
    apply Z.pow_pos_nonneg; unfold scale; lia. }
  destruct (Z.compare_spec e1 e2) as [E|E|E].
  - subst e2. rewrite Pos.compare_cont_spec. cbn [Pos.switch_Eq].
    unfold value. rewrite <- Z.mul_le_mono_pos_r by exact P.
    change (Zpos m1 <= Zpos m2) with (m1 <= m2)%positive.
    destruct (Pos.compare_spec m1 m2) as [C|C|C]; split; intros H;
      try reflexivity; try discriminate; try lia.
  - pose proof (value_lt_exponent m1 e1 m2 e2 V1 V2 E). split; [lia|reflexivity].
  - pose proof (value_lt_exponent m2 e2 m1 e1 V2 V1 E). split; [discriminate|lia].
Qed.

Lemma at_most_leb (x : spec_float) (mb : positive) (eb : Z) :
  valid_binary x = true ->
  valid_binary (S754_finite false mb eb) = true ->
  at_most x mb eb ->
  SFleb x (S754_finite false mb eb) = true /\ SFleb (S754_zero false) x = true.
Proof.
  intros Vx Vb H. destruct x as [s|s| |[|] m e]; cbn [at_most] in H; try contradiction.
  - split; reflexivity.
  - split; [|reflexivity]. apply compare_finite; try assumption. apply H.
Qed.

(** ** The grade-point formula in the format *)

Lemma value_sub (a b e : Z) : value (a - b) e = value a e - value b e.
Proof. unfold value. ring. Qed.

Lemma value_add (a b e : Z) : value (a + b) e = value a e + value b e.
Proof. unfold value. ring. Qed.

Lemma value_le_mantissa (a b e : Z) :
  - scale <= e -> value a e <= value b e -> a <= b.
Proof.
  intros He H. unfold value in H.
  apply Z.mul_le_mono_pos_r in H; [exact H|]. apply Z.pow_pos_nonneg; lia.
Qed.

(** A float in [[60,100]] is 100 or a positive finite number below it. *)
Lemma score_60_100 (s : float) :
  (60 <=? s)%float = true -> (s <=? 100)%float = true ->
  s = 100%float \/
  exists ms es,
    Prim2SF s = S754_finite false ms es /\
    value 8444249301319680 (-47) <= value (Zpos ms) es <= value 7036874417766399 (-46).
Proof.
  rewrite !FloatAxioms.leb_spec.
  change (Prim2SF 60) with (S754_finite false 8444249301319680 (-47)).
  change (Prim2SF 100) with (S754_finite false 7036874417766400 (-46)).
  pose proof (Prim2SF_valid s) as V. intros H1 H2.
  destruct (Prim2SF s) as [b|b| |b ms es] eqn:E.
  - destruct b; discriminate.
  - destruct b; discriminate.
  - discriminate.
  - destruct b; [discriminate|].
    apply compare_finite in H1; [|reflexivity|exact V].
    pose proof H2 as H2'. apply compare_finite in H2'; [|exact V|reflexivity].
    destruct (Z.eq_dec es (-46)) as [Ee|Ee].
    + subst es. apply value_le_mantissa in H2'; [|unfold scale; lia].
      destruct (Pos.eq_dec ms 7036874417766400) as [Em|Em].
      * left. apply Prim2SF_inj. rewrite E, Em. reflexivity.
      * right. exists ms, (-46). split; [reflexivity|]. split; [exact H1|].
        unfold value. apply Z.mul_le_mono_nonneg_r; [apply Z.pow_nonneg; lia|].
        assert (Zpos ms <> 7036874417766400) by congruence. lia.
    + right. exists ms, es. split; [reflexivity|]. split; [exact H1|].
      unfold SFleb, SFcompare in H2.
      destruct (Z.compare_spec es (-46)) as [C|C|C]; [contradiction| |discriminate].
      apply Z.lt_le_incl.
      apply (value_lt_exponent ms es 7036874417766399 (-46)); [exact V|reflexivity|exact C].
Qed.

Lemma sub_60_at_most (ms : positive) (es : Z) :
  valid_binary (S754_finite false ms es) = true ->
  value 8444249301319680 (-47) <= value (Zpos ms) es <= value 7036874417766399 (-46) ->
  at_most (SF64sub (S754_finite false ms es) (S754_finite false 8444249301319680 (-47)))
          5629499534213118 (-47).
Proof.
  intros V [H1 H2]. destruct (valid_finite _ _ _ V) as (A1 & _).
  unfold SF64sub, SFsub. cbn [cond_Zopp].
  set (ez := Z.min es (-47)).
  assert (Hez : - scale <= ez) by (unfold ez, scale; lia).
  destruct (shl_align_value ms es ez) as [Va Ea]; [unfold scale; lia|exact Hez|].
  destruct (shl_align_value 8444249301319680 (-47) ez) as [Vb Eb];
    [unfold scale; lia|exact Hez|].
  replace (snd (shl_align ms es ez)) with ez in Va by (rewrite Ea; unfold ez; lia).
  replace (snd (shl_align 8444249301319680 (-47) ez)) with ez in Vb
    by (rewrite Eb; unfold ez; lia).
  set (a := Zpos (fst (shl_align ms es ez))) in *.
  set (b := Zpos (fst (shl_align 8444249301319680 (-47) ez))) in *.
  assert (C : value 7036874417766399 (-46) - value 8444249301319680 (-47) =
              value 5629499534213118 (-47)) by reflexivity.
  apply binary_normalize_at_most; try assumption; try lia; try reflexivity.
  - assert (b <= a); [|lia]. apply (value_le_mantissa b a ez Hez). lia.
  - rewrite value_sub. lia.
Qed.

Lemma mul_01_at_most (d : spec_float) :
  valid_binary d = true ->
  at_most d 5629499534213118 (-47) ->
  at_most (SF64mul d (S754_finite false 7205759403792794 (-56))) 4503599627370496 (-50).
Proof.
  intros V H. destruct d as [b|b| |[|] md ed]; cbn [at_most] in H; try contradiction.
  - exact I.
  - destruct H as [_ H]. destruct (valid_finite _ _ _ V) as (A1 & _).
    unfold SF64mul, SFmul. cbn [xorb].
    apply round_at_most; try (unfold scale; lia); try reflexivity.
    assert (E : value (Zpos (md * 7205759403792794)) (ed + -56) * 2 ^ 56 =
                7205759403792794 * value (Zpos md) ed).
    { unfold value. rewrite Pos2Z.inj_mul.
      replace (ed + scale) with ((ed + -56 + scale) + 56) by lia.
      rewrite (Z.pow_add_r 2 (ed + -56 + scale) 56) by (unfold scale; lia). ring. }
    assert (C : 7205759403792794 * value 5629499534213118 (-47) <=
                value 4503599627370496 (-50) * 2 ^ 56) by (vm_compute; discriminate).
    assert (P : 0 < 2 ^ 56) by reflexivity.
    apply (Z.mul_le_mono_pos_r _ _ (2 ^ 56) P).
    rewrite E. eapply Z.le_trans; [|exact C].
    apply Z.mul_le_mono_nonneg_l; [lia|exact H].
Qed.

Lemma add_1_at_most (p : spec_float) :
  valid_binary p = true ->
  at_most p 4503599627370496 (-50) ->
  at_most (SF64add (S754_finite false 4503599627370496 (-52)) p) 5629499534213120 (-50).
Proof.
  intros V H. destruct p as [b|b| |[|] mp ep]; cbn [at_most] in H; try contradiction.
  - unfold SF64add, SFadd. split; [unfold scale; lia|vm_compute; discriminate].
  - destruct H as [_ H]. destruct (valid_finite _ _ _ V) as (A1 & _).
    unfold SF64add, SFadd. cbn [cond_Zopp].
    set (ez := Z.min (-52) ep).
    assert (Hez : - scale <= ez) by (unfold ez, scale; lia).
    destruct (shl_align_value 4503599627370496 (-52) ez) as [Va Ea];
      [unfold scale; lia|exact Hez|].
    destruct (shl_align_value mp ep ez) as [Vb Eb]; [unfold scale; lia|exact Hez|].
    replace (snd (shl_align 4503599627370496 (-52) ez)) with ez in Va
      by (rewrite Ea; unfold ez; lia).
    replace (snd (shl_align mp ep ez)) with ez in Vb by (rewrite Eb; unfold ez; lia).
    assert (C : value 4503599627370496 (-52) + value 4503599627370496 (-50) =
                value 5629499534213120 (-50)) by reflexivity.
    apply binary_normalize_at_most; try assumption; try lia; try reflexivity.
    rewrite value_add. lia.
Qed.

(** The formula of the grade-point stays within 0 and 5 on [[60,100]]. *)
Lemma formula_at_most_5 (s : float) :
  (60 <=? s)%float = true -> (s <=? 100)%float = true ->
  (0 <=? 1.0 + (s - 60) * 0.1)%float = true /\
  (1.0 + (s - 60) * 0.1 <=? 5)%float = true.
Proof.
  intros H1 H2. destruct (score_60_100 s H1 H2) as [->|(ms & es & E & Hv)].
  - split; reflexivity.
  - pose proof (Prim2SF_valid s) as Vs. rewrite E in Vs.
    pose proof (Prim2SF_valid (s - 60)%float) as Vd.
    pose proof (Prim2SF_valid ((s - 60) * 0.1)%float) as Vp.
    pose proof (Prim2SF_valid (1.0 + (s - 60) * 0.1)%float) as Vr.
    rewrite !FloatAxioms.leb_spec.
    rewrite FloatAxioms.add_spec in Vr |- *.
    rewrite FloatAxioms.mul_spec in Vp, Vr |- *.
    rewrite FloatAxioms.sub_spec in Vd, Vp, Vr |- *.
    rewrite E in Vd, Vp, Vr |- *.
    change (Prim2SF 60) with (S754_finite false 8444249301319680 (-47)) in *.
    change (Prim2SF 0.1) with (S754_finite false 7205759403792794 (-56)) in *.
    change (Prim2SF 1.0) with (S754_finite false 4503599627370496 (-52)) in *.
    change (Prim2SF 5) with (S754_finite false 5629499534213120 (-50)).
    change (Prim2SF 0) with (S754_zero false).
    pose proof (sub_60_at_most ms es Vs Hv) as Hd.
    pose proof (mul_01_at_most _ Vd Hd) as Hp.
    pose proof (add_1_at_most _ Vp Hp) as Hr.
    destruct (at_most_leb _ 5629499534213120 (-50) Vr eq_refl Hr) as [L1 L2].
    split; assumption.
Qed.

(** ** The scale of the grade-point *)

(** C7 as stated fails at the score 100: its grade-point is 5.0, above 4.6. *)
Lemma grade_point_100_above_4_6 :
  Spec.in_range 100 = true /\
  Enrollment.grade_point (Sample.enrollment 1 7 1 (Some 100%float)) = 5.0%float /\
  (Enrollment.grade_point (Sample.enrollment 1 7 1 (Some 100%float)) <=? 4.6)%float = false.
Proof. repeat split. Qed.

(** C7, amended: for every score in [[0,100]] the grade-point lies within
    0.0 and 5.0, the value it takes at 100. *)
Theorem grade_point_within_0_5 (e : Enrollment.t) (s : float) :
  Enrollment.score e = Some s ->
  Spec.in_range s = true ->
  (0.0 <=? Enrollment.grade_point e)%float = true /\
  (Enrollment.grade_point e <=? 5.0)%float = true /\
  Enrollment.grade_point (Sample.enrollment 1 7 1 (Some 100%float)) = 5.0%float.
Proof.
  intros Hs Hr. unfold Enrollment.grade_point at 1 2. rewrite Hs.
  destruct (s <? 60)%float eqn:L.
  - repeat split.
  - pose proof (in_range_not_nan s Hr) as Hn.
    assert (H60 : (60 <=? s)%float = true).
    { rewrite (leb_negb_ltb 60 s eq_refl Hn), L. reflexivity. }
    unfold Spec.in_range in Hr. apply andb_true_iff in Hr as [_ H100].
    destruct (formula_at_most_5 s H60 H100) as [A B].
    repeat split; assumption.
Qed.

Lemma grade_point_within_0_5_witness :
  (0.0 <=? Enrollment.grade_point (Sample.enrollment 1 7 1 (Some 96%float)))%float = true /\
  (Enrollment.grade_point (Sample.enrollment 1 7 1 (Some 96%float)) <=? 5.0)%float = true.
Proof.
  destruct (grade_point_within_0_5 (Sample.enrollment 1 7 1 (Some 96%float)) 96%float
              eq_refl eq_refl) as (A & B & _).
  split; assumption.
Defined.

(** ** Invariants of the tables *)

Lemma next_id_fresh (ids : list Z) : forall x, In x ids -> x < Session.next_id ids.
Proof.
  unfold Session.next_id.
  induction ids as [|a l IH]; cbn [fold_right In]; intros x H; [contradiction|].
  destruct H as [->|H]; [lia|]. specialize (IH x H). lia.
Qed.

Lemma NoDup_snoc_fresh (ids : list Z) :
  NoDup ids -> NoDup (ids ++ [Session.next_id ids]).
Proof.
  intros H. apply NoDup_app; [exact H|constructor; [intros []|constructor]|].
  intros x Hx [E|[]]. pose proof (next_id_fresh ids x Hx). lia.
Qed.

Lemma NoDup_map_filter {A : Type} (f : A -> Z) (p : A -> bool) (l : list A) :
  NoDup (map f l) -> NoDup (map f (filter p l)).
Proof.
  induction l as [|a l IH]; simpl; intros H; [constructor|].
  inversion H as [|? ? Hn Hd]; subst. destruct (p a); simpl; [|apply IH, Hd].
  constructor; [|apply IH, Hd].
  intros Hin. apply Hn. apply in_map_iff in Hin. destruct Hin as (x & E & Hx).
  apply in_map_iff. exists x. split; [exact E|]. apply filter_In in Hx. apply Hx.
Qed.

Lemma filter_filter_length {A : Type} (p q : A -> bool) (l : list A) :
  (List.length (filter p (filter q l)) <= List.length (filter p l))%nat.
Proof.
  induction l as [|a l IH]; simpl; [lia|].
  destruct (q a); simpl; destruct (p a); simpl; lia.
Qed.

Lemma add_enrollment_well_formed (db : DB) (uid cid : Z) :
  Session.first (Session.enrollments_by db uid cid) = None ->
  well_formed db -> well_formed (Session.add_enrollment db uid cid).
Proof.
  intros Hf [[He Hg] [Ie Ig]]. apply first_none_nil in Hf.
  split; split; simpl.
  - intros sid c. unfold Session.enrollments_by, Session.add_enrollment. simpl.
    rewrite filter_app, length_app. simpl. unfold Session.enrollment_by at 2. simpl.
    destruct ((uid =? sid) && (cid =? c)) eqn:E; simpl.
    + apply andb_true_iff in E as [E1 E2]. apply Z.eqb_eq in E1, E2. subst sid c.
      unfold Session.enrollments_by in Hf. rewrite Hf. simpl. lia.
    + specialize (He sid c). unfold Session.enrollments_by in He. lia.
  - exact Hg.
  - rewrite map_app. simpl. apply NoDup_snoc_fresh, Ie.
  - exact Ig.
Qed.

Lemma select_loop_well_formed (uid : Z) (course_ids : list (option Z)) :
  forall db count db' count',
    Student.select_loop uid course_ids db count = Some (db', count') ->
    well_formed db -> well_formed db'.
Proof.
  induction course_ids as [|[c|] rest IH]; simpl; intros db n db' n' H W.
  - injection H as <- _. exact W.
  - destruct (negb (Session.int64 c)); [discriminate|].
    destruct (Session.first (Session.enrollments_by db uid c)) eqn:E.
    + eapply IH; eassumption.
    + eapply IH; [exact H|]. apply add_enrollment_well_formed; assumption.
  - discriminate.
Qed.

Lemma set_enrollment_score_well_formed (db : DB) (en : Enrollment.t) (x : float) :
  well_formed db -> well_formed (Session.set_enrollment_score db en x).
Proof.
  intros [[He Hg] [Ie Ig]]. split; split; simpl; try assumption.
  - intros sid c. rewrite enrollments_by_set_score, length_map. apply He.
  - rewrite map_map.
    rewrite (map_ext _ Enrollment.id); [exact Ie|].
    intros e. destruct (Enrollment.id e =? Enrollment.id en); reflexivity.
Qed.

Lemma set_grade_score_well_formed (db : DB) (g : Grade.t) (x : float) :
  well_formed db -> well_formed (Session.set_grade_score db g x).
Proof.
  intros [[He Hg] [Ie Ig]]. split; split; simpl; try assumption.
  - intros sid c. rewrite grades_by_set_score, length_map. apply Hg.
  - rewrite map_map.
    rewrite (map_ext _ Grade.id); [exact Ig|].
    intros r. destruct (Grade.id r =? Grade.id g); reflexivity.
Qed.

Lemma add_grade_well_formed (db : DB) (sid cid : Z) (x : float) :
  Session.first (Session.grades_by db sid cid) = None ->
  well_formed db -> well_formed (Session.add_grade db sid cid x).
Proof.
  intros Hf [[He Hg] [Ie Ig]]. apply first_none_nil in Hf.
  split; split; simpl; try assumption.
  - intros s c. unfold Session.grades_by, Session.add_grade. simpl.
    rewrite filter_app, length_app. simpl. unfold Session.grade_by at 2. simpl.
    destruct ((sid =? s) && (cid =? c)) eqn:E; simpl.
    + apply andb_true_iff in E as [E1 E2]. apply Z.eqb_eq in E1, E2. subst s c.
      unfold Session.grades_by in Hf. rewrite Hf. simpl. lia.
    + specialize (Hg s c). unfold Session.grades_by in Hg. lia.
  - rewrite map_app. simpl. apply NoDup_snoc_fresh, Ig.
Qed.

Lemma delete_enrollment_well_formed (db : DB) (en : Enrollment.t) :
  well_formed db -> well_formed (Session.delete_enrollment db en).
Proof.
  intros [[He Hg] [Ie Ig]]. split; split; simpl; try assumption.
  - intros sid c. unfold Session.enrollments_by. simpl.
    eapply Nat.le_trans; [apply filter_filter_length|apply He].
  - apply NoDup_map_filter, Ie.
Qed.

Lemma session_delete_course_well_formed (db db' : DB) (c : Course.t) :
  Session.delete_course db c = Some db' -> well_formed db -> well_formed db'.
Proof.
  unfold Session.delete_course. destruct (existsb _ (grades db)); [discriminate|].
  intros H [[He Hg] [Ie Ig]]. injection H as <-.
  split; split; simpl; try assumption.
  - intros sid cid. unfold Session.enrollments_by. simpl.
    eapply Nat.le_trans; [apply filter_filter_length|apply He].
  - apply NoDup_map_filter, Ie.
Qed.

(** Every request keeps the tables well formed. *)
Lemma handle_well_formed (db : DB) (r : request) :
  well_formed db -> well_formed (handle db r).
Proof.
  intros W. destruct r as [u ids|u cid|u form|u nm cr|u cid|u cid]; simpl.
  - unfold Student.select_course.
    destruct (negb (User.role u =? 0)); [exact W|].
    destruct ids as [|i ids]; [exact W|].
    destruct (Student.select_loop (User.id u) (i :: ids) db 0) as [[db' n]|] eqn:E;
      [|exact W].
    destruct (0 <? n)%nat; [|exact W].
    simpl. eapply select_loop_well_formed; eassumption.
  - unfold Student.drop_course.
    destruct (negb (User.role u =? 0)); [exact W|].
    destruct (Session.first _); [|exact W].
    simpl. apply delete_enrollment_well_formed, W.
  - unfold Teacher.submit_score.
    destruct (negb (User.role u =? 1)); [exact W|].
    destruct (Teacher.form_student_id form) as [|[sid|]],
             (Teacher.form_course_id form) as [|[cid|]],
             (Teacher.form_score form) as [|[x|]]; try exact W;
      destruct ((x <? 0)%float || (100 <? x)%float); try exact W.
    destruct (Session.first (Session.enrollments_by db sid cid)) as [en|]; [|exact W].
    simpl.
    pose proof (set_enrollment_score_well_formed db en x W) as W1.
    destruct (Session.first
                (Session.grades_by (Session.set_enrollment_score db en x) sid cid))
      eqn:E.
    + apply set_grade_score_well_formed, W1.
    + apply add_grade_well_formed; assumption.
  - unfold Teacher.course_manage, Session.add_course.
    destruct (negb (User.role u =? 1)); [exact W|].
    destruct cr as [|[x|]]; try exact W;
      destruct (String.eqb nm EmptyString); try exact W.
    destruct (x <? 0)%float; [exact W|].
    destruct (Session.sql_real x); exact W.
  - unfold Teacher.delete_course.
    destruct (negb (User.role u =? 1)); [exact W|].
    destruct cid as [|[cid|]]; try exact W.
    destruct (Session.course_get db cid) as [c|]; [|exact W].
    destruct (negb _); [exact W|].
    destruct (Session.delete_course db c) eqn:E; [|exact W].
    simpl. eapply session_delete_course_well_formed; eassumption.
  - unfold Admin.delete_course.
    destruct (negb (User.role u =? 2)); [exact W|].
    destruct (Session.course_get db cid) as [c|]; [|exact W].
    destruct (Session.delete_course db c) eqn:E; [|exact W].
    simpl. eapply session_delete_course_well_formed; eassumption.
Qed.

(** Every database reached from the empty one has at most one enrollment
    and one grade per (student, course) pair, and distinct keys. *)
Lemma reachable_well_formed (rs : list request) : well_formed (run Sample.empty rs).
Proof.
  unfold run.
  assert (W : well_formed Sample.empty).
  { split; split; simpl; try constructor; intros; simpl; lia. }
  revert W. generalize Sample.empty.
  induction rs as [|r rs IH]; intros db W; simpl; [exact W|].
  apply IH, handle_well_formed, W.
Qed.

(** The sample database with a score is reached from the empty one: the
    teacher publishes a course, the student selects it, the teacher submits
    80. *)
Lemma db_scored_reachable :
  run Sample.empty
    [ CourseManage Sample.teacher "c" (Text (Some 3%float));
      SelectCourse Sample.student [Some 1];
      SubmitScore Sample.teacher (Sample.form 7 1 (Text (Some 80%float))) ] =
  Sample.db_scored.
Proof. reflexivity. Qed.

(** ** Dropping a course *)

Lemma NoDup_map_eq {A : Type} (f : A -> Z) (l : list A) (x y : A) :
  NoDup (map f l) -> In x l -> In y l -> f x = f y -> x = y.
Proof.
  induction l as [|a l IH]; simpl; intros H Hx Hy E; [contradiction|].
  inversion H as [|? ? Hn Hd]; subst.
  destruct Hx as [->|Hx], Hy as [->|Hy]; try reflexivity.
  - contradiction Hn. rewrite E. apply in_map, Hy.
  - contradiction Hn. rewrite <- E. apply in_map, Hx.
  - apply IH; assumption.
Qed.

Lemma filter_swap {A : Type} (p q : A -> bool) (l : list A) :
  filter p (filter q l) = filter q (filter p l).
Proof.
  induction l as [|a l IH]; simpl; [reflexivity|].
  destruct (q a) eqn:Q, (p a) eqn:P; simpl; rewrite ?Q, ?P, IH; reflexivity.
Qed.

Lemma first_In {A : Type} (p : A -> bool) (l : list A) (x : A) :
  Session.first (filter p l) = Some x -> In x l /\ p x = true.
Proof.
  intros H. apply first_some_cons in H. destruct H as [rest H].
  apply filter_In. rewrite H. left. reflexivity.
Qed.







(** ** Score submission and the rest of the database *)

Lemma map_same_on {A : Type} (f : A -> A) (l : list A) :
  (forall x, In x l -> f x = x) -> map f l = l.
Proof.
  intros H. induction l as [|a l IH]; simpl; [reflexivity|].
  rewrite H by (left; reflexivity). rewrite IH; [reflexivity|].
  intros x Hx. apply H. right. exact Hx.
Qed.

(** X3: a submission answered 200 names a pair by two integers and changes
    nothing but that pair: the courses and the number of enrollments are as
    before, the pair has exactly one enrollment and one grade, and the
    enrollments and grades of every other pair are the rows they were. *)
Theorem submit_score_changes_one_pair (current_user : User.t)
  (form : Teacher.score_form) (db : DB) :
  well_formed db ->
  Teacher.code (fst (Teacher.submit_score current_user form db)) = 200 ->
  exists sid cid,
    let db' := snd (Teacher.submit_score current_user form db) in
    Teacher.form_student_id form = Text (Some sid) /\
    Teacher.form_course_id form = Text (Some cid) /\
    courses db' = courses db /\
    List.length (enrollments db') = List.length (enrollments db) /\
    List.length (Session.enrollments_by db' sid cid) = 1%nat /\
    List.length (Session.grades_by db' sid cid) = 1%nat /\
    (forall s c, (s, c) <> (sid, cid) ->
       Session.enrollments_by db' s c = Session.enrollments_by db s c /\
       Session.grades_by db' s c = Session.grades_by db s c).
Proof.
  intros [[He Hg] [Ie Ig]]. unfold Teacher.submit_score.
  destruct (negb (User.role current_user =? 1)); [discriminate|].
  destruct (Teacher.form_student_id form) as [|[sid|]],
           (Teacher.form_course_id form) as [|[cid|]],
           (Teacher.form_score form) as [|[x|]]; simpl; try discriminate;
    destruct ((x <? 0)%float || (100 <? x)%float); simpl; try discriminate.
  destruct (Session.first (Session.enrollments_by db sid cid)) as [en|] eqn:Ef;
    simpl; [|discriminate].
  intros _. exists sid, cid.
  destruct (first_In _ _ _ Ef) as [Hen Pen].
  destruct (first_some_cons _ _ Ef) as [erest Ee].
  pose proof (He sid cid) as Le. rewrite Ee in Le. apply length_le_1 in Le. subst erest.
  set (db1 := Session.set_enrollment_score db en x).
  assert (E1 : forall s c, (s, c) <> (sid, cid) ->
                 Session.enrollments_by db1 s c = Session.enrollments_by db s c).
  { intros s c Hne. unfold db1. rewrite enrollments_by_set_score.
    apply map_same_on. intros e Hin.
    destruct (Enrollment.id e =? Enrollment.id en) eqn:E; [|reflexivity].
    apply Z.eqb_eq in E. unfold Session.enrollments_by in Hin.
    apply filter_In in Hin. destruct Hin as [Hin Pe].
    assert (e = en) by (apply (NoDup_map_eq Enrollment.id (enrollments db)); assumption).
    subst e. unfold Session.enrollment_by in Pe, Pen.
    apply andb_true_iff in Pe as [P1 P2]. apply andb_true_iff in Pen as [P3 P4].
    apply Z.eqb_eq in P1, P2, P3, P4. contradiction Hne. congruence. }
  assert (L1 : List.length (Session.enrollments_by db1 sid cid) = 1%nat).
  { unfold db1. rewrite enrollments_by_set_score, length_map, Ee. reflexivity. }
  assert (G1 : forall s c, Session.grades_by db1 s c = Session.grades_by db s c)
    by reflexivity.
  rewrite G1.
  destruct (Session.first (Session.grades_by db sid cid)) as [g|] eqn:Eg; cbv zeta.
  - destruct (first_In _ _ _ Eg) as [Hgin Pg].
    destruct (first_some_cons _ _ Eg) as [grest Eg'].
    pose proof (Hg sid cid) as Lg. rewrite Eg' in Lg. apply length_le_1 in Lg. subst grest.
    repeat split; try reflexivity.
    + simpl. apply length_map.
    + exact L1.
    + rewrite grades_by_set_score, length_map, G1, Eg'. reflexivity.
    + apply E1. assumption.
    + rewrite grades_by_set_score, G1. apply map_same_on. intros r Hin.
      destruct (Grade.id r =? Grade.id g) eqn:E; [|reflexivity].
      apply Z.eqb_eq in E. unfold Session.grades_by in Hin.
      apply filter_In in Hin. destruct Hin as [Hin Pr].
      assert (r = g) by (apply (NoDup_map_eq Grade.id (grades db)); assumption).
      subst r. unfold Session.grade_by in Pr, Pg.
      apply andb_true_iff in Pr as [P1 P2]. apply andb_true_iff in Pg as [P3 P4].
      apply Z.eqb_eq in P1, P2, P3, P4. contradiction H. congruence.
  - apply first_none_nil in Eg.
    repeat split; try reflexivity.
    + simpl. apply length_map.
    + exact L1.
    + rewrite grades_by_add, G1, Eg. reflexivity.
    + apply E1. assumption.
    + unfold Session.grades_by, Session.add_grade. simpl. rewrite filter_app. simpl.
      unfold Session.grade_by at 2. simpl.
      destruct ((sid =? s) && (cid =? c)) eqn:E; [|apply app_nil_r].
      apply andb_true_iff in E as [P1 P2]. apply Z.eqb_eq in P1, P2.
      contradiction H. congruence.
Qed.

Lemma submit_score_changes_one_pair_witness :
  exists sid cid,
    Teacher.form_student_id (Sample.form 7 1 (Text (Some 95%float))) = Text (Some sid) /\
    Teacher.form_course_id (Sample.form 7 1 (Text (Some 95%float))) = Text (Some cid) /\
    List.length
      (Session.grades_by
         (snd (Teacher.submit_score Sample.teacher
                 (Sample.form 7 1 (Text (Some 95%float))) Sample.db_scored)) sid cid) = 1%nat.
Proof.
  destruct (submit_score_changes_one_pair Sample.teacher
              (Sample.form 7 1 (Text (Some 95%float))) Sample.db_scored
              (reachable_well_formed
                 [ CourseManage Sample.teacher "c" (Text (Some 3%float));
                   SelectCourse Sample.student [Some 1];
                   SubmitScore Sample.teacher (Sample.form 7 1 (Text (Some 80%float))) ])
              eq_refl) as (sid & cid & H1 & H2 & _ & _ & _ & H3 & _).
  exists sid, cid. repeat split; assumption.
Defined.

(** X4: [submit_score] never reads the courses: its answer and the
    enrollments and grades it leaves are the same whatever the course table
    holds, so neither the existence of the course nor who teaches it plays
    a part, and the course table is left as it was. *)
Theorem submit_score_ignores_courses (current_user : User.t)
  (form : Teacher.score_form) (db1 db2 : DB) :
  enrollments db1 = enrollments db2 ->
  grades db1 = grades db2 ->
  fst (Teacher.submit_score current_user form db1) =
    fst (Teacher.submit_score current_user form db2) /\
  enrollments (snd (Teacher.submit_score current_user form db1)) =
    enrollments (snd (Teacher.submit_score current_user form db2)) /\
  grades (snd (Teacher.submit_score current_user form db1)) =
    grades (snd (Teacher.submit_score current_user form db2)) /\
  courses (snd (Teacher.submit_score current_user form db1)) = courses db1.
Proof.
  destruct db1 as [c1 e1 g1], db2 as [c2 e2 g2]. simpl. intros <- <-.
  unfold Teacher.submit_score.
  destruct (negb (User.role current_user =? 1)); [repeat split|].
  destruct (Teacher.form_student_id form) as [|[sid|]],
           (Teacher.form_course_id form) as [|[cid|]],
           (Teacher.form_score form) as [|[x|]]; simpl; try (repeat split; fail);
    destruct ((x <? 0)%float || (100 <? x)%float); simpl; try (repeat split; fail).
  unfold Session.enrollments_by. simpl.
  destruct (Session.first (filter (Session.enrollment_by sid cid) e1)) as [en|];
    simpl; [|repeat split].
  unfold Session.grades_by. simpl.
  destruct (Session.first (filter (Session.grade_by sid cid) g1)); simpl; repeat split.
Qed.

Lemma submit_score_ignores_courses_witness :
  fst (Teacher.submit_score Sample.teacher (Sample.form 7 1 (Text (Some 80%float)))
         Sample.db_enrolled) =
  fst (Teacher.submit_score Sample.teacher (Sample.form 7 1 (Text (Some 80%float)))
         {| courses := []; enrollments := enrollments Sample.db_enrolled;
            grades := grades Sample.db_enrolled |}).
Proof.
  apply (submit_score_ignores_courses Sample.teacher
           (Sample.form 7 1 (Text (Some 80%float))) Sample.db_enrolled
           {| courses := []; enrollments := enrollments Sample.db_enrolled;
              grades := grades Sample.db_enrolled |}); reflexivity.
Defined.


(** ** Who can delete a course, and when *)

Lemma session_delete_course_some (db : DB) (c : Course.t) :
  (exists db', Session.delete_course db c = Some db') <->
  (forall g, In g (grades db) -> Grade.course_id g <> Course.id c).
Proof.
  unfold Session.delete_course.
  destruct (existsb (fun g => Grade.course_id g =? Course.id c) (grades db)) eqn:E.
  - split; [intros [db' H]; discriminate|]. intros H.
    apply existsb_exists in E. destruct E as (g & Hg & E). apply Z.eqb_eq in E.
    contradiction (H g Hg).
  - split; [|intros _; eexists; reflexivity]. intros _ g Hg Eq.
    assert (existsb (fun g => Grade.course_id g =? Course.id c) (grades db) = true).
    { apply existsb_exists. exists g. split; [exact Hg|]. apply Z.eqb_eq, Eq. }
    congruence.
Qed.

(** X6: the teacher's [delete_course] answers 200 exactly when the caller is
    a teacher, the id names a course, the caller is the teacher of that
    course and no grade refers to it; every other answer leaves the database
    as it was. *)
Theorem teacher_delete_course_exact (current_user : User.t) (course_id : field Z)
  (db : DB) :
  (Teacher.code (fst (Teacher.delete_course current_user course_id db)) = 200 <->
   User.role current_user = 1 /\
   exists cid course,
     course_id = Text (Some cid) /\
     Session.course_get db cid = Some course /\
     Course.teacher_id course = Some (User.id current_user) /\
     (forall g, In g (grades db) -> Grade.course_id g <> cid)) /\
  (Teacher.code (fst (Teacher.delete_course current_user course_id db)) <> 200 ->
   snd (Teacher.delete_course current_user course_id db) = db).
Proof.
  unfold Teacher.delete_course.
  destruct (User.role current_user =? 1) eqn:Er; simpl.
  2:{ apply Z.eqb_neq in Er. split; [|reflexivity].
      split; [discriminate|]. intros [H _]. contradiction. }
  apply Z.eqb_eq in Er.
  destruct course_id as [|[cid|]]; simpl;
    try (split; [|reflexivity]; split; [discriminate|];
         intros (_ & c & co & H & _); discriminate).
  destruct (Session.course_get db cid) as [course|] eqn:Ec; simpl.
  2:{ split; [|reflexivity]. split; [discriminate|].
      intros (_ & c & co & H & H2 & _). injection H as <-. congruence. }
  assert (Hid : Course.id course = cid).
  { unfold Session.course_get in Ec. apply find_some in Ec. apply Z.eqb_eq, Ec. }
  destruct (Course.teacher_id course) as [t|] eqn:Et; simpl.
  2:{ split; [|reflexivity]. split; [discriminate|].
      intros (_ & c & co & H & H2 & H3 & _). injection H as <-.
      rewrite Ec in H2. injection H2 as <-. congruence. }
  destruct (t =? User.id current_user) eqn:Eo; simpl.
  2:{ apply Z.eqb_neq in Eo. split; [|reflexivity]. split; [discriminate|].
      intros (_ & c & co & H & H2 & H3 & _). injection H as <-.
      rewrite Ec in H2. injection H2 as <-. congruence. }
  apply Z.eqb_eq in Eo. subst t.
  pose proof (session_delete_course_some db course) as S. rewrite Hid in S.
  destruct (Session.delete_course db course) as [db'|]; simpl.
  - split; [|intros H; contradiction H; reflexivity].
    split; [|reflexivity]. intros _. split; [exact Er|].
    exists cid, course. repeat split; try assumption.
    apply S. eexists. reflexivity.
  - split; [|reflexivity]. split; [discriminate|].
    intros (_ & c & co & H & H2 & _ & H4). injection H as <-.
    apply S in H4. destruct H4 as [db' H4]. discriminate.
Qed.

(** X7: the administrator's [delete_course] answers 200 exactly when the
    caller is an administrator, the course exists and no grade refers to it;
    then the course and its enrollments are gone and no row refers to the
    course, and every other answer leaves the database as it was. *)
Theorem admin_delete_course_exact (current_user : User.t) (course_id : Z) (db : DB) :
  (fst (Admin.delete_course current_user course_id db) = 200 <->
   User.role current_user = 2 /\
   Session.course_get db course_id <> None /\
   (forall g, In g (grades db) -> Grade.course_id g <> course_id)) /\
  (fst (Admin.delete_course current_user course_id db) = 200 ->
   let db' := snd (Admin.delete_course current_user course_id db) in
   Session.course_get db' course_id = None /\
   (forall e, In e (enrollments db') -> Enrollment.course_id e <> course_id) /\
   (forall g, In g (grades db') -> Grade.course_id g <> course_id)) /\
  (fst (Admin.delete_course current_user course_id db) <> 200 ->
   snd (Admin.delete_course current_user course_id db) = db).
Proof.
  unfold Admin.delete_course.
  destruct (User.role current_user =? 2) eqn:Er; simpl.
  2:{ apply Z.eqb_neq in Er. repeat split; try discriminate.
      intros [H _]. contradiction. }
  apply Z.eqb_eq in Er.
  destruct (Session.course_get db course_id) as [course|] eqn:Ec; simpl.
  2:{ repeat split; try discriminate. intros (_ & H & _). contradiction. }
  assert (Hid : Course.id course = course_id).
  { unfold Session.course_get in Ec. apply find_some in Ec. apply Z.eqb_eq, Ec. }
  pose proof (session_delete_course_some db course) as S. rewrite Hid in S.
  destruct (Session.delete_course db course) as [db'|] eqn:Ed; simpl.
  - destruct (session_delete_course_clean db db' course Ed) as (H1 & H2 & H3 & _).
    rewrite Hid in *.
    repeat split; try assumption; try discriminate.
    + apply S. eexists. reflexivity.
    + intros H. contradiction H. reflexivity.
  - repeat split; try discriminate.
    intros (_ & _ & H). apply S in H. destruct H as [db' H]. discriminate.
Qed.

(** ** What the teacher's course form accepts *)

(** X8: the POST branch of [course_manage] publishes a course exactly when the
    caller is a teacher, the name is not empty and the credit reads as a
    float that is a number and not below 0; the course then appended carries
    that name, that credit, a zero of either sign being kept as 0.0, and the
    caller as its teacher, and in every other case the database is left as
    it was. *)
Theorem course_manage_publishes_iff (current_user : User.t) (course_name : string)
  (course_credit : field float) (db : DB) :
  (fst (Teacher.course_manage current_user course_name course_credit db) =
     Teacher.Published <->
   User.role current_user = 1 /\ course_name <> EmptyString /\
   exists credit, course_credit = Text (Some credit) /\
                  PrimFloat.is_nan credit = false /\ (credit <? 0)%float = false) /\
  (fst (Teacher.course_manage current_user course_name course_credit db) =
     Teacher.Published ->
   exists c credit,
     course_credit = Text (Some credit) /\
     snd (Teacher.course_manage current_user course_name course_credit db) =
       {| courses := courses db ++ [c];
          enrollments := enrollments db; grades := grades db |} /\
     Course.name c = course_name /\
     Course.credit c = (if (credit =? 0)%float then 0%float else credit) /\
     Course.teacher_id c = Some (User.id current_user) /\
     Session.course_get db (Course.id c) = None) /\
  (fst (Teacher.course_manage current_user course_name course_credit db) <>
     Teacher.Published ->
   snd (Teacher.course_manage current_user course_name course_credit db) = db).
Proof.
  unfold Teacher.course_manage, Session.add_course.
  destruct (User.role current_user =? 1) eqn:Er; simpl.
  2:{ apply Z.eqb_neq in Er. repeat split; try discriminate.
      intros [H _]. contradiction. }
  apply Z.eqb_eq in Er.
  destruct course_credit as [|[x|]]; simpl;
    try (repeat split; try discriminate; intros (_ & _ & c & H & _); discriminate);
    destruct (String.eqb_spec course_name EmptyString) as [En|En]; simpl;
    try (repeat split; try discriminate; intros (_ & H & _); contradiction);
    try (repeat split; try discriminate; intros (_ & _ & c & H & _); discriminate).
  destruct (x <? 0)%float eqn:Eneg; simpl.
  { repeat split; try discriminate.
    intros (_ & _ & c & H & _ & H2). injection H as <-. congruence. }
  unfold Session.sql_real.
  destruct (PrimFloat.is_nan x) eqn:Enan; simpl.
  { repeat split; try discriminate.
    intros (_ & _ & c & H & H2 & _). injection H as <-. congruence. }
  assert (Fresh : Session.course_get db (Session.next_id (map Course.id (courses db))) =
                  None).
  { unfold Session.course_get.
    destruct (find _ (courses db)) as [c|] eqn:F; [|reflexivity].
    apply find_some in F. destruct F as [F1 F2]. apply Z.eqb_eq in F2.
    pose proof (next_id_fresh (map Course.id (courses db)) _
                  (in_map Course.id _ _ F1)). lia. }
  destruct (x =? 0)%float eqn:Ez; simpl.
  - split; [|split].
    + split; [|reflexivity]. intros _. repeat split; try assumption.
      exists x. repeat split; assumption.
    + intros _. eexists. exists x. split; [reflexivity|]. split; [reflexivity|].
      cbn [Course.name Course.credit Course.teacher_id Course.id].
      rewrite Ez. repeat split. exact Fresh.
    + intros H. contradiction H. reflexivity.
  - split; [|split].
    + split; [|reflexivity]. intros _. repeat split; try assumption.
      exists x. repeat split; assumption.
    + intros _. eexists. exists x. split; [reflexivity|]. split; [reflexivity|].
      cbn [Course.name Course.credit Course.teacher_id Course.id].
      rewrite Ez. repeat split. exact Fresh.
    + intros H. contradiction H. reflexivity.
Qed.

(** ** When the student page fails *)



(** ** Allowed file names *)

Lemma is_dot_lower_char (c : Ascii.ascii) : App.is_dot (App.lower_char c) = App.is_dot c.
Proof. destruct c as [[] [] [] [] [] [] [] []]; reflexivity. Qed.

Lemma lower_char_idem (c : Ascii.ascii) :
  App.lower_char (App.lower_char c) = App.lower_char c.
Proof. destruct c as [[] [] [] [] [] [] [] []]; reflexivity. Qed.

Lemma has_dot_lower (s : string) : App.has_dot (App.lower s) = App.has_dot s.
Proof.
  induction s as [|c s IH]; simpl; [reflexivity|].
  rewrite is_dot_lower_char, IH. reflexivity.
Qed.

Lemma lower_idem (s : string) : App.lower (App.lower s) = App.lower s.
Proof.
  induction s as [|c s IH]; simpl; [reflexivity|].
  rewrite lower_char_idem, IH. reflexivity.
Qed.

Lemma rsplit_dot_none (s : string) :
  App.has_dot s = false -> App.rsplit_dot s = None.
Proof.
  induction s as [|c s IH]; simpl; [reflexivity|].
  intros H. apply orb_false_iff in H as [H1 H2]. rewrite (IH H2), H1. reflexivity.
Qed.

Lemma rsplit_dot_last (stem ext : string) :
  App.has_dot ext = false ->
  App.rsplit_dot (stem ++ "." ++ ext)%string = Some ext /\
  App.has_dot (stem ++ "." ++ ext)%string = true.
Proof.
  intros H. induction stem as [|c stem [IH1 IH2]]; simpl in *.
  - rewrite (rsplit_dot_none ext H). split; reflexivity.
  - rewrite IH1, IH2. split; [reflexivity|apply orb_true_r].
Qed.

(** X10: a file name is allowed exactly by the text after its last dot, read
    without regard to letter case: a name ending in a dot and a text without
    dots is allowed when that text, lowered, is one of the allowed
    extensions, lowering the extension changes nothing, and a name without a
    dot is never allowed. *)
Theorem allowed_file_by_last_extension (stem ext : string) :
  App.has_dot ext = false ->
  App.allowed_file (stem ++ "." ++ ext)%string =
    existsb (String.eqb (App.lower ext)) App.ALLOWED_EXTENSIONS /\
  App.allowed_file (stem ++ "." ++ App.lower ext)%string =
    App.allowed_file (stem ++ "." ++ ext)%string /\
  (forall filename, App.has_dot filename = false -> App.allowed_file filename = false).
Proof.
  intros H.
  assert (A : forall e, App.has_dot e = false ->
                App.allowed_file (stem ++ "." ++ e)%string =
                existsb (String.eqb (App.lower e)) App.ALLOWED_EXTENSIONS).
  { intros e He. unfold App.allowed_file.
    destruct (rsplit_dot_last stem e He) as [-> ->]. reflexivity. }
  split; [apply A, H|]. split.
  - rewrite (A ext H), (A (App.lower ext)) by (rewrite has_dot_lower; exact H).
    rewrite lower_idem. reflexivity.
  - intros f Hf. unfold App.allowed_file. rewrite Hf. reflexivity.
Qed.

Lemma allowed_file_by_last_extension_witness :
  App.allowed_file ("report.final" ++ "." ++ "PDF")%string =
    existsb (String.eqb (App.lower "PDF")) App.ALLOWED_EXTENSIONS.
Proof.
  apply (allowed_file_by_last_extension "report.final" "PDF"). reflexivity.
Defined.

(** ** The teacher's score sheet *)

(** X11: [score_manage] lists a row exactly for each enrollment of a course
    the caller teaches whose student exists, with the course, the student,
    the enrollment and the shown score of that enrollment; a score of zero
    is shown as not marked, like a missing one. *)
Theorem score_manage_rows (users : list User.t) (current_user : User.t) (db : DB)
  (rows : list Teacher.score_row) :
  Teacher.score_manage users current_user db = Some rows ->
  User.role current_user = 1 /\
  (forall row, In row rows <->
     exists course en student,
       In course (courses db) /\
       Course.teacher_id course = Some (User.id current_user) /\
       In en (enrollments db) /\
       Enrollment.course_id en = Course.id course /\
       find (fun u => User.id u =? Enrollment.student_id en) users = Some student /\
       row = {| Teacher.row_course_id := Course.id course;
                Teacher.row_course_name := Course.name course;
                Teacher.row_student_id := User.id student;
                Teacher.row_score := Teacher.shown (Enrollment.score en);
                Teacher.row_score_id := Enrollment.id en |}) /\
  (forall score, Teacher.shown score = Teacher.NotMarked <->
     score = None \/ exists x, score = Some x /\ (x =? 0)%float = true).
Proof.
  unfold Teacher.score_manage.
  destruct (User.role current_user =? 1) eqn:Er; simpl; [|discriminate].
  apply Z.eqb_eq in Er. intros H. injection H as <-.
  split; [exact Er|]. split.
  - intros row. rewrite in_flat_map. split.
    + intros (course & Hc & Hrow). apply filter_In in Hc. destruct Hc as [Hc Ht].
      apply in_flat_map in Hrow. destruct Hrow as (en & He & Hrow).
      apply filter_In in He. destruct He as [He Hec]. apply Z.eqb_eq in Hec.
      destruct (find _ users) as [student|] eqn:F; [|contradiction].
      destruct Hrow as [<-|[]].
      exists course, en, student. repeat split; try assumption.
      destruct (Course.teacher_id course) as [t|]; [|discriminate].
      apply Z.eqb_eq in Ht. subst t. reflexivity.
    + intros (course & en & student & Hc & Ht & He & Hec & F & ->).
      exists course. split.
      * apply filter_In. split; [exact Hc|]. rewrite Ht. apply Z.eqb_refl.
      * apply in_flat_map. exists en. split.
        -- apply filter_In. split; [exact He|]. apply Z.eqb_eq, Hec.
        -- rewrite F. left. reflexivity.
  - intros score. unfold Teacher.shown. destruct score as [x|].
    + destruct (x =? 0)%float eqn:Ex; split; intros H; try reflexivity; try discriminate.
      * right. exists x. split; [reflexivity|exact Ex].
      * destruct H as [H|(y & H & H')]; [discriminate|]. injection H as <-. congruence.
    + split; [intros _; left|]; reflexivity.
Qed.

Lemma score_manage_rows_witness :
  In {| Teacher.row_course_id := 1; Teacher.row_course_name := "c";
        Teacher.row_student_id := 7;
        Teacher.row_score := Teacher.Shown 80%float;
        Teacher.row_score_id := 1 |}
     [ {| Teacher.row_course_id := 1; Teacher.row_course_name := "c";
          Teacher.row_student_id := 7;
          Teacher.row_score := Teacher.Shown 80%float;
          Teacher.row_score_id := 1 |} ] <->
  exists course en student,
    In course (courses Sample.db_scored) /\
    Course.teacher_id course = Some (User.id Sample.teacher) /\
    In en (enrollments Sample.db_scored) /\
    Enrollment.course_id en = Course.id course /\
    find (fun u => User.id u =? Enrollment.student_id en) [Sample.student] = Some student /\
    {| Teacher.row_course_id := 1; Teacher.row_course_name := "c";
       Teacher.row_student_id := 7;
       Teacher.row_score := Teacher.Shown 80%float;
       Teacher.row_score_id := 1 |} =
    {| Teacher.row_course_id := Course.id course;
       Teacher.row_course_name := Course.name course;
       Teacher.row_student_id := User.id student;
       Teacher.row_score := Teacher.shown (Enrollment.score en);
       Teacher.row_score_id := Enrollment.id en |}.
Proof.
  apply (score_manage_rows [Sample.student] Sample.teacher Sample.db_scored). reflexivity.
Defined.

(** ** The administrator's course handlers *)

Lemma half_leb_not_zero (x : float) :
  (0.5 <=? x)%float = true -> (x =? 0)%float = false.
Proof.
  rewrite FloatAxioms.leb_spec, FloatAxioms.eqb_spec.
  change (Prim2SF 0.5) with (S754_finite false 4503599627370496 (-53)).
  change (Prim2SF 0) with (S754_zero false).
  unfold SFleb, SFeqb.
  destruct (Prim2SF x) as [s|s| |s m e]; cbn [SFcompare]; intros H;
    try discriminate; try reflexivity; destruct s; try discriminate; reflexivity.
Qed.

(** A credit in the range is stored as it is. *)
Lemma sql_real_in_range (c : float) :
  Spec.credit_in_range c = true -> Session.sql_real c = Some c.
Proof.
  intros H. unfold Spec.credit_in_range in H. apply andb_true_iff in H as [H1 _].
  apply sql_real_number; [|apply half_leb_not_zero, H1].
  destruct (PrimFloat.is_nan c) eqn:E; [|reflexivity].
  apply is_nan_spec in E. rewrite FloatAxioms.leb_spec, E in H1. discriminate.
Qed.

Lemma credit_check_in_range (c : float) :
  PrimFloat.is_nan c = false ->
  (c <? 0.5)%float || (10 <? c)%float = false ->
  Spec.credit_in_range c = true.
Proof.
  intros Hn H. apply orb_false_iff in H as [H1 H2]. unfold Spec.credit_in_range.
  rewrite (leb_negb_ltb 0.5 c eq_refl Hn), (leb_negb_ltb c 10 Hn eq_refl), H1, H2.
  reflexivity.
Qed.

Lemma course_get_fresh (db : DB) :
  Session.course_get db (Session.next_id (map Course.id (courses db))) = None.
Proof.
  unfold Session.course_get.
  destruct (find _ (courses db)) as [c|] eqn:F; [|reflexivity].
  apply find_some in F. destruct F as [F1 F2]. apply Z.eqb_eq in F2.
  pose proof (next_id_fresh (map Course.id (courses db)) _ (in_map Course.id _ _ F1)).
  lia.
Qed.

(** X12: [add_course] refuses a student and changes nothing unless it answers
    that the course was added; it adds a course only with a credit in
    [[0.5,10]], and the course appended then carries the submitted name and
    credit, a key no course had, and the caller, teacher or administrator,
    as its teacher. *)
Theorem admin_add_course_checked (current_user : User.t) (submitted : bool)
  (name : string) (credit : field float) (db : DB) :
  (User.role current_user < 1 ->
   Admin.add_course current_user submitted name credit db = (Admin.Forbidden, db)) /\
  (fst (Admin.add_course current_user submitted name credit db) = Admin.CourseAdded ->
   1 <= User.role current_user /\ submitted = true /\
   exists data c,
     credit = Text (Some data) /\ Spec.credit_in_range data = true /\
     snd (Admin.add_course current_user submitted name credit db) =
       {| courses := courses db ++ [c];
          enrollments := enrollments db; grades := grades db |} /\
     Course.name c = name /\ Course.credit c = data /\
     Course.teacher_id c = Some (User.id current_user) /\
     Session.course_get db (Course.id c) = None) /\
  (fst (Admin.add_course current_user submitted name credit db) <> Admin.CourseAdded ->
   snd (Admin.add_course current_user submitted name credit db) = db).
Proof.
  unfold Admin.add_course.
  destruct (User.role current_user <? 1) eqn:Er.
  { repeat split; try discriminate. }
  apply Z.ltb_ge in Er.
  split; [intros H; lia|].
  destruct submitted; simpl; [|split; [discriminate|reflexivity]].
  destruct (Admin.CourseForm_validate name credit) eqn:V;
    [|split; [discriminate|reflexivity]].
  apply CourseForm_validate_range in V. destruct V as (_ & data & -> & Hr).
  unfold Session.add_course.
  rewrite (sql_real_in_range data Hr). simpl. split.
  - intros _. repeat split; [exact Er|].
    eexists data, _. repeat split; [exact Hr|]. apply course_get_fresh.
  - intros H. contradiction H. reflexivity.
Qed.

Lemma find_map_same {A : Type} (p : A -> bool) (f : A -> A) (l : list A) :
  (forall x, p (f x) = p x) -> find p (map f l) = option_map f (find p l).
Proof.
  intros H. induction l as [|a l IH]; simpl; [reflexivity|].
  rewrite H. destruct (p a); [reflexivity|exact IH].
Qed.

(** X13: [edit_course] saves only for an administrator, an existing course, a
    name that is not empty and a credit in [[0.5,10]]; the course then
    carries the new name and credit, its teacher is none for the field
    ['0'], the user of the submitted id when there is one, whatever that
    user's role, and the teacher it had otherwise; the other courses, the
    keys, the enrollments and the grades stay, and every other answer leaves
    the database as it was. *)
Theorem admin_edit_course_saved (users : list User.t) (current_user : User.t)
  (course_id : Z) (new_name : string) (new_credit : field float)
  (new_teacher_id : Admin.teacher_field) (db : DB) :
  (fst (Admin.edit_course users current_user course_id new_name new_credit
          new_teacher_id db) = Admin.CourseSaved ->
   let db' := snd (Admin.edit_course users current_user course_id new_name new_credit
                     new_teacher_id db) in
   User.role current_user = 2 /\ new_name <> EmptyString /\
   exists course credit,
     Session.course_get db course_id = Some course /\
     new_credit = Text (Some credit) /\ Spec.credit_in_range credit = true /\
     Session.course_get db' course_id =
       Some {| Course.id := course_id; Course.name := new_name;
               Course.credit := credit;
               Course.teacher_id :=
                 match new_teacher_id with
                 | Admin.TeacherText (Some t) =>
                     if existsb (fun u => User.id u =? t) users
                     then Some t else Course.teacher_id course
                 | _ => None
                 end |} /\
     (forall x, In x (courses db) -> Course.id x <> course_id -> In x (courses db')) /\
     map Course.id (courses db') = map Course.id (courses db) /\
     enrollments db' = enrollments db /\ grades db' = grades db) /\
  (fst (Admin.edit_course users current_user course_id new_name new_credit
          new_teacher_id db) <> Admin.CourseSaved ->
   snd (Admin.edit_course users current_user course_id new_name new_credit
          new_teacher_id db) = db).
Proof.
  unfold Admin.edit_course.
  destruct (User.role current_user =? 2) eqn:Er; simpl;
    [|split; [discriminate|reflexivity]].
  apply Z.eqb_eq in Er.
  destruct (Session.course_get db course_id) as [course|] eqn:Ec;
    [|split; [discriminate|reflexivity]].
  assert (Hid : Course.id course = course_id).
  { unfold Session.course_get in Ec. apply find_some in Ec. apply Z.eqb_eq, Ec. }
  destruct new_credit as [|[credit|]]; try (split; [discriminate|reflexivity]);
    destruct (String.eqb_spec new_name EmptyString) as [En|En];
    try (split; [discriminate|reflexivity]).
  destruct ((credit <? 0.5)%float || (10 <? credit)%float) eqn:Erange;
    [split; [discriminate|reflexivity]|].
  destruct (PrimFloat.is_nan credit) eqn:Enan.
  { rewrite (sql_real_nan credit Enan).
    destruct new_teacher_id as [|[t|]]; [| destruct (find _ users) |];
      split; try discriminate; reflexivity. }
  pose proof (credit_check_in_range credit Enan Erange) as Hrange.
  rewrite (sql_real_in_range credit Hrange).
  assert (T : exists tid,
             match new_teacher_id with
             | Admin.NoTeacher => Some None
             | Admin.TeacherText None => None
             | Admin.TeacherText (Some t) =>
                 match find (fun u => User.id u =? t) users with
                 | Some teacher => Some (Some (User.id teacher))
                 | None => Some (Course.teacher_id course)
                 end
             end = Some tid /\
             tid = match new_teacher_id with
                   | Admin.TeacherText (Some t) =>
                       if existsb (fun u => User.id u =? t) users
                       then Some t else Course.teacher_id course
                   | _ => None
                   end
           \/ new_teacher_id = Admin.TeacherText None).
  { destruct new_teacher_id as [|[t|]].
    - exists None. left. split; reflexivity.
    - destruct (find (fun u => User.id u =? t) users) as [teacher|] eqn:F.
      + exists (Some (User.id teacher)). left. split; [reflexivity|].
        pose proof (find_some _ _ F) as [F1 F2].
        assert (Ex : existsb (fun u => User.id u =? t) users = true)
          by (apply existsb_exists; exists teacher; split; assumption).
        rewrite Ex. apply Z.eqb_eq in F2. rewrite F2. reflexivity.
      + exists (Course.teacher_id course). left. split; [reflexivity|].
        destruct (existsb (fun u => User.id u =? t) users) eqn:Ex; [|reflexivity].
        apply existsb_exists in Ex. destruct Ex as (u & Hu & E).
        pose proof (find_none _ _ F u Hu) as N. simpl in N. congruence.
    - exists None. right. reflexivity. }
  destruct T as (tid & [[T1 T2] | T]).
  2:{ rewrite T. split; [discriminate|reflexivity]. }
  rewrite T1.
  destruct (match new_teacher_id with
            | Admin.TeacherText (Some t) => negb (Session.int64 t)
            | _ => false
            end); [split; [discriminate|reflexivity]|].
  split; [|intros H; contradiction H; reflexivity].
  intros _. cbn [fst snd]. repeat split; try assumption.
  exists course, credit. repeat split.
  - exact Hrange.
  - unfold Session.course_get. cbn [courses].
    rewrite find_map_same.
    + unfold Session.course_get in Ec. rewrite Ec. simpl.
      rewrite Z.eqb_refl, Hid, T2. reflexivity.
    + intros x. destruct (Course.id x =? Course.id course); reflexivity.
  - intros x Hx Hne. cbn [courses]. apply in_map_iff. exists x. split; [|exact Hx].
    rewrite Hid. destruct (Z.eqb_spec (Course.id x) course_id); [contradiction|reflexivity].
  - cbn [courses]. rewrite map_map. apply map_ext. intros x.
    destruct (Course.id x =? Course.id course); reflexivity.
Qed.

(** ** Invariants of the course handlers *)

Lemma well_formed_same_rows (db db' : DB) :
  enrollments db' = enrollments db -> grades db' = grades db ->
  well_formed db -> well_formed db'.
Proof.
  destruct db as [c e g], db' as [c' e' g']. simpl. intros -> -> W. exact W.
Qed.

Lemma admin_add_course_rows (current_user : User.t) (submitted : bool) (name : string)
  (credit : field float) (db : DB) :
  let db' := snd (Admin.add_course current_user submitted name credit db) in
  enrollments db' = enrollments db /\ grades db' = grades db /\
  (courses db' = courses db \/
   exists c, courses db' = courses db ++ [c] /\
             Spec.credit_in_range (Course.credit c) = true).
Proof.
  unfold Admin.add_course.
  destruct (User.role current_user <? 1); [simpl; auto|].
  destruct (submitted && Admin.CourseForm_validate name credit) eqn:V; [|simpl; auto].
  apply andb_true_iff in V as [_ V].
  apply CourseForm_validate_range in V. destruct V as (_ & data & -> & Hr).
  unfold Session.add_course. rewrite (sql_real_in_range data Hr). simpl.
  repeat split. right. eexists. split; [reflexivity|exact Hr].
Qed.

Lemma admin_edit_course_rows (users : list User.t) (current_user : User.t)
  (course_id : Z) (new_name : string) (new_credit : field float)
  (new_teacher_id : Admin.teacher_field) (db : DB) :
  let db' := snd (Admin.edit_course users current_user course_id new_name new_credit
                    new_teacher_id db) in
  enrollments db' = enrollments db /\ grades db' = grades db /\
  (credits_in_range db -> credits_in_range db').
Proof.
  unfold Admin.edit_course.
  destruct (negb (User.role current_user =? 2)); [simpl; auto|].
  destruct (Session.course_get db course_id) as [course|]; [|simpl; auto].
  destruct new_credit as [|[credit|]]; try (simpl; auto; fail);
    destruct (String.eqb new_name EmptyString); try (simpl; auto; fail).
  destruct ((credit <? 0.5)%float || (10 <? credit)%float) eqn:Erange; [simpl; auto|].
  destruct (PrimFloat.is_nan credit) eqn:Enan.
  { rewrite (sql_real_nan credit Enan).
    destruct new_teacher_id as [|[t|]]; [| destruct (find _ users) |]; simpl; auto. }
  pose proof (credit_check_in_range credit Enan Erange) as Hr.
  rewrite (sql_real_in_range credit Hr).
  assert (G : forall tid,
             credits_in_range db ->
             Forall (fun c => Spec.credit_in_range (Course.credit c) = true)
               (map (fun x => if Course.id x =? Course.id course
                              then {| Course.id := Course.id x; Course.name := new_name;
                                      Course.credit := credit;
                                      Course.teacher_id := tid |}
                              else x) (courses db))).
  { intros tid H. unfold credits_in_range in H. rewrite Forall_forall in *.
    intros y Hy. apply in_map_iff in Hy. destruct Hy as (x & <- & Hx).
    destruct (Course.id x =? Course.id course); [exact Hr|apply H, Hx]. }
  destruct new_teacher_id as [|[t|]];
    [| destruct (find _ users), (negb (Session.int64 t)) |]; simpl; auto;
    repeat split; apply G.
Qed.

Lemma handle_course_well_formed (db : DB) (r : course_request) :
  well_formed db -> well_formed (handle_course db r).
Proof.
  intros W. destruct r as [r|u s nm cr|users u cid nm cr tid]; simpl.
  - apply handle_well_formed, W.
  - destruct (admin_add_course_rows u s nm cr db) as (H1 & H2 & _).
    eapply well_formed_same_rows; eassumption.
  - destruct (admin_edit_course_rows users u cid nm cr tid db) as (H1 & H2 & _).
    eapply well_formed_same_rows; eassumption.
Qed.

(** X14: whatever requests follow one another, to the handlers of the
    students, the teachers and the administrators, a database with at most
    one enrollment and one grade per (student, course) pair and distinct keys
    stays such a database. *)
Theorem run_courses_well_formed (db : DB) (rs : list course_request) :
  well_formed db -> well_formed (run_courses db rs).
Proof.
  unfold run_courses. revert db.
  induction rs as [|r rs IH]; intros db W; simpl; [exact W|].
  apply IH, handle_course_well_formed, W.
Qed.

Lemma run_courses_well_formed_witness :
  well_formed
    (run_courses Sample.db_enrolled
       [ AdminAddCourse Sample.admin true "Logic" (Text (Some 3%float));
         Request (SelectCourse Sample.student [Some 2; Some 1]);
         Request (SubmitScore Sample.teacher (Sample.form 7 1 (Text (Some 80%float))));
         AdminEditCourse [Sample.teacher] Sample.admin 1 "Algebra" (Text (Some 4%float))
           (Admin.TeacherText (Some 3));
         Request (DropCourse Sample.student 2) ]).
Proof.
  apply run_courses_well_formed.
  split; split; simpl; try (repeat constructor; simpl; intuition lia);
    intros sid cid; unfold Session.enrollments_by, Session.grades_by; simpl;
    try destruct (Session.enrollment_by sid cid _); simpl; lia.
Defined.

Lemma select_loop_courses (uid : Z) (ids : list (option Z)) :
  forall db n db' n',
    Student.select_loop uid ids db n = Some (db', n') -> courses db' = courses db.
Proof.
  induction ids as [|[c|] rest IH]; intros db n db' n' H; simpl in H.
  - injection H as <- _. reflexivity.
  - destruct (negb (Session.int64 c)); [discriminate|].
    destruct (Session.first (Session.enrollments_by db uid c)).
    + eapply IH, H.
    + apply IH in H. rewrite H. reflexivity.
  - discriminate.
Qed.

Lemma submit_score_courses (current_user : User.t) (form : Teacher.score_form) (db : DB) :
  courses (snd (Teacher.submit_score current_user form db)) = courses db.
Proof.
  unfold Teacher.submit_score.
  destruct (negb (User.role current_user =? 1)); [reflexivity|].
  destruct (Teacher.form_student_id form) as [|[sid|]],
           (Teacher.form_course_id form) as [|[cid|]],
           (Teacher.form_score form) as [|[x|]]; try reflexivity;
    destruct ((x <? 0)%float || (100 <? x)%float); try reflexivity.
  destruct (Session.first (Session.enrollments_by db sid cid)) as [en|]; [|reflexivity].
  cbn [snd].
  destruct (Session.first
              (Session.grades_by (Session.set_enrollment_score db en x) sid cid));
    reflexivity.
Qed.

Lemma session_delete_course_credits (db db' : DB) (c : Course.t) :
  Session.delete_course db c = Some db' -> credits_in_range db -> credits_in_range db'.
Proof.
  unfold Session.delete_course. destruct (existsb _ (grades db)); [discriminate|].
  intros H. injection H as <-. unfold credits_in_range. simpl.
  rewrite !Forall_forall. intros H x Hx. apply filter_In in Hx. apply H, Hx.
Qed.

Lemma handle_course_credits (db : DB) (r : course_request) :
  teacher_form r = false -> credits_in_range db -> credits_in_range (handle_course db r).
Proof.
  intros Hf C.
  destruct r as [[u ids|u cid|u form|u nm cr|u cid|u cid]|u s nm cr|users u cid nm cr tid];
    simpl in *; try discriminate.
  - unfold Student.select_course.
    destruct (negb (User.role u =? 0)); [exact C|].
    destruct ids as [|i ids]; [exact C|].
    destruct (Student.select_loop (User.id u) (i :: ids) db 0) as [[db' n]|] eqn:E;
      [|exact C].
    destruct (0 <? n)%nat; [|exact C].
    simpl. unfold credits_in_range. rewrite (select_loop_courses _ _ _ _ _ _ E). exact C.
  - unfold Student.drop_course.
    destruct (negb (User.role u =? 0)); [exact C|].
    destruct (Session.first _); exact C.
  - unfold credits_in_range. rewrite submit_score_courses. exact C.
  - unfold Teacher.delete_course.
    destruct (negb (User.role u =? 1)); [exact C|].
    destruct cid as [|[cid|]]; try exact C.
    destruct (Session.course_get db cid) as [c|]; [|exact C].
    destruct (Course.teacher_id c) as [t|]; [|exact C].
    destruct (t =? User.id u); [|exact C].
    destruct (Session.delete_course db c) eqn:E; [|exact C].
    simpl. eapply session_delete_course_credits; eassumption.
  - unfold Admin.delete_course.
    destruct (negb (User.role u =? 2)); [exact C|].
    destruct (Session.course_get db cid) as [c|]; [|exact C].
    destruct (Session.delete_course db c) eqn:E; [|exact C].
    simpl. eapply session_delete_course_credits; eassumption.
  - destruct (admin_add_course_rows u s nm cr db) as (_ & _ & [H|(c & H & Hc)]);
      unfold credits_in_range; rewrite H; [exact C|].
    apply Forall_app. split; [exact C|]. constructor; [exact Hc|constructor].
  - apply admin_edit_course_rows, C.
Qed.

(** X15: as long as no course comes from the teacher's own form, every course
    keeps a credit in [[0.5,10]] whatever requests follow one another: the
    form of [add_course] and the check of [edit_course] let no other credit
    in, and no other handler writes a credit. *)
Theorem run_courses_credits_in_range (db : DB) (rs : list course_request) :
  credits_in_range db ->
  forallb (fun r => negb (teacher_form r)) rs = true ->
  credits_in_range (run_courses db rs).
Proof.
  unfold run_courses. revert db.
  induction rs as [|r rs IH]; intros db C H; simpl in *; [exact C|].
  apply andb_true_iff in H as [H1 H2]. apply negb_true_iff in H1.
  apply IH; [|exact H2]. apply handle_course_credits; assumption.
Qed.

Lemma run_courses_credits_in_range_witness :
  credits_in_range
    (run_courses Sample.empty
       [ AdminAddCourse Sample.teacher true "Logic" (Text (Some 3%float));
         AdminAddCourse Sample.admin true "Sets" (Text (Some 100%float));
         AdminEditCourse [Sample.teacher] Sample.admin 1 "Algebra" (Text (Some 0.1%float))
           Admin.NoTeacher;
         AdminEditCourse [Sample.teacher] Sample.admin 1 "Algebra" (Text (Some 10%float))
           Admin.NoTeacher;
         Request (AdminDeleteCourse Sample.admin 2) ]).
Proof.
  apply run_courses_credits_in_range; [constructor|reflexivity].
Defined.

(** ** Skills *)

Lemma skill_of_some (db : SkillDB) (sid uid : Z) (skill : Skill.t) :
  SkillSession.skill_of db sid uid = Some skill ->
  In skill (skills db) /\ Skill.id skill = sid /\ Skill.user_id skill = uid.
Proof.
  unfold SkillSession.skill_of. intros H. apply find_some in H. destruct H as [H1 H2].
  apply andb_true_iff in H2 as [H2 H3]. apply Z.eqb_eq in H2, H3. auto.
Qed.

Lemma level_ok_iff (l : Z) : SkillSession.level_ok l = true <-> 1 <= l <= 5.
Proof. unfold SkillSession.level_ok. rewrite andb_true_iff, !Z.leb_le. reflexivity. Qed.

Lemma skill_named_none (db : SkillDB) (nm : string) (uid : Z) :
  SkillSession.skill_named db nm uid = None <->
  (forall s, In s (skills db) -> Skill.user_id s = uid -> Skill.name s <> nm).
Proof.
  unfold SkillSession.skill_named. split.
  - intros F s Hs Hu Hn. pose proof (find_none _ _ F s Hs) as N. cbn beta in N.
    rewrite Hn, Hu, String.eqb_refl, Z.eqb_refl in N. discriminate.
  - intros H. destruct (find _ (skills db)) as [s|] eqn:F; [|reflexivity].
    apply find_some in F. destruct F as [Hs E].
    apply andb_true_iff in E as [E1 E2]. apply String.eqb_eq in E1. apply Z.eqb_eq in E2.
    contradiction (H s Hs E2 E1).
Qed.

Lemma skill_of_none (db : SkillDB) (sid uid : Z) :
  SkillSession.skill_of db sid uid = None <->
  ~ (exists s, In s (skills db) /\ Skill.id s = sid /\ Skill.user_id s = uid).
Proof.
  unfold SkillSession.skill_of. split.
  - intros F (s & Hs & Hi & Hu). pose proof (find_none _ _ F s Hs) as N. cbn beta in N.
    rewrite Hi, Hu, !Z.eqb_refl in N. discriminate.
  - intros H. destruct (find _ (skills db)) as [s|] eqn:F; [|reflexivity].
    apply find_some in F. destruct F as [Hs E].
    apply andb_true_iff in E as [E1 E2]. apply Z.eqb_eq in E1, E2.
    contradiction H. exists s. repeat split; assumption.
Qed.

(** X16: [add_skill] of routes/skill.py adds a skill exactly when the caller
    is a student, the name is not empty, the target level reads as an
    integer from 1 to 5, the current level is left out or reads as an integer
    from 1 to 5, and the caller has no skill of that name.  It then appends
    one skill with a key no skill had, which carries the name, the caller as
    its owner, the target level and the current level, 1 when it was left
    out, and leaves the records; every other answer leaves the tables as
    they were. *)
Theorem bp_add_skill_exact (current_user : User.t) (name : string)
  (current_level target_level : field Z) (db : SkillDB) :
  (fst (SkillBp.add_skill current_user name current_level target_level db) =
     SkillBp.Added <->
   User.role current_user = 0 /\ name <> EmptyString /\
   (forall s, In s (skills db) -> Skill.user_id s = User.id current_user ->
              Skill.name s <> name) /\
   exists cur tgt,
     (current_level = Blank /\ cur = 1 \/ current_level = Text (Some cur)) /\
     target_level = Text (Some tgt) /\
     1 <= cur <= 5 /\ 1 <= tgt <= 5) /\
  (fst (SkillBp.add_skill current_user name current_level target_level db) =
     SkillBp.Added ->
   exists s,
     skills (snd (SkillBp.add_skill current_user name current_level target_level db)) =
       skills db ++ [s] /\
     skill_records
       (snd (SkillBp.add_skill current_user name current_level target_level db)) =
       skill_records db /\
     ~ In (Skill.id s) (map Skill.id (skills db)) /\
     Skill.name s = name /\ Skill.user_id s = User.id current_user /\
     target_level = Text (Some (Skill.target_level s)) /\
     (current_level = Blank /\ Skill.current_level s = 1 \/
      current_level = Text (Some (Skill.current_level s)))) /\
  (fst (SkillBp.add_skill current_user name current_level target_level db) <>
     SkillBp.Added ->
   snd (SkillBp.add_skill current_user name current_level target_level db) = db).
Proof.
  unfold SkillBp.add_skill.
  destruct (User.role current_user =? 0) eqn:Er; simpl.
  2:{ apply Z.eqb_neq in Er. repeat split; try discriminate.
      intros [H _]. contradiction. }
  apply Z.eqb_eq in Er.
  destruct target_level as [|target].
  { repeat split; try discriminate.
    intros (_ & _ & _ & c' & t' & _ & H & _). discriminate. }
  destruct (String.eqb_spec name EmptyString) as [En|En].
  { repeat split; try discriminate. intros (_ & H & _). contradiction. }
  set (current := match current_level with Blank => Some 1 | Text c => c end).
  assert (Hc : forall cur, (current_level = Blank /\ cur = 1 \/
                            current_level = Text (Some cur)) <-> current = Some cur).
  { intros cur. unfold current. destruct current_level as [|[c|]]; split;
      try (intros [[H1 H2]|H]; congruence); intros H; try discriminate.
    - left. split; congruence.
    - right. congruence. }
  destruct current as [cur|] eqn:Ecur, target as [tgt|];
    try (repeat split; try discriminate;
         intros (_ & _ & _ & c' & t' & H1 & H2 & _); apply Hc in H1; congruence).
  destruct (SkillSession.level_ok cur) eqn:Lc, (SkillSession.level_ok tgt) eqn:Lt; simpl;
    try (repeat split; try discriminate;
         intros (_ & _ & _ & c' & t' & H1 & H2 & H3 & H4); apply Hc in H1;
         apply level_ok_iff in H3, H4; congruence).
  destruct (SkillSession.skill_named db name (User.id current_user)) eqn:Es.
  { repeat split; try discriminate.
    intros (_ & _ & H & _). apply skill_named_none in H. congruence. }
  split; [|split].
  - split; [|reflexivity]. intros _. repeat split; try assumption.
    + apply skill_named_none, Es.
    + exists cur, tgt. apply level_ok_iff in Lc, Lt.
      repeat split; try lia. apply Hc. reflexivity.
  - intros _. eexists. split; [reflexivity|]. split; [reflexivity|].
    cbn [Skill.id Skill.name Skill.user_id Skill.target_level Skill.current_level].
    split.
    { intros Hin. pose proof (next_id_fresh _ _ Hin). lia. }
    repeat split. apply Hc. reflexivity.
  - intros H. contradiction H. reflexivity.
Qed.

Lemma skill_named_filter (db : SkillDB) (nm : string) (uid : Z) :
  SkillSession.skill_named db nm uid = Session.first (skills_named db nm uid).
Proof.
  unfold SkillSession.skill_named, skills_named, Session.first.
  induction (skills db) as [|a l IH]; simpl; [reflexivity|].
  destruct (String.eqb (Skill.name a) nm && (Skill.user_id a =? uid)); [reflexivity|exact IH].
Qed.

(** X17: the two handlers that add a skill differ on a name the student
    already has: [add_skill] of routes/skill.py answers that the skill
    exists and adds nothing, [add_skill] of routes/student.py adds a second
    skill of that name. *)
Theorem student_add_skill_duplicates (current_user : User.t) (name : string)
  (cur tgt : Z) (db : SkillDB) :
  User.role current_user = 0 ->
  name <> EmptyString ->
  1 <= cur <= 5 -> 1 <= tgt <= 5 ->
  SkillSession.skill_named db name (User.id current_user) <> None ->
  SkillBp.add_skill current_user name (Text (Some cur)) (Text (Some tgt)) db =
    (SkillBp.Exists, db) /\
  exists db',
    StudentSkill.add_skill current_user name (Text (Some cur)) (Text (Some tgt)) db =
      (StudentSkill.Added, db') /\
    List.length (skills_named db' name (User.id current_user)) =
      S (List.length (skills_named db name (User.id current_user))) /\
    (2 <= List.length (skills_named db' name (User.id current_user)))%nat.
Proof.
  intros Hr Hn Hc Ht Hs.
  apply level_ok_iff in Hc, Ht.
  unfold SkillBp.add_skill, StudentSkill.add_skill. rewrite Hr. simpl.
  destruct (String.eqb_spec name EmptyString) as [E|_]; [contradiction|].
  rewrite Hc, Ht. simpl.
  destruct (SkillSession.skill_named db name (User.id current_user)) as [s|] eqn:Es;
    [|contradiction]. split; [reflexivity|].
  eexists. split; [reflexivity|].
  assert (L : List.length
                (skills_named (SkillSession.add_skill db name cur tgt (User.id current_user))
                   name (User.id current_user)) =
              S (List.length (skills_named db name (User.id current_user)))).
  { unfold skills_named, SkillSession.add_skill. cbn [skills].
    rewrite filter_app, length_app. cbn [filter Skill.name Skill.user_id].
    rewrite String.eqb_refl, Z.eqb_refl. simpl. lia. }
  split; [exact L|]. rewrite L.
  rewrite skill_named_filter in Es. apply first_some_cons in Es.
  destruct Es as [rest Es]. rewrite Es. simpl. lia.
Qed.

Lemma student_add_skill_duplicates_witness :
  SkillBp.add_skill Sample.student "Rocq" (Text (Some 2)) (Text (Some 4))
    {| skills := [ {| Skill.id := 1; Skill.name := "Rocq"; Skill.current_level := 1;
                      Skill.target_level := 3; Skill.user_id := 7 |} ];
       skill_records := [] |} =
  (SkillBp.Exists,
   {| skills := [ {| Skill.id := 1; Skill.name := "Rocq"; Skill.current_level := 1;
                     Skill.target_level := 3; Skill.user_id := 7 |} ];
      skill_records := [] |}).
Proof.
  apply (student_add_skill_duplicates Sample.student "Rocq" 2 4); simpl;
    try lia; try discriminate; reflexivity.
Defined.


(** X18: [edit_skill] of routes/skill.py saves exactly when the caller is a
    student who owns a skill of that key, the name is not empty, both levels
    read as integers of 64 bits and no other skill of the caller has the
    name; the levels are not held to the range from 1 to 5.  The skill of
    that key then carries the name and the levels submitted, the other
    skills, the keys and the records stay, and every other answer leaves the
    tables as they were. *)
Theorem bp_edit_skill_exact (current_user : User.t) (id : Z) (name : string)
  (current_level target_level : field Z) (db : SkillDB) :
  (fst (SkillBp.edit_skill current_user id name current_level target_level db) =
     SkillBp.Saved <->
   User.role current_user = 0 /\ name <> EmptyString /\
   (exists s, In s (skills db) /\ Skill.id s = id /\
              Skill.user_id s = User.id current_user) /\
   (forall s, In s (skills db) -> Skill.name s = name ->
              Skill.user_id s = User.id current_user -> Skill.id s = id) /\
   exists cur tgt,
     current_level = Text (Some cur) /\ target_level = Text (Some tgt) /\
     - 2 ^ 63 <= cur < 2 ^ 63 /\ - 2 ^ 63 <= tgt < 2 ^ 63) /\
  (fst (SkillBp.edit_skill current_user id name current_level target_level db) =
     SkillBp.Saved ->
   exists cur tgt,
     let db' := snd (SkillBp.edit_skill current_user id name current_level
                       target_level db) in
     current_level = Text (Some cur) /\ target_level = Text (Some tgt) /\
     In {| Skill.id := id; Skill.name := name; Skill.current_level := cur;
           Skill.target_level := tgt; Skill.user_id := User.id current_user |}
        (skills db') /\
     (forall s, In s (skills db') -> Skill.id s = id ->
                Skill.name s = name /\ Skill.current_level s = cur /\
                Skill.target_level s = tgt) /\
     (forall s, Skill.id s <> id -> (In s (skills db') <-> In s (skills db))) /\
     map Skill.id (skills db') = map Skill.id (skills db) /\
     skill_records db' = skill_records db) /\
  (fst (SkillBp.edit_skill current_user id name current_level target_level db) <>
     SkillBp.Saved ->
   snd (SkillBp.edit_skill current_user id name current_level target_level db) = db).
Proof.
  unfold SkillBp.edit_skill.
  destruct (User.role current_user =? 0) eqn:Er; simpl.
  2:{ apply Z.eqb_neq in Er. repeat split; try discriminate.
      intros [H _]. contradiction. }
  apply Z.eqb_eq in Er.
  destruct (SkillSession.skill_of db id (User.id current_user)) as [skill|] eqn:Es.
  2:{ repeat split; try discriminate. intros (_ & _ & H & _).
      apply skill_of_none in Es. contradiction. }
  destruct (skill_of_some _ _ _ _ Es) as (Hin & Hid & Hu).
  destruct current_level as [|current];
    [repeat split; try discriminate;
     intros (_ & _ & _ & _ & c' & t' & H & _); discriminate|].
  destruct target_level as [|target];
    [repeat split; try discriminate;
     intros (_ & _ & _ & _ & c' & t' & _ & H & _); discriminate|].
  destruct (String.eqb_spec name EmptyString) as [En|En].
  { repeat split; try discriminate. intros (_ & H & _). contradiction. }
  destruct (existsb _ (skills db)) eqn:Ex.
  { repeat split; try discriminate. intros (_ & _ & _ & H & _).
    apply existsb_exists in Ex. destruct Ex as (s & Hs & E).
    apply andb_true_iff in E as [E E3]. apply andb_true_iff in E as [E1 E2].
    apply String.eqb_eq in E1. apply Z.eqb_eq in E2.
    apply negb_true_iff, Z.eqb_neq in E3. contradiction E3. apply H; assumption. }
  destruct current as [cur|];
    [|repeat split; try discriminate;
      intros (_ & _ & _ & _ & c' & t' & H & _); discriminate].
  destruct target as [tgt|];
    [|repeat split; try discriminate;
      intros (_ & _ & _ & _ & c' & t' & _ & H & _); discriminate].
  destruct (Session.int64 cur && Session.int64 tgt) eqn:Eb; simpl.
  2:{ repeat split; try discriminate.
      intros (_ & _ & _ & _ & c' & t' & H1 & H2 & H3 & H4).
      injection H1 as <-. injection H2 as <-.
      apply int64_iff in H3, H4. rewrite H3, H4 in Eb. discriminate. }
  apply andb_true_iff in Eb as [Eb1 Eb2]. apply int64_iff in Eb1, Eb2.
  assert (Hf : forall x,
             Skill.id x = id ->
             (if Skill.id x =? Skill.id skill
              then {| Skill.id := Skill.id x; Skill.name := name;
                      Skill.current_level := cur; Skill.target_level := tgt;
                      Skill.user_id := Skill.user_id x |}
              else x) =
             {| Skill.id := id; Skill.name := name; Skill.current_level := cur;
                Skill.target_level := tgt; Skill.user_id := Skill.user_id x |}).
  { intros x Hx. rewrite Hid, Hx, Z.eqb_refl. reflexivity. }
  assert (Hg : forall x,
             Skill.id x <> id ->
             (if Skill.id x =? Skill.id skill
              then {| Skill.id := Skill.id x; Skill.name := name;
                      Skill.current_level := cur; Skill.target_level := tgt;
                      Skill.user_id := Skill.user_id x |}
              else x) = x).
  { intros x Hx. rewrite Hid. destruct (Z.eqb_spec (Skill.id x) id); [contradiction|].
    reflexivity. }
  split; [|split].
  - split; [|reflexivity]. intros _. repeat split; try assumption.
    + exists skill. repeat split; assumption.
    + intros s Hs Hn Hus.
      destruct (Z.eqb_spec (Skill.id s) id) as [E|E]; [exact E|].
      assert (F : existsb (fun s => String.eqb (Skill.name s) name &&
                                    (Skill.user_id s =? User.id current_user) &&
                                    negb (Skill.id s =? id)) (skills db) = true).
      { apply existsb_exists. exists s. split; [exact Hs|].
        rewrite Hn, Hus, String.eqb_refl, Z.eqb_refl. simpl.
        apply negb_true_iff, Z.eqb_neq, E. }
      congruence.
    + exists cur, tgt. repeat split; lia.
  - intros _. exists cur, tgt. cbv zeta.
    unfold SkillSession.update_skill. cbn [skills skill_records].
    split; [reflexivity|]. split; [reflexivity|]. split; [|split; [|split; [|split]]].
    + apply in_map_iff. exists skill. split; [|exact Hin].
      rewrite (Hf skill Hid), Hu. reflexivity.
    + intros s Hs Hsid. apply in_map_iff in Hs. destruct Hs as (x & <- & Hx).
      destruct (Z.eq_dec (Skill.id x) id) as [E|E].
      * rewrite (Hf x E). repeat split.
      * rewrite (Hg x E) in Hsid. contradiction.
    + intros s Hs. rewrite in_map_iff. split.
      * intros (x & <- & Hx). destruct (Z.eq_dec (Skill.id x) id) as [E|E].
        -- rewrite (Hf x E) in Hs. contradiction Hs. reflexivity.
        -- rewrite (Hg x E). exact Hx.
      * intros Hx. exists s. split; [apply Hg, Hs|exact Hx].
    + rewrite map_map. apply map_ext.
      intros x. destruct (Skill.id x =? Skill.id skill); reflexivity.
    + reflexivity.
  - intros H. contradiction H. reflexivity.
Qed.


(** ** Invariants of the skill handlers *)

(** What a request does to the skills: nothing, or it appends a skill of the
    sender, rewrites one or deletes one. *)
Lemma handle_skill_shape (db : SkillDB) (r : skill_request) :
  skills (handle_skill db r) = skills db \/
  (exists nm cur tgt,
     skills (handle_skill db r) =
       skills (SkillSession.add_skill db nm cur tgt (User.id (skill_actor r))) /\
     (checks_names r = true ->
      SkillSession.skill_named db nm (User.id (skill_actor r)) = None)) \/
  (exists skill nm cur tgt,
     In skill (skills db) /\ Skill.user_id skill = User.id (skill_actor r) /\
     skills (handle_skill db r) = skills (SkillSession.update_skill db skill nm cur tgt) /\
     (checks_names r = true ->
      forall s, In s (skills db) -> Skill.name s = nm ->
                Skill.user_id s = User.id (skill_actor r) -> Skill.id s = Skill.id skill)) \/
  (exists skill,
     In skill (skills db) /\ Skill.user_id skill = User.id (skill_actor r) /\
     skills (handle_skill db r) =
       filter (fun s => negb (Skill.id s =? Skill.id skill)) (skills db)).
Proof.
  destruct r as [u nm cl tl|u id nm cl tl|u id|u nm cl tl|u id nm cl tl|u id];
    cbn [handle_skill skill_actor checks_names].
  - unfold SkillBp.add_skill.
    destruct (negb (User.role u =? 0)); [left; reflexivity|].
    destruct tl as [|[tgt|]]; try (left; reflexivity);
      destruct (String.eqb nm EmptyString); try (left; reflexivity);
      destruct cl as [|[cur|]]; try (left; reflexivity).
    + destruct (negb (SkillSession.level_ok 1) || negb (SkillSession.level_ok tgt));
        [left; reflexivity|].
      destruct (SkillSession.skill_named db nm (User.id u)) eqn:E; [left; reflexivity|].
      right. left. exists nm, 1, tgt. split; [reflexivity|]. intros _. exact E.
    + destruct (negb (SkillSession.level_ok cur) || negb (SkillSession.level_ok tgt));
        [left; reflexivity|].
      destruct (SkillSession.skill_named db nm (User.id u)) eqn:E; [left; reflexivity|].
      right. left. exists nm, cur, tgt. split; [reflexivity|]. intros _. exact E.
  - unfold SkillBp.edit_skill.
    destruct (negb (User.role u =? 0)); [left; reflexivity|].
    destruct (SkillSession.skill_of db id (User.id u)) as [skill|] eqn:Es;
      [|left; reflexivity].
    destruct (skill_of_some _ _ _ _ Es) as (Hin & Hid & Hu).
    destruct cl as [|current]; [left; reflexivity|].
    destruct tl as [|target]; [left; reflexivity|].
    destruct (String.eqb nm EmptyString); [left; reflexivity|].
    destruct (existsb _ (skills db)) eqn:Ex; [left; reflexivity|].
    destruct current as [cur|], target as [tgt|]; try (left; reflexivity).
    destruct (Session.int64 cur && Session.int64 tgt); [|left; reflexivity].
    right. right. left. exists skill, nm, cur, tgt. repeat split; try assumption.
    intros _ s Hs Hn Hus. rewrite Hid.
    destruct (Z.eqb_spec (Skill.id s) id) as [E|E]; [exact E|].
    assert (F : existsb (fun s => String.eqb (Skill.name s) nm &&
                                  (Skill.user_id s =? User.id u) &&
                                  negb (Skill.id s =? id)) (skills db) = true).
    { apply existsb_exists. exists s. split; [exact Hs|].
      rewrite Hn, Hus, String.eqb_refl, Z.eqb_refl. simpl.
      apply negb_true_iff, Z.eqb_neq, E. }
    congruence.
  - unfold SkillBp.delete_skill.
    destruct (negb (User.role u =? 0)); [left; reflexivity|].
    destruct (SkillSession.skill_of db id (User.id u)) as [skill|] eqn:Es;
      [|left; reflexivity].
    destruct (skill_of_some _ _ _ _ Es) as (Hin & Hid & Hu).
    right. right. right. exists skill. repeat split; assumption.
  - unfold StudentSkill.add_skill.
    destruct (negb (User.role u =? 0)); [left; reflexivity|].
    destruct cl as [|[cur|]], tl as [|[tgt|]]; try (left; reflexivity);
      destruct (String.eqb nm EmptyString); try (left; reflexivity).
    destruct (negb (SkillSession.level_ok cur) || negb (SkillSession.level_ok tgt));
      [left; reflexivity|].
    right. left. exists nm, cur, tgt. split; [reflexivity|discriminate].
  - unfold StudentSkill.edit_skill.
    destruct (negb (User.role u =? 0)); [left; reflexivity|].
    destruct (SkillSession.skill_of db id (User.id u)) as [skill|] eqn:Es;
      [|left; reflexivity].
    destruct (skill_of_some _ _ _ _ Es) as (Hin & Hid & Hu).
    destruct (String.eqb nm EmptyString); [left; reflexivity|].
    destruct cl as [|[cur|]], tl as [|[tgt|]]; try (left; reflexivity).
    destruct (Session.int64 cur && Session.int64 tgt); [|left; reflexivity].
    right. right. left. exists skill, nm, cur, tgt. repeat split; try assumption.
    discriminate.
  - unfold StudentSkill.delete_skill.
    destruct (negb (User.role u =? 0)); [left; reflexivity|].
    destruct (SkillSession.skill_of db id (User.id u)) as [skill|] eqn:Es;
      [|left; reflexivity].
    destruct (skill_of_some _ _ _ _ Es) as (Hin & Hid & Hu).
    right. right. right. exists skill. repeat split; assumption.
Qed.

Lemma handle_skill_ids (db : SkillDB) (r : skill_request) :
  unique_skill_ids db -> unique_skill_ids (handle_skill db r).
Proof.
  unfold unique_skill_ids. intros U.
  destruct (handle_skill_shape db r)
    as [H|[(nm & cur & tgt & H & _)|[(skill & nm & cur & tgt & _ & _ & H & _)
                                    |(skill & _ & _ & H)]]]; rewrite H.
  - exact U.
  - cbn [SkillSession.add_skill skills]. rewrite map_app. apply NoDup_snoc_fresh, U.
  - cbn [SkillSession.update_skill skills]. rewrite map_map.
    erewrite map_ext; [exact U|].
    intros x. simpl. destruct (Skill.id x =? Skill.id skill); reflexivity.
  - apply NoDup_map_filter, U.
Qed.

Lemma handle_skill_others (db : SkillDB) (r : skill_request) (v : Z) :
  unique_skill_ids db -> User.id (skill_actor r) <> v ->
  skills_of (handle_skill db r) v = skills_of db v.
Proof.
  unfold unique_skill_ids, skills_of. intros U Hv.
  destruct (handle_skill_shape db r)
    as [H|[(nm & cur & tgt & H & _)|[(skill & nm & cur & tgt & Hin & Hu & H & _)
                                    |(skill & Hin & Hu & H)]]]; rewrite H.
  - reflexivity.
  - cbn [SkillSession.add_skill skills]. rewrite filter_app. cbn [filter Skill.user_id].
    destruct (Z.eqb_spec (User.id (skill_actor r)) v); [contradiction|].
    apply app_nil_r.
  - cbn [SkillSession.update_skill skills].
    rewrite filter_map_same
      by (intros x; destruct (Skill.id x =? Skill.id skill); reflexivity).
    apply map_same_on. intros x Hx. apply filter_In in Hx. destruct Hx as [Hx Hxv].
    apply Z.eqb_eq in Hxv.
    destruct (Z.eqb_spec (Skill.id x) (Skill.id skill)) as [E|E]; [|reflexivity].
    pose proof (NoDup_map_eq Skill.id _ x skill U Hx Hin E). subst x. congruence.
  - rewrite filter_swap. apply forallb_filter_id, forallb_forall. intros x Hx.
    apply filter_In in Hx. destruct Hx as [Hx Hxv]. apply Z.eqb_eq in Hxv.
    apply negb_true_iff, Z.eqb_neq. intros E.
    pose proof (NoDup_map_eq Skill.id _ x skill U Hx Hin E). subst x. congruence.
Qed.

(** X20: no request touches the skills of another user: whatever requests
    follow one another to the six skill handlers, none of them sent by a
    given user, the skills of that user are the rows they were, and the
    keys stay distinct. *)
Theorem run_skills_isolated (db : SkillDB) (rs : list skill_request) (v : Z) :
  unique_skill_ids db ->
  forallb (fun r => negb (User.id (skill_actor r) =? v)) rs = true ->
  skills_of (run_skills db rs) v = skills_of db v /\
  unique_skill_ids (run_skills db rs).
Proof.
  unfold run_skills. revert db.
  induction rs as [|r rs IH]; intros db U H; simpl in *; [split; [reflexivity|exact U]|].
  apply andb_true_iff in H as [H1 H2]. apply negb_true_iff, Z.eqb_neq in H1.
  destruct (IH (handle_skill db r) (handle_skill_ids db r U) H2) as [E U'].
  split; [|exact U']. rewrite E. apply handle_skill_others; assumption.
Qed.

Lemma run_skills_isolated_witness :
  skills_of
    (run_skills
       {| skills := [ {| Skill.id := 1; Skill.name := "Rocq"; Skill.current_level := 1;
                         Skill.target_level := 3; Skill.user_id := 8 |} ];
          skill_records := [] |}
       [ StudentAddSkill Sample.student "Rocq" (Text (Some 2)) (Text (Some 4));
         BpEditSkill Sample.student 1 "Lean" (Text (Some 2)) (Text (Some 4));
         StudentEditSkill Sample.student 2 "Lean" (Text (Some 5)) (Text (Some 5));
         BpDeleteSkill Sample.student 1;
         StudentDeleteSkill Sample.student 2 ]) 8 =
  [ {| Skill.id := 1; Skill.name := "Rocq"; Skill.current_level := 1;
       Skill.target_level := 3; Skill.user_id := 8 |} ].
Proof.
  apply (run_skills_isolated
           {| skills := [ {| Skill.id := 1; Skill.name := "Rocq";
                             Skill.current_level := 1;
                             Skill.target_level := 3; Skill.user_id := 8 |} ];
              skill_records := [] |}).
  - repeat constructor. simpl. intuition.
  - reflexivity.
Defined.

Lemma skill_names_filter (p : Skill.t -> bool) (l : list Skill.t) :
  NoDup (map skill_key l) -> NoDup (map skill_key (filter p l)).
Proof.
  intros H. induction l as [|a l IH]; simpl; [constructor|].
  inversion H as [|? ? Hn Hd]; subst. specialize (IH Hd).
  destruct (p a); simpl; [|exact IH].
  constructor; [|exact IH].
  intros Hin. apply in_map_iff in Hin. destruct Hin as (x & E & Hx).
  apply Hn. rewrite <- E. apply in_map. apply filter_In in Hx. apply Hx.
Qed.

Lemma rename_keeps_names (i uid : Z) (nm : string) (cur tgt : Z) (l : list Skill.t) :
  NoDup (map Skill.id l) -> NoDup (map skill_key l) ->
  (forall s, In s l -> Skill.id s = i -> Skill.user_id s = uid) ->
  (forall s, In s l -> Skill.name s = nm -> Skill.user_id s = uid -> Skill.id s = i) ->
  NoDup (map skill_key
           (map (fun s => if Skill.id s =? i
                          then {| Skill.id := Skill.id s; Skill.name := nm;
                                  Skill.current_level := cur; Skill.target_level := tgt;
                                  Skill.user_id := Skill.user_id s |}
                          else s) l)).
Proof.
  induction l as [|a l IH]; intros Hi Hk Hu Hn; simpl; [constructor|].
  inversion Hi as [|? ? Hia Hil]; inversion Hk as [|? ? Hka Hkl]; subst.
  constructor.
  - intros Hin. apply in_map_iff in Hin. destruct Hin as (y & Ey & Hy).
    apply in_map_iff in Hy. destruct Hy as (x & <- & Hx).
    assert (Hxa : Skill.id x <> Skill.id a).
    { intros E. apply Hia. rewrite <- E. apply in_map, Hx. }
    destruct (Z.eqb_spec (Skill.id a) i) as [Ea|Ea].
    + destruct (Z.eqb_spec (Skill.id x) i) as [Ex|Ex]; [congruence|].
      unfold skill_key in Ey. cbn [Skill.name Skill.user_id] in Ey.
      injection Ey as E1 E2. apply Ex. apply Hn.
      * right. exact Hx.
      * exact E1.
      * rewrite E2. apply (Hu a); [left; reflexivity|exact Ea].
    + destruct (Z.eqb_spec (Skill.id x) i) as [Ex|Ex].
      * unfold skill_key in Ey. cbn [Skill.name Skill.user_id] in Ey.
        injection Ey as E1 E2. apply Ea. apply Hn.
        -- left. reflexivity.
        -- symmetry. exact E1.
        -- rewrite <- E2. apply (Hu x); [right; exact Hx|exact Ex].
      * apply Hka. rewrite <- Ey. apply in_map, Hx.
  - apply IH; try assumption.
    + intros s Hs. apply Hu. right. exact Hs.
    + intros s Hs. apply Hn. right. exact Hs.
Qed.

Lemma handle_skill_names (db : SkillDB) (r : skill_request) :
  checks_names r = true ->
  unique_skill_ids db -> unique_skill_names db -> unique_skill_names (handle_skill db r).
Proof.
  unfold unique_skill_ids, unique_skill_names. intros Hc U N.
  destruct (handle_skill_shape db r)
    as [H|[(nm & cur & tgt & H & Hf)|[(skill & nm & cur & tgt & Hin & Hu & H & Hf)
                                     |(skill & _ & _ & H)]]]; rewrite H.
  - exact N.
  - cbn [SkillSession.add_skill skills]. rewrite map_app.
    apply NoDup_app; [exact N|constructor; [intros []|constructor]|].
    intros k Hk [<-|[]]. apply in_map_iff in Hk. destruct Hk as (x & Ek & Hx).
    unfold skill_key in Ek. cbn [Skill.name Skill.user_id] in Ek. injection Ek as E1 E2.
    specialize (Hf Hc). unfold SkillSession.skill_named in Hf.
    pose proof (find_none _ _ Hf x Hx) as F. cbn beta in F.
    rewrite E1, E2, String.eqb_refl, Z.eqb_refl in F. discriminate.
  - cbn [SkillSession.update_skill skills].
    apply (rename_keeps_names (Skill.id skill) (User.id (skill_actor r))); try assumption.
    + intros s Hs E. rewrite (NoDup_map_eq Skill.id _ s skill U Hs Hin E). exact Hu.
    + apply Hf, Hc.
  - apply skill_names_filter, N.
Qed.

(** X21: as long as the requests go to the handlers of routes/skill.py, or to
    a deletion, no student gets two skills of one name: tables with distinct
    keys and at most one skill per name and owner stay such tables whatever
    requests follow one another. *)
Theorem run_skills_unique_names (db : SkillDB) (rs : list skill_request) :
  unique_skill_ids db -> unique_skill_names db ->
  forallb checks_names rs = true ->
  unique_skill_names (run_skills db rs) /\ unique_skill_ids (run_skills db rs).
Proof.
  unfold run_skills. revert db.
  induction rs as [|r rs IH]; intros db U N H; simpl in *; [split; assumption|].
  apply andb_true_iff in H as [H1 H2].
  apply IH; [apply handle_skill_ids, U|apply handle_skill_names; assumption|exact H2].
Qed.

Lemma run_skills_unique_names_witness :
  unique_skill_names
    (run_skills {| skills := []; skill_records := [] |}
       [ BpAddSkill Sample.student "Rocq" Blank (Text (Some 4));
         BpAddSkill Sample.student "Rocq" (Text (Some 2)) (Text (Some 5));
         BpAddSkill Sample.student "Lean" (Text (Some 2)) (Text (Some 5));
         BpEditSkill Sample.student 2 "Rocq" (Text (Some 2)) (Text (Some 4));
         StudentDeleteSkill Sample.student 1;
         BpEditSkill Sample.student 2 "Rocq" (Text (Some 9)) (Text (Some 4)) ]).
Proof.
  apply run_skills_unique_names; [constructor|constructor|reflexivity].
Defined.
